(** * RSA provider of node-webcrypto-ossl: a shallow embedding of src/lib/rsa.ts

    The TypeScript classes [Rsa], [RsaPKCS1], [RsaPSS] and [RsaOAEP] are
    embedded as functions of a small state-and-exception monad.  The state is
    the JavaScript object store (objects are string-keyed maps living at
    references, so that aliasing and in-place mutation are visible) together
    with the chronological list of externally observable events: requests
    sent to the native engine and invocations of the caller's completion
    callback. *)

From Stdlib Require Import ZArith NArith QArith String Ascii List Lia Bool.
From Stdlib Require Import Strings.Byte.
From stdpp Require Import base option list gmap strings.

Local Open Scope Z_scope.

(** ** JavaScript values *)

Inductive ErrorKind := TypeError | PlainError.

(** An [Error] (or [TypeError]) instance: only its class and its message are
    observable in this file. *)
Record error := mkError { err_kind : ErrorKind; err_message : string }.

Definition handle := nat.
Definition loc := nat.

Inductive value :=
| VUndefined
| VNull
| VBool (b : bool)
| VNum (n : Z)
| VNaN
| VStr (s : string)
| VBuffer (bs : list byte)
| VUint8Array (bs : list byte)
| VArray (xs : list string)
| VKey (h : handle)        (* a native.Key instance *)
| VAesKey (h : handle)     (* a native.AesKey instance *)
| VRef (l : loc)           (* a plain object, by reference *)
| VFrac (q : Q)            (* a finite number, by its rational value *)
| VInfinity (negative : bool).

Abbreviation object := (gmap string value).
Abbreviation store := (list object).

(** ** Requests to the native engine (native.Key, native.AesKey)

    A request carries the arguments of the native call.  [ImportJwk] receives
    the JWK object by reference; [content] records what that object holds at
    the moment of the call, which is what the engine reads. *)

Inductive KeyType := PUBLIC | PRIVATE.

Inductive request :=
| GenerateRsa (size : value) (nExp : Z)
| ImportJwk (jwk : value) (content : option object) (key_type : KeyType)
| ImportPkcs8 (der : value)
| ImportSpki (der : value)
| ExportJwk (k : handle) (key_type : KeyType)
| ExportSpki (k : handle)
| ExportPkcs8 (k : handle)
| Sign (k : handle) (md : string) (data : value)
| Verify (k : handle) (md : string) (data signature : value)
| RsaPssSign (k : handle) (md : string) (saltLen : value) (data : value)
| RsaPssVerify (k : handle) (md : string) (saltLen : value) (data signature : value)
| RsaOaepEncDec (k : handle) (md : string) (data label : value) (decrypt : bool)
| AesExport (k : handle)
| AesImport (raw : value).

(** What the engine hands to its completion callback as second argument:
    a value that is not a reference, or a freshly created object. *)
Inductive payload :=
| PUndefined
| PNull
| PBool (b : bool)
| PBuffer (bs : list byte)
| PKey (h : handle)
| PAesKey (h : handle)
| PObject (o : object).

Definition completion : Type := option error * payload.

(** ** Observable events *)

Inductive event :=
| Call (r : request)                              (* the engine is contacted *)
| Deliver (err : option error) (data : value)     (* cb(err, data) *)
| Uncaught (e : error).                           (* escapes an engine callback *)

Record state := mkState { heap : store; events : list event }.

(** ** The monad: state plus exceptions *)

Inductive outcome (A : Type) :=
| Ok (a : A)
| Thrown (e : error).
Arguments Ok {A} a.
Arguments Thrown {A} e.

Definition M (A : Type) : Type := state -> outcome A * state.

Definition ret {A} (a : A) : M A := fun st => (Ok a, st).

Definition bind {A B} (m : M A) (k : A -> M B) : M B :=
  fun st => match m st with
            | (Ok a, st') => k a st'
            | (Thrown e, st') => (Thrown e, st')
            end.

Definition throw {A} (e : error) : M A := fun st => (Thrown e, st).

(** [try { body } catch (e) { handler e }] *)
Definition try_catch {A} (body : M A) (handler : error -> M A) : M A :=
  fun st => match body st with
            | (Ok a, st') => (Ok a, st')
            | (Thrown e, st') => handler e st'
            end.

Definition lift {A} (o : outcome A) : M A := fun st => (o, st).

Notation "x <- m ;; k" := (bind m (fun x => k))
  (at level 100, m at next level, right associativity).
Notation "m ;;; k" := (bind m (fun _ => k))
  (at level 100, right associativity).

Definition log (e : event) : M unit :=
  fun st => (Ok tt, mkState (heap st) (events st ++ [e])).

Definition get_heap : M store := fun st => (Ok (heap st), st).
Definition put_heap (h : store) : M unit := fun st => (Ok tt, mkState h (events st)).

Definition type_error (msg : string) : error := mkError TypeError msg.
Definition plain_error (msg : string) : error := mkError PlainError msg.

(** A completion callback [(err, d) => void]. *)
Definition callback : Type := option error -> value -> M unit.

(** The caller's callback is opaque: invoking it is the observable event. *)
Definition deliver : callback := fun err d => log (Deliver err d).

(** ** Primitive operations on values *)

Definition truthy (v : value) : bool :=
  match v with
  | VUndefined | VNull | VNaN => false
  | VBool b => b
  | VNum n => negb (n =? 0)
  | VFrac q => negb (Qeq_bool q 0)
  | VStr s => negb (String.eqb s "")
  | _ => true
  end.

(** [v === "s"] for a string literal. *)
Definition strict_eq_str (v : value) (s : string) : bool :=
  match v with
  | VStr t => String.eqb t s
  | _ => false
  end.

Definition str_length (s : string) : Z := Z.of_nat (String.length s).

(** Property read [v.f]. *)
Definition get_field (v : value) (f : string) : M value :=
  match v with
  | VUndefined | VNull =>
      throw (type_error ("Cannot read property '" +:+ f +:+ "' of undefined or null"))
  | VRef l =>
      h <- get_heap ;;
      match h !! l with
      | Some o => ret (default VUndefined (o !! f))
      | None => throw (type_error "dangling reference")
      end
  | VStr s => ret (if String.eqb f "length" then VNum (str_length s) else VUndefined)
  | VBuffer bs | VUint8Array bs =>
      ret (if String.eqb f "length" then VNum (Z.of_nat (List.length bs)) else VUndefined)
  | VArray xs =>
      ret (if String.eqb f "length" then VNum (Z.of_nat (List.length xs)) else VUndefined)
  | _ => ret VUndefined
  end.

(** Property write [v.f = x] (strict mode: writing to a primitive throws).
    Buffers, arrays and native keys accept the write; the store only tracks
    plain objects, so a property added to one of those is not recorded (in
    this file that can only happen when the engine completes a request with
    something other than the object its interface declares). *)
Definition set_field (v : value) (f : string) (x : value) : M unit :=
  match v with
  | VUndefined | VNull =>
      throw (type_error ("Cannot set property '" +:+ f +:+ "' of undefined or null"))
  | VBool _ | VNum _ | VFrac _ | VInfinity _ | VNaN | VStr _ =>
      throw (type_error ("Cannot create property '" +:+ f +:+ "' on a primitive"))
  | VRef l =>
      h <- get_heap ;;
      match h !! l with
      | Some o => put_heap (<[l := <[f := x]> o]> h)
      | None => throw (type_error "dangling reference")
      end
  | _ => ret tt
  end.

(** What the object behind [v] holds right now. *)
Definition object_at (v : value) : M (option object) :=
  h <- get_heap ;;
  ret (match v with VRef l => h !! l | _ => None end).

(** Object literal / constructor call: a fresh object. *)
Definition new_object (fields : list (string * value)) : M value :=
  h <- get_heap ;;
  put_heap (h ++ [list_to_map fields]) ;;;
  ret (VRef (List.length h)).

(** ** Strings and bytes *)

Definition is_upper (c : ascii) : bool :=
  let n := nat_of_ascii c in (Nat.leb 65 n && Nat.leb n 90)%bool.
Definition is_lower (c : ascii) : bool :=
  let n := nat_of_ascii c in (Nat.leb 97 n && Nat.leb n 122)%bool.
Definition is_digit (c : ascii) : bool :=
  let n := nat_of_ascii c in (Nat.leb 48 n && Nat.leb n 57)%bool.

Definition lower_ascii (c : ascii) : ascii :=
  if is_upper c then ascii_of_nat (nat_of_ascii c + 32) else c.
Definition upper_ascii (c : ascii) : ascii :=
  if is_lower c then ascii_of_nat (nat_of_ascii c - 32) else c.

Fixpoint map_string (f : ascii -> ascii) (s : string) : string :=
  match s with
  | EmptyString => EmptyString
  | String c s' => String (f c) (map_string f s')
  end.

(** The case conversions on the letters A-Z and a-z; every other character
    is left alone. *)
Definition ascii_toLowerCase (s : string) : string := map_string lower_ascii s.
Definition ascii_toUpperCase (s : string) : string := map_string upper_ascii s.

(** A string consists of ASCII characters exactly when every character
    code is below 128. *)
Definition is_ascii (c : ascii) : bool := Nat.ltb (nat_of_ascii c) 128.

Fixpoint forallb_string (p : ascii -> bool) (s : string) : bool :=
  match s with
  | EmptyString => true
  | String c s' => p c && forallb_string p s'
  end.

Definition ascii_only (s : string) : bool := forallb_string is_ascii s.

(** ASCII strings without a capital I lower-case the same way in every
    locale (in a Turkic locale a capital I becomes a dotless i). *)
Definition locale_free (s : string) : bool :=
  forallb_string (fun c => is_ascii c && negb (Ascii.eqb c "I")) s.

(** [s.replace("-", "")]: only the first occurrence is removed. *)
Fixpoint remove_first_dash (s : string) : string :=
  match s with
  | EmptyString => EmptyString
  | String c s' => if Ascii.eqb c "-" then s' else String c (remove_first_dash s')
  end.

Definition hex_digit (n : N) : ascii :=
  if (n <? 10)%N then ascii_of_N (48 + n) else ascii_of_N (87 + n).

Definition hex_of_byte (b : byte) : string :=
  let n := Byte.to_N b in
  String (hex_digit (n / 16)%N) (String (hex_digit (n mod 16)%N) EmptyString).

(** [buf.toString("hex")] *)
Fixpoint Buffer_toString_hex (bs : list byte) : string :=
  match bs with
  | [] => EmptyString
  | b :: bs' => hex_of_byte b +:+ Buffer_toString_hex bs'
  end.

(** The match of [/(\d+)$/] against [s]: the maximal run of decimal digits
    that ends the string, [None] when the string does not end in a digit
    ([exec] returns [null]). *)
Fixpoint trailing_digits (s : string) : option string :=
  match s with
  | EmptyString => None
  | String c s' =>
      match trailing_digits s' with
      | Some d =>
          if (is_digit c && String.eqb d s')%bool then Some (String c d) else Some d
      | None =>
          match s' with
          | EmptyString => if is_digit c then Some (String c EmptyString) else None
          | _ => None
          end
      end
  end.

Definition newline : string := String (ascii_of_nat 10) EmptyString.

(** ** Numbers

    What a value is as a number: an integer, another finite number (by its
    exact rational value), an infinity or NaN. *)
Inductive number : Type :=
| NInt (n : Z)
| NFrac (q : Q)
| NInf (negative : bool)
| NNaN.

(** ** Collaborators that live outside src/lib/rsa.ts

    The native engine, the helpers inherited from [alg.AlgorithmBase], the
    base64url codec, the AES parameter check and the work of the JavaScript
    runtime on values this file does not construct itself (coercions, and
    the case conversion of strings that are not plain ASCII) are taken as
    parameters.  The checks are taken as reading the store only: they either
    pass ([None]) or throw ([Some e]).  A check of the identifier that also
    rewrites the [name] of the descriptor it accepts, in the spelling of the
    class, is not followed in that write: the statements about the store
    made after an accepted check leave the [name] of that descriptor out.
    Every request to the engine is
    completed exactly once, later, with [(err, data)]; the engine works on
    native key material and on the arguments of the request. *)
Record Env := mkEnv {
  engine : request -> completion;
  (* native.Key accessors *)
  key_modulusLength : handle -> outcome Z;
  key_publicExponent : handle -> outcome (list byte);
  (* alg.AlgorithmBase, called with [this.ALGORITHM_NAME] *)
  base_checkAlgorithmIdentifier : string -> store -> value -> option error;
  base_checkAlgorithmHashedParams : string -> store -> value -> option error;
  (* aes.Aes.checkKeyGenParams *)
  Aes_checkKeyGenParams : store -> value -> option error;
  (* Base64Url *)
  Base64Url_encode : value -> outcome string;
  Base64Url_decode : value -> outcome (list byte);
  (* String.prototype.toUpperCase / toLocaleLowerCase beyond plain ASCII *)
  String_toUpperCase : string -> string;
  String_toLocaleLowerCase : string -> string;
  (* runtime coercions of values that are not numbers / strings / bytes *)
  ToNumber : value -> number;
  ToString : value -> string;
  Buffer_from : value -> outcome (list byte);
  Uint8Array_from : value -> outcome (list byte)
}.

(** The names under which the classes register ([ALGORITHM_NAME]). *)
Definition ALG_NAME_RSA_PKCS1 : string := "RSASSA-PKCS1-v1_5".
Definition ALG_NAME_RSA_PSS : string := "RSA-PSS".
Definition ALG_NAME_RSA_OAEP : string := "RSA-OAEP".

Definition HASH_ALGS : list string :=
  ["SHA-1"; "SHA-224"; "SHA-256"; "SHA-384"; "SHA-512"]%string.

(** Modelled from the spec: the constants [aes.ALG_NAME_AES_CBC] and
    [aes.ALG_NAME_AES_GCM] of aes.ts (section 4.4: the supported target
    families of unwrapKey are AES-CBC and AES-GCM). *)
Definition ALG_NAME_AES_CBC : string := "AES-CBC".
Definition ALG_NAME_AES_GCM : string := "AES-GCM".

Definition payload_value (p : payload) : M value :=
  match p with
  | PUndefined => ret VUndefined
  | PNull => ret VNull
  | PBool b => ret (VBool b)
  | PBuffer bs => ret (VBuffer bs)
  | PKey h => ret (VKey h)
  | PAesKey h => ret (VAesKey h)
  | PObject o =>
      h <- get_heap ;;
      put_heap (h ++ [o]) ;;;
      ret (VRef (List.length h))
  end.

Section Provider.

Variable E : Env.

(** [s.toUpperCase()] and [s.toLocaleLowerCase()].  On plain ASCII the
    result is fixed by the language (for the lower case: when no capital I
    occurs, whose lower case depends on the locale); on every other string
    it is whatever the runtime answers. *)
Definition toUpperCase (s : string) : string :=
  if ascii_only s then ascii_toUpperCase s else String_toUpperCase E s.

Definition toLocaleLowerCase (s : string) : string :=
  if locale_free s then ascii_toLowerCase s else String_toLocaleLowerCase E s.

(** A request to the engine with completion callback [k].  In the source
    every such call is the last statement of its synchronous block; the
    callback runs later on its own stack, so an exception that escapes it
    reaches neither the enclosing [try] nor the caller. *)
Definition delegate (req : request) (k : callback) : M unit :=
  log (Call req) ;;;
  let '(err, p) := engine E req in
  d <- payload_value p ;;
  try_catch (k err d) (fun e => log (Uncaught e)).

(** Run a read-only check of a collaborator. *)
Definition check (c : store -> value -> option error) (v : value) : M unit :=
  h <- get_heap ;;
  match c h v with
  | Some e => throw e
  | None => ret tt
  end.

Definition checkAlgorithmIdentifier (this_name : string) (alg : value) : M unit :=
  check (base_checkAlgorithmIdentifier E this_name) alg.

(** Modelled from the spec: [checkPublicKey], [checkPrivateKey] and
    [checkSecretKey] of alg.ts (section 4.1: the key-role guards assert the
    operation's required key type; a mismatch fails with a descriptive
    error). *)
Definition checkKey (key : value) (type : string) : M unit :=
  t <- get_field key "type" ;;
  if strict_eq_str t type then ret tt
  else throw (type_error ("CryptoKey: Wrong key type in use. Must be '" +:+ type +:+ "'")).

Definition checkPublicKey (key : value) : M unit := checkKey key "public".
Definition checkPrivateKey (key : value) : M unit := checkKey key "private".
Definition checkSecretKey (key : value) : M unit := checkKey key "secret".

(** Modelled from the spec: the constructor of [CryptoKey] in key.ts
    (section 3: a key object carries its native handle, algorithm descriptor,
    type, extractable flag and usages, as given at creation). *)
Definition new_CryptoKey (native alg : value) (type : string)
    (extractable : bool) (keyUsages : list string) : M value :=
  new_object [("native", native); ("algorithm", alg); ("type", VStr type);
              ("extractable", VBool extractable); ("usages", VArray keyUsages)]%string.

(** Numeric coercion and the operators used on numbers.  A finite number
    that is not an integer is kept in lowest terms. *)
Definition Q_to_number (q : Q) : number :=
  let r := Qred q in
  if (Zpos (Qden r) =? 1)%Z then NInt (Qnum r) else NFrac r.

Definition number_value (x : number) : value :=
  match x with
  | NInt n => VNum n
  | NFrac q => VFrac q
  | NInf negative => VInfinity negative
  | NNaN => VNaN
  end.

Definition to_number (v : value) : number :=
  match v with
  | VNum n => NInt n
  | VFrac q => Q_to_number q
  | VInfinity negative => NInf negative
  | VNaN => NNaN
  | _ => match ToNumber E v with NFrac q => Q_to_number q | x => x end
  end.

Definition js_lt (v : value) (n : Z) : bool :=
  match to_number v with
  | NInt x => x <? n
  | NFrac q => negb (Qle_bool (inject_Z n) q)
  | NInf negative => negative
  | NNaN => false
  end.
Definition js_gt (v : value) (n : Z) : bool :=
  match to_number v with
  | NInt x => n <? x
  | NFrac q => negb (Qle_bool q (inject_Z n))
  | NInf negative => negb negative
  | NNaN => false
  end.

(** [q - 8 * trunc (q / 8)], the remainder of a finite number by 8. *)
Definition Q_rem8 (q : Q) : Q :=
  (q - inject_Z (8 * Z.quot (Qnum q) (8 * Zpos (Qden q))))%Q.

(** [v % 8]: the remainder takes the sign of the dividend; the remainder
    of an infinity is NaN. *)
Definition js_rem8 (v : value) : value :=
  match to_number v with
  | NInt x => VNum (Z.rem x 8)
  | NFrac q => number_value (Q_to_number (Q_rem8 q))
  | NInf _ | NNaN => VNaN
  end.

(** [v * 8] *)
Definition js_mul8 (v : value) : value :=
  match to_number v with
  | NInt x => VNum (x * 8)
  | NFrac q => number_value (Q_to_number (q * inject_Z 8))
  | NInf negative => VInfinity negative
  | NNaN => VNaN
  end.

(** [v / 8] *)
Definition js_div8 (v : value) : value :=
  match to_number v with
  | NInt x => if Z.rem x 8 =? 0 then VNum (Z.quot x 8) else VFrac (Qred (x # 8))
  | NFrac q => number_value (Q_to_number (q / inject_Z 8))
  | NInf negative => VInfinity negative
  | NNaN => VNaN
  end.

(** [new Buffer(v)] *)
Definition new_Buffer (v : value) : M (list byte) :=
  match v with
  | VBuffer bs | VUint8Array bs => ret bs
  | _ => lift (Buffer_from E v)
  end.

(** [new Uint8Array(v)] *)
Definition new_Uint8Array (v : value) : M value :=
  match v with
  | VBuffer bs | VUint8Array bs => ret (VUint8Array bs)
  | _ => bs <- lift (Uint8Array_from E v) ;; ret (VUint8Array bs)
  end.

(** [v instanceof Uint8Array] (a Buffer is one). *)
Definition instanceof_Uint8Array (v : value) : bool :=
  match v with
  | VBuffer _ | VUint8Array _ => true
  | _ => false
  end.

(** [Buffer.isBuffer(v)] *)
Definition Buffer_isBuffer (v : value) : bool :=
  match v with
  | VBuffer _ => true
  | _ => false
  end.

(** [v.toUpperCase()]: a method of strings only. *)
Definition call_toUpperCase (v : value) : M string :=
  match v with
  | VStr s => ret (toUpperCase s)
  | _ => throw (type_error "toUpperCase is not a function")
  end.

(** The receiver of a [native.Key] method call. *)
Definition as_Key (v : value) : M handle :=
  match v with
  | VKey h => ret h
  | _ => throw (type_error "not a native.Key method")
  end.

(** The receiver of a [native.AesKey] method call. *)
Definition as_AesKey (v : value) : M handle :=
  match v with
  | VAesKey h => ret h
  | _ => throw (type_error "not a native.AesKey method")
  end.

(** Conversion to a string, as [RegExp.prototype.exec] and [+=] on a string
    apply it to their operand. *)
Definition to_string (v : value) : string :=
  match v with
  | VStr s => s
  | _ => ToString E v
  end.

(** [/(\d+)$/.exec(v)[1]] *)
Definition exec_digits (v : value) : M string :=
  match trailing_digits (to_string v) with
  | Some d => ret d
  | None => throw (type_error "Cannot read property '1' of null")
  end.

(** ** class Rsa: validation *)

Definition checkExponent (exp : list byte) : M unit :=
  let e := Buffer_toString_hex exp in
  if negb (String.eqb e "03" || String.eqb e "010001") then
    throw (type_error "RsaKeyGenParams: Wrong publicExponent value")
  else ret tt.

Definition checkRsaGenParams (alg : value) : M unit :=
  ml <- get_field alg "modulusLength" ;;
  if negb (truthy ml) then
    throw (type_error "RsaKeyGenParams: modulusLength: Missing required property")
  else
  if js_lt ml 256 || js_gt ml 16384 then
    throw (type_error "RsaKeyGenParams: The modulus length must be a multiple of 8 bits and >= 256 and <= 16384")
  else
  pe <- get_field alg "publicExponent" ;;
  if negb (truthy pe && instanceof_Uint8Array pe) then
    throw (type_error "RsaKeyGenParams: publicExponent: Missing or not a Uint8Array")
  else ret tt.

Definition checkAlgorithmHashedParams (this_name : string) (alg : value) : M unit :=
  check (base_checkAlgorithmHashedParams E this_name) alg ;;;
  _alg <- get_field alg "hash" ;;
  n <- get_field _alg "name" ;;
  up <- call_toUpperCase n ;;
  set_field _alg "name" (VStr up) ;;;
  n' <- get_field _alg "name" ;;
  if negb (existsb (strict_eq_str n') HASH_ALGS) then
    throw (plain_error "AlgorithmHashedParams: Unknow hash algorithm in use")
  else ret tt.

Definition wc2ssl (alg : value) : M string :=
  checkAlgorithmHashedParams ALG_NAME_RSA_PKCS1 alg ;;;
  h <- get_field alg "hash" ;;
  n <- get_field h "name" ;;
  up <- call_toUpperCase n ;;
  ret (remove_first_dash up).

(** ** class Rsa: generateKey *)

Definition Rsa_generateKey (alg : value) (extractable : bool)
    (keyUsages : list string) (cb : callback) : M unit :=
  try_catch
    (size <- get_field alg "modulusLength" ;;
     pe <- get_field alg "publicExponent" ;;
     exp <- new_Buffer pe ;;
     checkExponent exp ;;;
     let nExp := if String.eqb (Buffer_toString_hex exp) "010001" then 1 else 0 in
     delegate (GenerateRsa size nExp) (fun err key =>
       try_catch
         (match err with
          | Some e =>
              throw (plain_error ("Rsa: Can not generate new key" +:+ newline +:+ err_message e))
          | None =>
              priv <- new_CryptoKey key alg "private" extractable keyUsages ;;
              pub <- new_CryptoKey key alg "public" extractable keyUsages ;;
              pair <- new_object [("privateKey", priv); ("publicKey", pub)]%string ;;
              cb None pair
          end)
         (fun e => cb (Some e) VNull)))
    (fun e => cb (Some e) VNull).

(** ** class RsaPKCS1 *)

Definition RsaPKCS1_generateKey (alg : value) (extractable : bool)
    (keyUsages : list string) (cb : callback) : M unit :=
  try_catch
    (checkAlgorithmIdentifier ALG_NAME_RSA_PKCS1 alg ;;;
     checkRsaGenParams alg ;;;
     checkAlgorithmHashedParams ALG_NAME_RSA_PKCS1 alg ;;;
     Rsa_generateKey alg extractable keyUsages (fun err key =>
       try_catch
         (match err with
          | Some e => cb (Some e) VNull
          | None =>
              t <- get_field key "type" ;;
              (if strict_eq_str t "public"
               then set_field key "usages" (VArray ["verify"]%string)
               else set_field key "usages" (VArray ["sign"]%string)) ;;;
              cb None key
          end)
         (fun e => cb (Some e) VNull)))
    (fun e => cb (Some e) VNull).


(** ** class Rsa: importKey and exportKey *)

Definition decode_field (jwk : value) (f : string) : M unit :=
  v <- get_field jwk f ;;
  bs <- lift (Base64Url_decode E v) ;;
  set_field jwk f (VBuffer bs).

Definition encode_field (jwk : value) (f : string) : M unit :=
  v <- get_field jwk f ;;
  s <- lift (Base64Url_encode E v) ;;
  set_field jwk f (VStr s).

(** [native.KeyType.PUBLIC] is falsy and [native.KeyType.PRIVATE] truthy in
    [key_type ? "private" : "public"]. *)
Definition KeyType_role (t : KeyType) : string :=
  match t with PRIVATE => "private" | PUBLIC => "public" end.

Definition Rsa_importKey (this_name : string) (format : string) (keyData : value)
    (algorithm : value) (extractable : bool) (keyUsages : list string)
    (cb : callback) : M unit :=
  try_catch
    (let _format := toLocaleLowerCase format in
     if String.eqb _format "jwk" then
       let jwk := keyData in
       checkAlgorithmIdentifier this_name algorithm ;;;
       checkAlgorithmHashedParams this_name algorithm ;;;
       decode_field jwk "n" ;;;
       decode_field jwk "e" ;;;
       d <- get_field jwk "d" ;;
       key_type <-
         (if truthy d then
            decode_field jwk "d" ;;;
            decode_field jwk "p" ;;;
            decode_field jwk "q" ;;;
            decode_field jwk "dp" ;;;
            decode_field jwk "dq" ;;;
            decode_field jwk "qi" ;;;
            ret PRIVATE
          else ret PUBLIC) ;;
       content <- object_at jwk ;;
       delegate (ImportJwk jwk content key_type) (fun err key =>
         try_catch
           (match err with
            | Some e =>
                throw (plain_error ("ImportKey: Can not import key from JWK" +:+ newline +:+ err_message e))
            | None =>
                rsa <- new_CryptoKey key algorithm (KeyType_role key_type) extractable keyUsages ;;
                a <- get_field rsa "algorithm" ;;
                n <- get_field jwk "n" ;;
                len <- get_field n "length" ;;
                set_field a "modulusLength" (js_mul8 len) ;;;
                a' <- get_field rsa "algorithm" ;;
                e <- get_field jwk "e" ;;
                pe <- new_Uint8Array e ;;
                set_field a' "publicExponent" pe ;;;
                cb None rsa
            end)
           (fun e => cb (Some e) VNull))
     else if String.eqb _format "pkcs8" || String.eqb _format "spki" then
       if negb (Buffer_isBuffer keyData) then
         throw (plain_error "ImportKey: keyData is not a Buffer")
       else
       let importFunction :=
         if String.eqb _format "spki" then ImportSpki else ImportPkcs8 in
       delegate (importFunction keyData) (fun err key =>
         try_catch
           (match err with
            | Some e =>
                throw (plain_error ("ImportKey: Can not import key for " +:+ format +:+ newline +:+ err_message e))
            | None =>
                rsa <- new_CryptoKey key algorithm
                         (if String.eqb (toLocaleLowerCase format) "spki" then "public" else "private")
                         extractable keyUsages ;;
                a <- get_field rsa "algorithm" ;;
                k <- as_Key key ;;
                ml <- lift (key_modulusLength E k) ;;
                set_field a "modulusLength" (VNum (ml * 8)) ;;;
                a' <- get_field rsa "algorithm" ;;
                k' <- as_Key key ;;
                bs <- lift (key_publicExponent E k') ;;
                set_field a' "publicExponent" (VUint8Array bs) ;;;
                cb None rsa
            end)
           (* the handler passes the engine's [err], not the caught [e] *)
           (fun e => cb err VNull))
     else
       throw (plain_error ("ImportKey: Wrong format value '" +:+ format +:+ "'")))
    (fun e => cb (Some e) VNull).

Definition Rsa_exportKey (format : string) (key : value) (cb : callback) : M unit :=
  try_catch
    (nkey <- get_field key "native" ;;
     t <- get_field key "type" ;;
     let type := if strict_eq_str t "public" then PUBLIC else PRIVATE in
     let f := toLocaleLowerCase format in
     if String.eqb f "jwk" then
       k <- as_Key nkey ;;
       delegate (ExportJwk k type) (fun err data =>
         try_catch
           (let jwk := data in
            encode_field jwk "e" ;;;
            encode_field jwk "n" ;;;
            t' <- get_field key "type" ;;
            (if strict_eq_str t' "private" then
               encode_field jwk "d" ;;;
               encode_field jwk "p" ;;;
               encode_field jwk "q" ;;;
               encode_field jwk "dp" ;;;
               encode_field jwk "dq" ;;;
               encode_field jwk "qi"
             else ret tt) ;;;
            cb None jwk)
           (fun e => cb (Some e) VNull))
     else if String.eqb f "spki" then
       checkPublicKey key ;;;
       k <- as_Key nkey ;;
       delegate (ExportSpki k) cb
     else if String.eqb f "pkcs8" then
       checkPrivateKey key ;;;
       k <- as_Key nkey ;;
       delegate (ExportPkcs8 k) cb
     else
       throw (plain_error ("ExportKey: Unknown export frmat '" +:+ format +:+ "'")))
    (fun e => cb (Some e) VNull).

(** ** class RsaPKCS1: exportKey, sign, verify *)

Definition RsaPKCS1_exportKey (format : string) (key : value) (cb : callback) : M unit :=
  try_catch
    (Rsa_exportKey format key (fun err data =>
       match err with
       | Some e => cb (Some e) VNull
       | None =>
           try_catch
             (if String.eqb format "jwk" then
                let jwk := data in
                a <- get_field key "algorithm" ;;
                h <- get_field a "hash" ;;
                n <- get_field h "name" ;;
                digits <- exec_digits n ;;
                set_field jwk "alg" (VStr ("RS" +:+ digits)) ;;;
                set_field jwk "ext" (VBool true) ;;;
                t <- get_field key "type" ;;
                (if strict_eq_str t "public"
                 then set_field jwk "key_ops" (VArray ["verify"]%string)
                 else set_field jwk "key_ops" (VArray ["sign"]%string)) ;;;
                cb None jwk
              else cb None data)
             (fun e => cb (Some e) VNull)
       end))
    (fun e => cb (Some e) VNull).

Definition RsaPKCS1_sign (alg : value) (key : value) (data : value)
    (cb : callback) : M unit :=
  try_catch
    (checkAlgorithmIdentifier ALG_NAME_RSA_PKCS1 alg ;;;
     checkPrivateKey key ;;;
     a <- get_field key "algorithm" ;;
     _alg <- wc2ssl a ;;
     nkey <- get_field key "native" ;;
     k <- as_Key nkey ;;
     delegate (Sign k _alg data) cb)
    (fun e => cb (Some e) VNull).

Definition RsaPKCS1_verify (alg : value) (key : value) (signature data : value)
    (cb : callback) : M unit :=
  try_catch
    (checkAlgorithmIdentifier ALG_NAME_RSA_PKCS1 alg ;;;
     checkPublicKey key ;;;
     a <- get_field key "algorithm" ;;
     _alg <- wc2ssl a ;;
     nkey <- get_field key "native" ;;
     k <- as_Key nkey ;;
     delegate (Verify k _alg data signature) cb)
    (fun e => cb (Some e) VNull).

(** ** class RsaPSS *)

Definition RsaPSS_generateKey (alg : value) (extractable : bool)
    (keyUsages : list string) (cb : callback) : M unit :=
  try_catch
    (checkAlgorithmIdentifier ALG_NAME_RSA_PSS alg ;;;
     checkRsaGenParams alg ;;;
     checkAlgorithmHashedParams ALG_NAME_RSA_PSS alg ;;;
     Rsa_generateKey alg extractable keyUsages (fun err key =>
       try_catch
         (match err with
          | Some e => cb (Some e) VNull
          | None =>
              t <- get_field key "type" ;;
              (if strict_eq_str t "public"
               then set_field key "usages" (VArray ["verify"]%string)
               else set_field key "usages" (VArray ["sign"]%string)) ;;;
              cb None key
          end)
         (fun e => cb (Some e) VNull)))
    (fun e => cb (Some e) VNull).

Definition RsaPSS_exportKey (format : string) (key : value) (cb : callback) : M unit :=
  try_catch
    (Rsa_exportKey format key (fun err data =>
       match err with
       | Some e => cb (Some e) VNull
       | None =>
           try_catch
             (if String.eqb format "jwk" then
                let jwk := data in
                a <- get_field key "algorithm" ;;
                h <- get_field a "hash" ;;
                n <- get_field h "name" ;;
                digits <- exec_digits n ;;
                set_field jwk "alg" (VStr ("PS" +:+ digits)) ;;;
                set_field jwk "ext" (VBool true) ;;;
                t <- get_field key "type" ;;
                (if strict_eq_str t "public"
                 then set_field jwk "key_ops" (VArray ["verify"]%string)
                 else set_field jwk "key_ops" (VArray ["sign"]%string)) ;;;
                cb None jwk
              else cb None data)
             (fun e => cb (Some e) VNull)
       end))
    (fun e => cb (Some e) VNull).

Definition checkRsaAlgorithmParams (alg : value) : M unit :=
  sl <- get_field alg "saltLength" ;;
  if negb (truthy sl) then
    throw (type_error "RsaPssAlgorithm: Parameter saltLength is required")
  else
  if truthy (js_rem8 sl) then
    throw (type_error "RsaPssAlgorithm: Parameter saltLength should be a multiple of 8")
  else ret tt.

Definition RsaPSS_sign (alg : value) (key : value) (data : value)
    (cb : callback) : M unit :=
  try_catch
    (checkAlgorithmIdentifier ALG_NAME_RSA_PSS alg ;;;
     checkRsaAlgorithmParams alg ;;;
     checkPrivateKey key ;;;
     a <- get_field key "algorithm" ;;
     _alg <- wc2ssl a ;;
     nkey <- get_field key "native" ;;
     k <- as_Key nkey ;;
     sl <- get_field alg "saltLength" ;;
     delegate (RsaPssSign k _alg (js_div8 sl) data) cb)
    (fun e => cb (Some e) VNull).

Definition RsaPSS_verify (alg : value) (key : value) (signature data : value)
    (cb : callback) : M unit :=
  try_catch
    (checkAlgorithmIdentifier ALG_NAME_RSA_PSS alg ;;;
     checkRsaAlgorithmParams alg ;;;
     checkPublicKey key ;;;
     a <- get_field key "algorithm" ;;
     _alg <- wc2ssl a ;;
     nkey <- get_field key "native" ;;
     k <- as_Key nkey ;;
     sl <- get_field alg "saltLength" ;;
     delegate (RsaPssVerify k _alg (js_div8 sl) data signature) cb)
    (fun e => cb (Some e) VNull).


(** ** class RsaOAEP *)

Definition RsaOAEP_generateKey (alg : value) (extractable : bool)
    (keyUsages : list string) (cb : callback) : M unit :=
  try_catch
    (checkAlgorithmIdentifier ALG_NAME_RSA_OAEP alg ;;;
     checkRsaGenParams alg ;;;
     checkAlgorithmHashedParams ALG_NAME_RSA_OAEP alg ;;;
     Rsa_generateKey alg extractable keyUsages (fun err key =>
       try_catch
         (match err with
          | Some e => cb (Some e) VNull
          | None =>
              t <- get_field key "type" ;;
              (if strict_eq_str t "public"
               then set_field key "usages" (VArray ["encrypt"; "wrapKey"]%string)
               else set_field key "usages" (VArray ["decrypt"; "unwrapKey"]%string)) ;;;
              cb None key
          end)
         (fun e => cb (Some e) VNull)))
    (fun e => cb (Some e) VNull).

(** [cur += s] on a string-valued property. *)
Definition js_append (cur : value) (s : string) : value :=
  VStr (to_string cur +:+ s).

Definition RsaOAEP_exportKey (format : string) (key : value) (cb : callback) : M unit :=
  try_catch
    (Rsa_exportKey format key (fun err data =>
       match err with
       | Some e => cb (Some e) VNull
       | None =>
           try_catch
             (if String.eqb format "jwk" then
                let jwk := data in
                a <- get_field key "algorithm" ;;
                h <- get_field a "hash" ;;
                n <- get_field h "name" ;;
                md_size <- exec_digits n ;;
                set_field jwk "alg" (VStr "RSA-OAEP") ;;;
                (if negb (String.eqb md_size "1") then
                   cur <- get_field jwk "alg" ;;
                   set_field jwk "alg" (js_append cur ("-" +:+ md_size))
                 else ret tt) ;;;
                set_field jwk "ext" (VBool true) ;;;
                t <- get_field key "type" ;;
                (if strict_eq_str t "public"
                 then set_field jwk "key_ops" (VArray ["encrypt"; "wrapKey"]%string)
                 else set_field jwk "key_ops" (VArray ["decrypt"; "unwrapKey"]%string)) ;;;
                cb None jwk
              else cb None data)
             (fun e => cb (Some e) VNull)
       end))
    (fun e => cb (Some e) VNull).

(** [let label = null; if (alg.label) label = new Buffer(alg.label);] *)
Definition oaep_label (alg : value) : M value :=
  l <- get_field alg "label" ;;
  if truthy l then bs <- new_Buffer l ;; ret (VBuffer bs) else ret VNull.

Definition RsaOAEP_encrypt (alg : value) (key : value) (data : value)
    (cb : callback) : M unit :=
  try_catch
    (checkAlgorithmIdentifier ALG_NAME_RSA_OAEP alg ;;;
     checkPublicKey key ;;;
     a <- get_field key "algorithm" ;;
     _alg <- wc2ssl a ;;
     nkey <- get_field key "native" ;;
     label <- oaep_label alg ;;
     k <- as_Key nkey ;;
     delegate (RsaOaepEncDec k _alg data label false) cb)
    (fun e => cb (Some e) VNull).

Definition RsaOAEP_decrypt (alg : value) (key : value) (data : value)
    (cb : callback) : M unit :=
  try_catch
    (checkAlgorithmIdentifier ALG_NAME_RSA_OAEP alg ;;;
     checkPrivateKey key ;;;
     a <- get_field key "algorithm" ;;
     _alg <- wc2ssl a ;;
     nkey <- get_field key "native" ;;
     label <- oaep_label alg ;;
     k <- as_Key nkey ;;
     delegate (RsaOaepEncDec k _alg data label true) cb)
    (fun e => cb (Some e) VNull).

Definition RsaOAEP_wrapKey (key : value) (wrappingKey : value) (algorithm : value)
    (cb : callback) : M unit :=
  try_catch
    (checkAlgorithmIdentifier ALG_NAME_RSA_OAEP algorithm ;;;
     checkAlgorithmHashedParams ALG_NAME_RSA_OAEP algorithm ;;;
     checkSecretKey key ;;;
     checkPublicKey wrappingKey ;;;
     _alg <- wc2ssl algorithm ;;
     nkey <- get_field wrappingKey "native" ;;
     nAesKey <- get_field key "native" ;;
     ak <- as_AesKey nAesKey ;;
     delegate (AesExport ak) (fun err data =>
       match err with
       | Some e => cb (Some e) VNull
       | None =>
           k <- as_Key nkey ;;
           delegate (RsaOaepEncDec k _alg data VNull false) cb
       end))
    (fun e => cb (Some e) VNull).

Definition RsaOAEP_unwrapKey (wrappedKey : value) (unwrappingKey : value)
    (unwrapAlgorithm unwrappedAlgorithm : value) (extractable : bool)
    (keyUsages : list string) (cb : callback) : M unit :=
  try_catch
    (checkAlgorithmIdentifier ALG_NAME_RSA_OAEP unwrapAlgorithm ;;;
     checkAlgorithmHashedParams ALG_NAME_RSA_OAEP unwrapAlgorithm ;;;
     checkPrivateKey unwrappingKey ;;;
     _alg <- wc2ssl unwrapAlgorithm ;;
     n <- get_field unwrappedAlgorithm "name" ;;
     (if strict_eq_str n ALG_NAME_AES_CBC then
        check (Aes_checkKeyGenParams E) unwrappedAlgorithm
      else if strict_eq_str n ALG_NAME_AES_GCM then
        check (Aes_checkKeyGenParams E) unwrappedAlgorithm
      else throw (plain_error "Unsupported algorithm in use")) ;;;
     l <- get_field unwrapAlgorithm "label" ;;
     let l1 := if negb (truthy l) then VBuffer [] else l in
     label <- (if negb (Buffer_isBuffer l1)
               then bs <- new_Buffer l1 ;; ret (VBuffer bs)
               else ret l1) ;;
     nkey <- get_field unwrappingKey "native" ;;
     k <- as_Key nkey ;;
     delegate (RsaOaepEncDec k _alg wrappedKey label true) (fun err rawKey =>
       match err with
       | Some e => cb (Some e) VNull
       | None =>
           delegate (AesImport rawKey) (fun err nkey =>
             match err with
             | Some e => cb (Some e) VNull
             | None =>
                 k <- new_CryptoKey nkey unwrappedAlgorithm "secret" extractable keyUsages ;;
                 cb None k
             end)
       end))
    (fun e => cb (Some e) VNull).

End Provider.

(** ** Running an operation *)

(** The state in which a call leaves the program when started on store [h]
    with no event recorded yet. *)
Definition run (m : M unit) (h : store) : state := snd (m (mkState h [])).

(** The call threw to its caller instead of returning. *)
Definition throws (m : M unit) (h : store) : bool :=
  match fst (m (mkState h [])) with
  | Ok _ => false
  | Thrown _ => true
  end.

(** The request of a call event. *)
Definition request_of (e : event) : option request :=
  match e with
  | Call r => Some r
  | _ => None
  end.

Definition is_deliver (e : event) : bool :=
  match e with Deliver _ _ => true | _ => false end.

(** The call returned normally and the caller's callback was invoked exactly
    once, unless an exception escaped an engine callback. *)
Definition completes_once (m : M unit) (h : store) : Prop :=
  throws m h = false /\
  (List.length (List.filter is_deliver (events (run m h))) = 1%nat \/
   exists e, In (Uncaught e) (events (run m h))).

(** What an observer holding [v] reads as [v.f] in store [h]: [None] when
    the read throws, [Some VUndefined] when the property is absent. *)
Definition read (h : store) (v : value) (f : string) : option value :=
  match v with
  | VUndefined | VNull => None
  | VRef l => o ← h !! l; Some (default VUndefined (o !! f))
  | VStr s => Some (if String.eqb f "length" then VNum (str_length s) else VUndefined)
  | VBuffer bs | VUint8Array bs =>
      Some (if String.eqb f "length" then VNum (Z.of_nat (List.length bs)) else VUndefined)
  | VArray xs =>
      Some (if String.eqb f "length" then VNum (Z.of_nat (List.length xs)) else VUndefined)
  | _ => Some VUndefined
  end.



(** ** The three concrete classes

    [generateKey E v], [exportKey E v] and [importKey E v] are the static
    methods as resolved on class [v]; importKey is inherited from [Rsa] and
    runs with [this] bound to the class it is called on. *)
Inductive Variant := PKCS1 | PSS | OAEP.

Definition ALGORITHM_NAME (v : Variant) : string :=
  match v with
  | PKCS1 => ALG_NAME_RSA_PKCS1
  | PSS => ALG_NAME_RSA_PSS
  | OAEP => ALG_NAME_RSA_OAEP
  end.

Definition generateKey (E : Env) (v : Variant) :
    value -> bool -> list string -> callback -> M unit :=
  match v with
  | PKCS1 => RsaPKCS1_generateKey E
  | PSS => RsaPSS_generateKey E
  | OAEP => RsaOAEP_generateKey E
  end.

Definition exportKey (E : Env) (v : Variant) : string -> value -> callback -> M unit :=
  match v with
  | PKCS1 => RsaPKCS1_exportKey E
  | PSS => RsaPSS_exportKey E
  | OAEP => RsaOAEP_exportKey E
  end.

Definition importKey (E : Env) (v : Variant) :
    string -> value -> value -> bool -> list string -> callback -> M unit :=
  Rsa_importKey E (ALGORITHM_NAME v).

(** The usage list that the generateKey callback of class [v] writes in its
    [private] branch, the last write it makes to a [usages] property. *)
Definition private_usages (v : Variant) : list string :=
  match v with
  | PKCS1 | PSS => ["sign"]
  | OAEP => ["decrypt"; "unwrapKey"]
  end%string.

(** The JWK [alg] tag for a hash whose name ends in [digits]. *)
Definition jwk_alg (v : Variant) (digits : string) : string :=
  match v with
  | PKCS1 => "RS" +:+ digits
  | PSS => "PS" +:+ digits
  | OAEP => if String.eqb digits "1" then "RSA-OAEP" else "RSA-OAEP-" +:+ digits
  end.

(** ** Reasoning support *)

(** Weakest precondition of a monadic computation. *)
Definition wp {A} (m : M A) (st : state) (Q : outcome A -> state -> Prop) : Prop :=
  Q (fst (m st)) (snd (m st)).

(** Computations that leave the state alone. *)
Class Pure {A} (m : M A) := pure_state : forall st, snd (m st) = st.

(** The store after a successful property write. *)
Definition write (v : value) (f : string) (x : value) (h : store) : store :=
  match v with
  | VRef l => match h !! l with Some o => <[l := <[f := x]> o]> h | None => h end
  | _ => h
  end.

(** A property write on [v] throws. *)
Definition unwritable (h : store) (v : value) : Prop :=
  match v with
  | VUndefined | VNull | VBool _ | VNum _ | VFrac _ | VInfinity _ | VNaN | VStr _ => True
  | VRef l => h !! l = None
  | _ => False
  end.

(** The value and the store after the engine's payload is materialised. *)
Definition payload_result (p : payload) (h : store) : value :=
  match p with
  | PUndefined => VUndefined
  | PNull => VNull
  | PBool b => VBool b
  | PBuffer bs => VBuffer bs
  | PKey k => VKey k
  | PAesKey k => VAesKey k
  | PObject _ => VRef (List.length h)
  end.

Definition payload_store (p : payload) (h : store) : store :=
  match p with
  | PObject o => h ++ [o]
  | _ => h
  end.

(** ** A concrete environment

    A toy engine and straightforward collaborators, used to evaluate the
    operations on concrete inputs. *)
Module Demo.

Definition jwk_public : object :=
  list_to_map [("kty", VStr "RSA"); ("e", VBuffer [x01; x00; x01]);
               ("n", VBuffer [xc5; x1f; x09; x3b])]%string.

Definition jwk_private : object :=
  list_to_map [("kty", VStr "RSA"); ("e", VBuffer [x01; x00; x01]);
               ("n", VBuffer [xc5; x1f; x09; x3b]); ("d", VBuffer [x11]);
               ("p", VBuffer [x0d]); ("q", VBuffer [x0b]); ("dp", VBuffer [x05]);
               ("dq", VBuffer [x07]); ("qi", VBuffer [x06])]%string.

(** The toy engine accepts the signature [01] and rejects every other. *)
Definition toy_engine (r : request) : completion :=
  match r with
  | GenerateRsa _ _ => (None, PKey 1%nat)
  | ImportJwk _ _ _ | ImportPkcs8 _ | ImportSpki _ => (None, PKey 2%nat)
  | ExportJwk _ PUBLIC => (None, PObject jwk_public)
  | ExportJwk _ PRIVATE => (None, PObject jwk_private)
  | ExportSpki _ | ExportPkcs8 _ => (None, PBuffer [x30; x82])
  | Sign _ _ _ | RsaPssSign _ _ _ _ => (None, PBuffer [x01])
  | Verify _ _ _ s | RsaPssVerify _ _ _ _ s =>
      (None, PBool match s with VBuffer [x01] => true | _ => false end)
  | RsaOaepEncDec _ _ d _ _ =>
      (None, match d with VBuffer bs => PBuffer (rev bs) | _ => PBuffer [] end)
  | AesExport _ => (None, PBuffer [x2a; x2b])
  | AesImport _ => (None, PAesKey 3%nat)
  end.

Definition name_is (this_name : string) (h : store) (v : value) : option error :=
  match read h v "name" with
  | Some (VStr s) =>
      if String.eqb (ascii_toLowerCase s) (ascii_toLowerCase this_name) then None
      else Some (plain_error "AlgorithmIdentifier: Wrong algorithm name")
  | _ => Some (type_error "AlgorithmIdentifier: Missing required property name")
  end.

Definition has_hash (this_name : string) (h : store) (v : value) : option error :=
  match read h v "hash" with
  | Some (VRef _) => None
  | _ => Some (type_error "AlgorithmHashedParams: Missing required property hash")
  end.

Definition has_length (h : store) (v : value) : option error :=
  match read h v "length" with
  | Some (VNum _) => None
  | _ => Some (type_error "AesKeyGenParams: length: Missing required property")
  end.

Definition encode (v : value) : outcome string :=
  match v with
  | VBuffer bs => Ok (Buffer_toString_hex bs)
  | _ => Thrown (type_error "Base64Url.encode: not a Buffer")
  end.

Definition decode (v : value) : outcome (list byte) :=
  match v with
  | VStr s => Ok (list_byte_of_string s)
  | _ => Thrown (type_error "Base64Url.decode: not a string")
  end.

Definition no_bytes (v : value) : outcome (list byte) :=
  Thrown (type_error "must start with number, buffer, array or string").

Definition env : Env :=
  {| engine := toy_engine;
     key_modulusLength := fun _ => Ok 256;
     key_publicExponent := fun _ => Ok [x01; x00; x01];
     base_checkAlgorithmIdentifier := name_is;
     base_checkAlgorithmHashedParams := has_hash;
     Aes_checkKeyGenParams := has_length;
     Base64Url_encode := encode;
     Base64Url_decode := decode;
     String_toUpperCase := ascii_toUpperCase;
     String_toLocaleLowerCase := ascii_toLowerCase;
     ToNumber := fun _ => NNaN;
     ToString := fun _ => "[object Object]"%string;
     Buffer_from := no_bytes;
     Uint8Array_from := no_bytes |}.

(** A store holding an algorithm descriptor (0) with its hash (1), a public
    (2) and a private (3) key over it, and a JWK to import (4). *)
Definition alg_at (name : string) (bits : value) (exp : list byte) (hash : string)
    : list object :=
  [ list_to_map [("name", VStr name); ("modulusLength", bits);
                 ("publicExponent", VUint8Array exp); ("hash", VRef 1%nat);
                 ("saltLength", VNum 32)]%string;
    list_to_map [("name", VStr hash)]%string ].

Definition key_obj (type : string) (extractable : bool) (usages : list string) : object :=
  list_to_map [("native", VKey 1%nat); ("algorithm", VRef 0%nat); ("type", VStr type);
               ("extractable", VBool extractable); ("usages", VArray usages)]%string.

Definition store_with_keys (name : string) (hash : string) (extractable : bool) : store :=
  alg_at name (VNum 2048) [x01; x00; x01] hash ++
  [ key_obj "public" extractable ["verify"]%string;
    key_obj "private" extractable ["sign"]%string;
    list_to_map [("kty", VStr "RSA"); ("n", VStr "xR8JOw"); ("e", VStr "AQAB")]%string ].

(** The same store for RSA-PSS, with [salt] as the descriptor's saltLength. *)
Definition pss_store (salt : value) : store :=
  write (VRef 0%nat) "saltLength" salt (store_with_keys "RSA-PSS" "SHA-256" true).

(** What the JWK of [store_with_keys] holds once it has been imported. *)
Definition jwk_decoded : object :=
  list_to_map [("kty", VStr "RSA"); ("n", VBuffer (list_byte_of_string "xR8JOw"));
               ("e", VBuffer (list_byte_of_string "AQAB"))]%string.

(** A PKCS1 key pair generated for a caller who asks for [sign, verify]. *)
Definition generated : state :=
  run (generateKey env PKCS1 (VRef 0%nat) true ["sign"; "verify"]%string deliver)
      (alg_at "RSASSA-PKCS1-v1_5" (VNum 2048) [x01; x00; x01] "SHA-256").

(** An engine that fails every request, completing with its error alone. *)
Definition failing_engine (r : request) : completion :=
  (Some (plain_error "engine failure"), PUndefined).

Definition failing_env : Env :=
  {| engine := failing_engine;
     key_modulusLength := fun _ => Ok 256;
     key_publicExponent := fun _ => Ok [x01; x00; x01];
     base_checkAlgorithmIdentifier := name_is;
     base_checkAlgorithmHashedParams := has_hash;
     Aes_checkKeyGenParams := has_length;
     Base64Url_encode := encode;
     Base64Url_decode := decode;
     String_toUpperCase := ascii_toUpperCase;
     String_toLocaleLowerCase := ascii_toLowerCase;
     ToNumber := fun _ => NNaN;
     ToString := fun _ => "[object Object]"%string;
     Buffer_from := no_bytes;
     Uint8Array_from := no_bytes |}.

(** The store of [store_with_keys] for RSA-OAEP, the hash named in lower
    case, followed by an AES secret key (5) over an AES-CBC descriptor (6). *)
Definition oaep_store : store :=
  store_with_keys "RSA-OAEP" "sha-256" true ++
  [ list_to_map [("native", VAesKey 7%nat); ("algorithm", VRef 6%nat);
                 ("type", VStr "secret"); ("extractable", VBool true);
                 ("usages", VArray ["encrypt"; "decrypt"])]%string;
    list_to_map [("name", VStr "AES-CBC"); ("length", VNum 128)]%string ].

(** The PKCS1 store with the hash named in lower case. *)
Definition lower_store : store := store_with_keys "RSASSA-PKCS1-v1_5" "sha-256" true.

(** A descriptor whose publicExponent is a plain array. *)
Definition array_exponent_store : store :=
  write (VRef 0%nat) "publicExponent" (VArray ["1"; "0"; "1"]%string)
        (alg_at "RSA-OAEP" (VNum 2048) [x01; x00; x01] "SHA-1").

(** Runs on these stores. *)
Definition generated_lower : state :=
  run (generateKey env PKCS1 (VRef 0%nat) true ["sign"]%string deliver)
      (alg_at "RSASSA-PKCS1-v1_5" (VNum 2048) [x01; x00; x01] "sha-256").

Definition refused_md5 : state :=
  run (generateKey env PSS (VRef 0%nat) true ["sign"]%string deliver)
      (alg_at "RSA-PSS" (VNum 2048) [x01; x00; x01] "md5").

Definition refused_exponent : state :=
  run (generateKey env OAEP (VRef 0%nat) true ["encrypt"]%string deliver)
      array_exponent_store.

Definition imported_spki : state :=
  run (importKey env PKCS1 "SPKI" (VBuffer [x30; x82]) (VRef 0%nat) true
         ["verify"]%string deliver) lower_store.

Definition imported_jwk : state :=
  run (importKey env PKCS1 "jwk" (VRef 4%nat) (VRef 0%nat) true
         ["verify"]%string deliver) lower_store.

Definition exported_jwk : state :=
  run (exportKey env OAEP "jwk" (VRef 3%nat) deliver) oaep_store.

Definition exported_base_jwk : state :=
  run (Rsa_exportKey env "JWK" (VRef 3%nat) deliver) lower_store.

Definition wrapped : state :=
  run (RsaOAEP_wrapKey env (VRef 5%nat) (VRef 2%nat) (VRef 0%nat) deliver) oaep_store.

Definition unwrapped : state :=
  run (RsaOAEP_unwrapKey env (VBuffer [x2b; x2a]) (VRef 3%nat) (VRef 0%nat)
         (VRef 6%nat) false ["encrypt"]%string deliver) oaep_store.

End Demo.

(** ** Vocabulary of the claims *)

(** Key-generation parameters for class [v] that pass every check except
    possibly those on the value of modulusLength and of the exponent: the
    descriptor [alg] is accepted by the inherited checks, holds [ml] as its
    modulusLength, the Uint8Array [bs] as its publicExponent and a hash
    whose upper-cased name is one of HASH_ALGS. *)
Definition keygen_descriptor (E : Env) (v : Variant) (h : store) (alg : value)
    (ml : value) (bs : list byte) : Prop :=
  base_checkAlgorithmIdentifier E (ALGORITHM_NAME v) h alg = None /\
  base_checkAlgorithmHashedParams E (ALGORITHM_NAME v) h alg = None /\
  read h alg "modulusLength" = Some ml /\
  read h alg "publicExponent" = Some (VUint8Array bs) /\
  exists hv hn,
    read h alg "hash" = Some hv /\
    read h hv "name" = Some (VStr hn) /\
    In (toUpperCase E hn) HASH_ALGS.

(** Modelled from the spec: the completion of the engine's verify
    primitives ([verify], [RsaPssVerify]), native code outside
    src/lib/rsa.ts.  Section 7: a cryptographically invalid signature
    resolves the operation successfully with [false]; it is not an error. *)
Definition native_verify_result (valid : bool) : completion := (None, PBool valid).

(** The request an export sends to the engine for a key with native handle
    [k] and type [t], by format; [None] when the export fails before the
    engine is contacted (unknown format, or a key of the wrong role for the
    binary formats).  The extractable flag plays no part. *)
Definition export_request (E : Env) (format : string) (k : handle) (t : string) : option request :=
  let f := toLocaleLowerCase E format in
  if String.eqb f "jwk" then
    Some (ExportJwk k (if String.eqb t "public" then PUBLIC else PRIVATE))
  else if String.eqb f "spki" then
    if String.eqb t "public" then Some (ExportSpki k) else None
  else if String.eqb f "pkcs8" then
    if String.eqb t "private" then Some (ExportPkcs8 k) else None
  else None.


(** The three format strings. *)
Definition known_format (f : string) : Prop :=
  f = "jwk"%string \/ f = "spki"%string \/ f = "pkcs8"%string.

(** The request importKey sends for the binary formats. *)
Definition import_request (E : Env) (format : string) (keyData : value) : request :=
  (if String.eqb (toLocaleLowerCase E format) "spki" then ImportSpki else ImportPkcs8)
    keyData.

(** A saltLength that RSA-PSS refuses: absent, or a number that is not a
    non-zero multiple of 8, namely zero (the check tests the truth value of
    the property, so zero counts as absent), an integer that 8 does not
    divide, a finite number that is not an integer, or NaN.  (The
    infinities are not multiples of 8 either; they are kept apart because
    the check lets them through.) *)
Definition bad_salt (sl : value) : Prop :=
  sl = VUndefined \/ sl = VNull \/ sl = VNaN \/
  (exists n, sl = VNum n /\ (n = 0 \/ Z.rem n 8 <> 0)) \/
  (exists q, sl = VFrac q /\ forall m, m <> 0 -> ~ (q == inject_Z (8 * m))%Q).

(** The error checkRsaAlgorithmParams throws for it. *)
Definition salt_error (sl : value) : error :=
  if truthy sl
  then type_error "RsaPssAlgorithm: Parameter saltLength should be a multiple of 8"
  else type_error "RsaPssAlgorithm: Parameter saltLength is required".

(** A key object the operations can use in the given role: it carries the
    role as its type, the native key [k], and an algorithm descriptor that
    the inherited hashed-parameter check accepts and whose hash is named
    [hn], a name whose upper case is one of HASH_ALGS. *)
Definition usable_key (E : Env) (h : store) (key : value) (role : string)
    (k : handle) (hn : string) : Prop :=
  read h key "type" = Some (VStr role) /\
  read h key "native" = Some (VKey k) /\
  exists a hv,
    read h key "algorithm" = Some a /\
    base_checkAlgorithmHashedParams E ALG_NAME_RSA_PKCS1 h a = None /\
    read h a "hash" = Some hv /\
    read h hv "name" = Some (VStr hn) /\
    In (toUpperCase E hn) HASH_ALGS.

(** The key type an export asks the engine for, by the key's role. *)
Definition export_type (role : string) : KeyType :=
  if String.eqb role "public" then PUBLIC else PRIVATE.

(** The properties of a JWK that the export encodes, by the key's role. *)
Definition jwk_fields (role : string) : list string :=
  if String.eqb role "private"
  then ["e"; "n"; "d"; "p"; "q"; "dp"; "dq"; "qi"]%string
  else ["e"; "n"]%string.

(** The codec encodes each of those properties of the object [o]. *)
Definition encodable (E : Env) (o : object) (role : string) : Prop :=
  forall f, In f (jwk_fields role) ->
    exists s, Base64Url_encode E (default VUndefined (o !! f)) = Ok s.

(** Two stores that differ at most in what their objects hold as
    property [g]. *)
Definition agree_but (g : string) (h h' : store) : Prop :=
  List.length h = List.length h' /\
  forall l o o', h !! l = Some o -> h' !! l = Some o' ->
    forall f, f <> g -> o !! f = o' !! f.

(** The computation [m] does not depend on property [g] of any object: from
    stores that differ at most in [g] it gives the same result and records
    the same events, and the stores it leaves again differ at most in
    [g]. *)
Definition unaware {A} (g : string) (m : M A) : Prop :=
  forall h h' evs, agree_but g h h' ->
    fst (m (mkState h evs)) = fst (m (mkState h' evs)) /\
    events (snd (m (mkState h evs))) = events (snd (m (mkState h' evs))) /\
    agree_but g (heap (snd (m (mkState h evs)))) (heap (snd (m (mkState h' evs)))).

(** The reduced exponent selector handed to the engine. *)
Definition exponent_selector (bs : list byte) : Z :=
  if String.eqb (Buffer_toString_hex bs) "010001" then 1 else 0.

(** ** Vocabulary of the further properties *)

(** The events of a call that has completed: requests to the engine, at most
    [n] of them, followed by one invocation of the caller's callback. *)
Definition calls_then_delivers (n : nat) (evs : list event) : Prop :=
  exists rs err d,
    evs = List.map Call rs ++ [Deliver err d] /\ (List.length rs <= n)%nat.

(** Whatever could be read in store [h] reads the same in [h']. *)
Definition preserved (h h' : store) : Prop :=
  forall w f x, read h w f = Some x -> read h' w f = Some x.

(** The same, except possibly for property [g] of the object [a]. *)
Definition preserved_except (a : value) (g : string) (h h' : store) : Prop :=
  forall w f x, w <> a \/ f <> g -> read h w f = Some x -> read h' w f = Some x.

(** The same, except possibly for properties called [g]. *)
Definition preserved_but (g : string) (h h' : store) : Prop :=
  forall w f x, f <> g -> read h w f = Some x -> read h' w f = Some x.

(** The digest name wc2ssl hands to the engine for a hash called [hn]. *)
Definition digest_name (E : Env) (hn : string) : string := remove_first_dash (toUpperCase E hn).

(** Descriptor [a] names its hash [hn], in the object [hv]. *)
Definition hash_named (h : store) (a hv : value) (hn : string) : Prop :=
  read h a "hash" = Some hv /\ read h hv "name" = Some (VStr hn).

(** A key object of the given role over the native key [k], whose own
    algorithm descriptor names the hash [hn]. *)
Definition rsa_key (h : store) (key : value) (role : string) (k : handle)
    (hn : string) : Prop :=
  read h key "type" = Some (VStr role) /\
  read h key "native" = Some (VKey k) /\
  exists a hv, read h key "algorithm" = Some a /\ hash_named h a hv hn.

(** [d] is the engine's payload [p] as the callback receives it: the value
    itself, or for an object a reference to it in store [h']. *)
Definition materialised (h' : store) (p : payload) (d : value) : Prop :=
  match p with
  | PObject o => exists l, d = VRef l /\ h' !! l = Some o
  | _ => d = payload_result p []
  end.

(** The call consisted of the request [r], whose completion the caller's
    callback received as the engine gave it. *)
Definition forwards (E : Env) (st : state) (r : request) : Prop :=
  exists err p d,
    engine E r = (err, p) /\
    events st = [Call r; Deliver err d] /\
    materialised (heap st) p d.

(** The operations a JWK of class [v] lists for a public key (the private
    ones are [private_usages]). *)
Definition public_ops (v : Variant) : list string :=
  match v with
  | PKCS1 | PSS => ["verify"]
  | OAEP => ["encrypt"; "wrapKey"]
  end%string.

(** The [key_ops] the export of class [v] writes for a key whose [type]
    property holds [t]. *)
Definition key_ops (v : Variant) (t : value) : list string :=
  if strict_eq_str t "public" then public_ops v else private_usages v.

(** Property [f] of the exported JWK holds, as a string, the encoding of what
    the engine's object [o] held there. *)
Definition encoded_from (E : Env) (o : object) (h' : store) (jwk : value)
    (f : string) : Prop :=
  exists s,
    Base64Url_encode E (default VUndefined (o !! f)) = Ok s /\
    read h' jwk f = Some (VStr s).

(** * Reasoning principles *)

Lemma run_wp (P : state -> Prop) (m : M unit) (h : store) :
  wp m (mkState h []) (fun _ st => P st) -> P (run m h).
Proof. exact id. Qed.

Lemma wp_ret {A} (a : A) st Q : Q (Ok a) st -> wp (ret a) st Q.
Proof. exact id. Qed.

Lemma wp_throw {A} e st (Q : outcome A -> state -> Prop) :
  Q (Thrown e) st -> wp (throw e) st Q.
Proof. exact id. Qed.

Lemma wp_bind {A B} (m : M A) (k : A -> M B) st Q :
  wp m st (fun r st' =>
    match r with
    | Ok a => wp (k a) st' Q
    | Thrown e => Q (Thrown e) st'
    end) ->
  wp (bind m k) st Q.
Proof. unfold wp, bind. destruct (m st) as [[a|e] st']; simpl; auto. Qed.

Lemma wp_try {A} (body : M A) handler st Q :
  wp body st (fun r st' =>
    match r with
    | Ok a => Q (Ok a) st'
    | Thrown e => wp (handler e) st' Q
    end) ->
  wp (try_catch body handler) st Q.
Proof. unfold wp, try_catch. destruct (body st) as [[a|e] st']; simpl; auto. Qed.

Lemma wp_log e st Q :
  Q (Ok tt) (mkState (heap st) (events st ++ [e])) -> wp (log e) st Q.
Proof. exact id. Qed.

Lemma wp_pure {A} (m : M A) `{!Pure m} st Q :
  (forall r, m st = (r, st) -> Q r st) -> wp m st Q.
Proof.
  intros H. unfold wp. specialize (pure_state st) as Hs.
  destruct (m st) as [r st']. simpl in *. subst. auto.
Qed.

Lemma wp_if {A} (b : bool) (m1 m2 : M A) st Q :
  (b = true -> wp m1 st Q) -> (b = false -> wp m2 st Q) ->
  wp (if b then m1 else m2) st Q.
Proof. destruct b; auto. Qed.

Lemma wp_set_field v f x st Q :
  (forall e, unwritable (heap st) v -> Q (Thrown e) st) ->
  (~ unwritable (heap st) v ->
   Q (Ok tt) (mkState (write v f x (heap st)) (events st))) ->
  wp (set_field v f x) st Q.
Proof.
  intros Ht Ho. unfold wp.
  destruct v; simpl; try (apply Ht; exact I);
    try (destruct st; apply Ho; exact id).
  unfold set_field, bind, get_heap, put_heap, write, unwritable in *; simpl in *.
  destruct (heap st !! l) eqn:El; simpl.
  - apply Ho. discriminate.
  - apply Ht. reflexivity.
Qed.

Lemma wp_lift {A} (o : outcome A) st Q :
  (forall x, o = Ok x -> Q (Ok x) st) ->
  (forall e, o = Thrown e -> Q (Thrown e) st) ->
  wp (lift o) st Q.
Proof. intros Ho Ht. unfold wp, lift; cbn. destruct o; auto. Qed.

Lemma wp_new_object fields st Q :
  Q (Ok (VRef (List.length (heap st))))
    (mkState (heap st ++ [list_to_map fields]) (events st)) ->
  wp (new_object fields) st Q.
Proof. exact id. Qed.

Lemma wp_payload_value p st Q :
  Q (Ok (payload_result p (heap st)))
    (mkState (payload_store p (heap st)) (events st)) ->
  wp (payload_value p) st Q.
Proof. destruct p, st; exact id. Qed.

Lemma wp_object_at v st Q :
  Q (Ok (match v with VRef l => heap st !! l | _ => None end)) st ->
  wp (object_at v) st Q.
Proof. exact id. Qed.

#[global] Instance pure_get_field v f : Pure (get_field v f).
Proof.
  intros st. destruct v; try reflexivity.
  unfold get_field, bind, get_heap; simpl. destruct (heap st !! l); reflexivity.
Qed.

#[global] Instance pure_lift {A} (o : outcome A) : Pure (lift o).
Proof. intros st; reflexivity. Qed.

#[global] Instance pure_check c v : Pure (check c v).
Proof.
  intros st. unfold check, bind, get_heap; simpl.
  destruct (c (heap st) v); reflexivity.
Qed.

#[global] Instance pure_checkAlgorithmIdentifier E n v :
  Pure (checkAlgorithmIdentifier E n v).
Proof. unfold checkAlgorithmIdentifier. apply _. Qed.

#[global] Instance pure_new_Buffer E v : Pure (new_Buffer E v).
Proof. intros st. destruct v; reflexivity. Qed.

#[global] Instance pure_new_Uint8Array E v : Pure (new_Uint8Array E v).
Proof.
  intros st. destruct v; try reflexivity;
    unfold new_Uint8Array, bind, lift; destruct (Uint8Array_from E _); reflexivity.
Qed.

#[global] Instance pure_call_toUpperCase E v : Pure (call_toUpperCase E v).
Proof. intros st. destruct v; reflexivity. Qed.

#[global] Instance pure_as_Key v : Pure (as_Key v).
Proof. intros st. destruct v; reflexivity. Qed.

#[global] Instance pure_as_AesKey v : Pure (as_AesKey v).
Proof. intros st. destruct v; reflexivity. Qed.

#[global] Instance pure_exec_digits E v : Pure (exec_digits E v).
Proof. intros st. unfold exec_digits. destruct (trailing_digits _); reflexivity. Qed.


(** ** The store: reads, writes and allocation *)

Lemma get_field_read v f st r st' :
  get_field v f st = (r, st') ->
  st' = st /\
  match r with
  | Ok x => read (heap st) v f = Some x
  | Thrown _ => read (heap st) v f = None
  end.
Proof.
  destruct v; cbn; try (intros [= <- <-]; split; reflexivity).
  unfold bind, get_heap, ret, throw; cbn.
  destruct (heap st !! l); cbn; intros [= <- <-]; split; reflexivity.
Qed.

Lemma get_field_Ok v f st x st' :
  get_field v f st = (Ok x, st') -> read (heap st) v f = Some x.
Proof. intros H. apply get_field_read in H. tauto. Qed.

Lemma length_write v f x (h : store) : List.length (write v f x h) = List.length h.
Proof.
  destruct v; try reflexivity. cbn. destruct (h !! l); [apply length_insert | reflexivity].
Qed.

Lemma read_write_ne v g x (h : store) w f :
  f <> g -> read (write v g x h) w f = read h w f.
Proof.
  intros Hne. destruct w; try reflexivity. destruct v; try reflexivity. cbn.
  destruct (h !! l0) as [o0|] eqn:E0; [|reflexivity].
  destruct (decide (l0 = l)) as [->|Hl].
  - rewrite list_lookup_insert_eq by (eapply lookup_lt_Some; eauto).
    rewrite E0. cbn. rewrite lookup_insert_ne by congruence. reflexivity.
  - rewrite list_lookup_insert_ne by assumption. reflexivity.
Qed.

Lemma read_write_eq l f x (h : store) :
  is_Some (h !! l) -> read (write (VRef l) f x h) (VRef l) f = Some x.
Proof.
  intros [o Ho]. cbn. rewrite Ho.
  rewrite list_lookup_insert_eq by (eapply lookup_lt_Some; eauto).
  cbn. rewrite lookup_insert_eq. reflexivity.
Qed.

Lemma read_write_other l l' g x (h : store) f :
  l <> l' -> read (write (VRef l) g x h) (VRef l') f = read h (VRef l') f.
Proof.
  intros Hne. cbn. destruct (h !! l); [|reflexivity].
  rewrite list_lookup_insert_ne by assumption. reflexivity.
Qed.

Lemma read_is_Some_ref (h : store) l f :
  is_Some (read h (VRef l) f) <-> is_Some (h !! l).
Proof. cbn. destruct (h !! l); cbn; split; intros [? H]; eauto; discriminate. Qed.

Lemma read_app (h h' : store) v f x :
  read h v f = Some x -> read (h ++ h') v f = Some x.
Proof.
  destruct v; try exact id. cbn. destruct (h !! l) eqn:E; [|discriminate].
  rewrite (lookup_app_l_Some _ _ _ _ E). exact id.
Qed.

Lemma read_app_new (h : store) o f :
  read (h ++ [o]) (VRef (List.length h)) f = Some (default VUndefined (o !! f)).
Proof. cbn. rewrite list_lookup_middle by reflexivity. reflexivity. Qed.

Lemma read_payload_store p (h : store) v f x :
  read h v f = Some x -> read (payload_store p h) v f = Some x.
Proof. destruct p; try exact id. apply read_app. Qed.

Lemma read_write_Some v g y (h : store) w f x :
  f <> g -> read h w f = Some x -> read (write v g y h) w f = Some x.
Proof. intros Hne <-. apply read_write_ne, Hne. Qed.

Lemma read_write_ne' v g x (h : store) w f r :
  f <> g -> read h w f = r -> read (write v g x h) w f = r.
Proof. intros Hne <-. apply read_write_ne, Hne. Qed.

Lemma read_write_other' l l' g x (h : store) f r :
  l <> l' -> read h (VRef l') f = r -> read (write (VRef l) g x h) (VRef l') f = r.
Proof. intros Hne <-. apply read_write_other, Hne. Qed.

Lemma read_write_eq' l f x (h : store) r :
  is_Some (read h (VRef l) f) -> r = Some x ->
  read (write (VRef l) f x h) (VRef l) f = r.
Proof. intros H ->. apply read_write_eq. apply read_is_Some_ref in H. exact H. Qed.

Lemma read_app_new' (h : store) o l f x :
  l = List.length h -> default VUndefined (o !! f) = x ->
  read (h ++ [o]) (VRef l) f = Some x.
Proof. intros -> <-. apply read_app_new. Qed.

(** Only plain objects hold strings in their properties. *)
Lemma read_VStr_ref (h : store) v f s :
  read h v f = Some (VStr s) -> exists l, v = VRef l /\ is_Some (h !! l).
Proof.
  destruct v; cbn; try discriminate;
    try (destruct (String.eqb f "length"); discriminate).
  destruct (h !! l) eqn:E; [|discriminate]. eauto.
Qed.

Lemma wp_get_field_known v f st x Q :
  read (heap st) v f = Some x -> Q (Ok x) st -> wp (get_field v f) st Q.
Proof.
  intros Hr HQ. unfold wp.
  destruct (get_field v f st) as [r st'] eqn:Hg.
  apply get_field_read in Hg as [-> Hg]. destruct r; cbn.
  - congruence.
  - congruence.
Qed.

Lemma wp_check c v st (Q : outcome unit -> state -> Prop) :
  (forall e, c (heap st) v = Some e -> Q (Thrown e) st) ->
  (c (heap st) v = None -> Q (Ok tt) st) ->
  wp (check c v) st Q.
Proof.
  intros Ht Ho. unfold wp, check, bind, get_heap; cbn.
  destruct (c (heap st) v); cbn; auto.
Qed.

Lemma wp_get_field v f st Q :
  (forall x, read (heap st) v f = Some x -> Q (Ok x) st) ->
  (forall e, read (heap st) v f = None -> Q (Thrown e) st) ->
  wp (get_field v f) st Q.
Proof.
  intros Ho Ht. unfold wp.
  destruct (get_field v f st) as [r st'] eqn:Hg.
  apply get_field_read in Hg as [-> Hg]. destruct r; cbn; auto.
Qed.

Lemma wp_exec_digits E v st Q :
  (forall d, trailing_digits (to_string E v) = Some d -> Q (Ok d) st) ->
  (forall e, trailing_digits (to_string E v) = None -> Q (Thrown e) st) ->
  wp (exec_digits E v) st Q.
Proof.
  intros Ho Ht. unfold wp, exec_digits.
  destruct (trailing_digits (to_string E v)); cbn; auto.
Qed.

Lemma wp_as_Key v st Q :
  (forall k, v = VKey k -> Q (Ok k) st) ->
  (forall e, (forall k, v <> VKey k) -> Q (Thrown e) st) ->
  wp (as_Key v) st Q.
Proof.
  intros Ho Ht. unfold wp. destruct v; cbn; try (apply Ht; discriminate).
  apply Ho. reflexivity.
Qed.

Lemma wp_as_AesKey v st Q :
  (forall k, v = VAesKey k -> Q (Ok k) st) ->
  (forall e, (forall k, v <> VAesKey k) -> Q (Thrown e) st) ->
  wp (as_AesKey v) st Q.
Proof.
  intros Ho Ht. unfold wp. destruct v; cbn; try (apply Ht; discriminate).
  apply Ho. reflexivity.
Qed.

Lemma wp_call_toUpperCase E v st Q :
  (forall s, v = VStr s -> Q (Ok (toUpperCase E s)) st) ->
  (forall e, (forall s, v <> VStr s) -> Q (Thrown e) st) ->
  wp (call_toUpperCase E v) st Q.
Proof.
  intros Ho Ht. unfold wp. destruct v; cbn; try (apply Ht; discriminate).
  apply Ho. reflexivity.
Qed.

Lemma wp_check_pass c v st Q :
  c (heap st) v = None -> Q (Ok tt) st -> wp (check c v) st Q.
Proof. intros Hc HQ. unfold wp, check, bind, get_heap; cbn. rewrite Hc. exact HQ. Qed.

Lemma wp_check_fail c v st e (Q : outcome unit -> state -> Prop) :
  c (heap st) v = Some e -> Q (Thrown e) st -> wp (check c v) st Q.
Proof. intros Hc HQ. unfold wp, check, bind, get_heap; cbn. rewrite Hc. exact HQ. Qed.

Lemma unwritable_allocated (h : store) l :
  unwritable h (VRef l) -> is_Some (h !! l) -> False.
Proof. cbn. intros -> [? H]. discriminate H. Qed.

Lemma allocated_read (h : store) l f x :
  read h (VRef l) f = Some x -> is_Some (h !! l).
Proof. intros H. apply (read_is_Some_ref h l f). eauto. Qed.

Lemma allocated_write v f x (h : store) l :
  is_Some (h !! l) -> is_Some (write v f x h !! l).
Proof.
  intros H. apply lookup_lt_is_Some. rewrite length_write.
  apply lookup_lt_is_Some, H.
Qed.

Lemma allocated_app (h h' : store) l :
  is_Some (h !! l) -> is_Some ((h ++ h') !! l).
Proof.
  intros H. apply lookup_lt_is_Some. rewrite length_app.
  apply lookup_lt_is_Some in H. lia.
Qed.

Lemma allocated_new (h : store) o l :
  l = List.length h -> is_Some ((h ++ [o]) !! l).
Proof. intros ->. rewrite list_lookup_middle by reflexivity. eauto. Qed.

Lemma allocated_payload_store p (h : store) l :
  is_Some (h !! l) -> is_Some (payload_store p h !! l).
Proof. destruct p; try exact id. apply allocated_app. Qed.

Lemma existsb_strict_eq_str s (l : list string) :
  In s l -> existsb (strict_eq_str (VStr s)) l = true.
Proof.
  intros H. apply existsb_exists. exists s. split; [exact H|].
  cbn. apply String.eqb_refl.
Qed.

(** ** Symbolic execution *)

Ltac len_neq := rewrite ?length_app, ?length_write; cbn [List.length]; lia.

(** Look a property up in an object literal. *)
Ltac map_lookup :=
  rewrite ?list_to_map_cons, ?list_to_map_nil;
  repeat first [ rewrite lookup_insert_eq
               | rewrite lookup_insert_ne by discriminate
               | rewrite lookup_empty ];
  cbv beta iota delta [default from_option id];
  reflexivity.

(** Resolve a read against writes, allocations and the hypotheses. *)
Ltac read_tac :=
  first
    [ eassumption
    | lazymatch goal with
      | |- read (write _ _ _ _) _ _ = _ =>
          first [ apply read_write_ne'; [discriminate | read_tac]
                | apply read_write_other'; [len_neq | read_tac]
                | apply read_write_eq'; [eexists; read_tac | reflexivity] ]
      | |- read (_ ++ [_]) (VRef _) _ = _ =>
          first [ apply read_app_new'; [reflexivity | first [map_lookup | reflexivity]]
                | apply read_app; read_tac ]
      | |- read (_ ++ _) _ _ = _ => apply read_app; read_tac
      | |- read (payload_store _ _) _ _ = _ => apply read_payload_store; read_tac
      | |- _ => reflexivity
      end ].

(** The reference is allocated in the store. *)
Ltac alloc_tac :=
  lazymatch goal with
  | |- is_Some (write _ _ _ _ !! _) => apply allocated_write; alloc_tac
  | |- is_Some ((_ ++ [_]) !! _) =>
      first [ apply allocated_new; reflexivity | apply allocated_app; alloc_tac ]
  | |- is_Some ((_ ++ _) !! _) => apply allocated_app; alloc_tac
  | |- is_Some (payload_store _ _ !! _) => apply allocated_payload_store; alloc_tac
  | |- _ => first [ eassumption | eapply allocated_read; eassumption ]
  end.

Ltac wp_unfold :=
  cbv beta delta
    [deliver delegate checkKey checkPublicKey checkPrivateKey checkSecretKey
     checkAlgorithmIdentifier checkExponent
     new_CryptoKey checkRsaGenParams checkAlgorithmHashedParams wc2ssl
     Rsa_generateKey RsaPKCS1_generateKey RsaPSS_generateKey RsaOAEP_generateKey
     decode_field encode_field Rsa_importKey Rsa_exportKey
     RsaPKCS1_exportKey RsaPSS_exportKey RsaOAEP_exportKey
     RsaPKCS1_sign RsaPKCS1_verify RsaPSS_sign RsaPSS_verify checkRsaAlgorithmParams
     oaep_label RsaOAEP_encrypt RsaOAEP_decrypt RsaOAEP_wrapKey RsaOAEP_unwrapKey
     generateKey exportKey importKey].

(** One step of symbolic execution: every primitive contributes at most one
    branch that continues and one that throws; a read or a check whose
    result follows from the hypotheses contributes a single branch. *)
Ltac wp_step :=
  lazymatch goal with
  | |- wp (ret _) _ _ => apply wp_ret
  | |- wp (throw _) _ _ => apply wp_throw
  | |- wp (bind _ _) _ _ => apply wp_bind
  | |- wp (try_catch _ _) _ _ => apply wp_try
  | |- wp (log _) _ _ => apply wp_log
  | |- wp (set_field _ _ _) _ _ =>
      apply wp_set_field;
      [ intros ?e ?Hunw; cbv beta iota delta [heap] in *;
        try (exfalso; eapply unwritable_allocated; [eassumption | solve [alloc_tac]])
      | let Hw := fresh "Hw" in
        intros Hw; cbv beta iota delta [heap] in *;
        try (exfalso; apply Hw; exact I) ]
  | |- wp (lift _) _ _ => apply wp_lift; [intros ?x ?Hl | intros ?e ?Hl]
  | |- wp (call_toUpperCase _ (VStr _)) _ _ => apply wp_ret
  | |- wp (new_Buffer _ (VUint8Array _)) _ _ => apply wp_ret
  | |- wp (new_Buffer _ (VBuffer _)) _ _ => apply wp_ret
  | |- wp (as_Key (VKey _)) _ _ => apply wp_ret
  | |- wp (as_Key _) _ _ => apply wp_as_Key; [intros ?k ?Hk | intros ?e ?Hk]
  | |- wp (as_AesKey _) _ _ => apply wp_as_AesKey; [intros ?k ?Hk | intros ?e ?Hk]
  | |- wp (call_toUpperCase _ _) _ _ =>
      apply wp_call_toUpperCase; [intros ?s ?Hs | intros ?e ?Hs]
  | |- wp (exec_digits _ _) _ _ =>
      apply wp_exec_digits; [intros ?d ?Hd | intros ?e ?Hd]
  | |- wp (new_object _) _ _ => apply wp_new_object
  | |- wp (payload_value _) _ _ =>
      apply wp_payload_value; cbn [payload_result payload_store]
  | |- wp (object_at _) _ _ => apply wp_object_at
  | |- wp (get_field _ _) _ _ =>
      first [ eapply wp_get_field_known; [cbv beta iota delta [heap]; solve [read_tac] | ]
            | apply wp_get_field; [intros ?x ?Hr | intros ?e ?Hr]; cbv beta iota delta [heap] in * ]
  | |- wp (check _ _) _ _ =>
      first [ eapply wp_check_pass; [eassumption | ]
            | eapply wp_check_fail; [eassumption | ]
            | apply wp_check; [intros ?e ?Hc | intros ?Hc]; cbv beta iota delta [heap] in * ]
  | |- wp (if ?b then _ else _) _ _ =>
      let Hb := fresh "Hb" in
      apply wp_if; intros Hb;
      repeat match goal with
             | H : toLocaleLowerCase _ _ = _ |- _ => rewrite H in Hb
             end;
      try (lazymatch type of Hb with
           | String.eqb _ _ = _ => idtac
           | negb (String.eqb _ _) = _ => idtac
           | (String.eqb _ _ || String.eqb _ _)%bool = _ => idtac
           end;
           vm_compute in Hb; discriminate Hb)
  | |- wp (match ?x with Some _ => _ | None => _ end) _ _ => destruct x eqn:?
  | |- wp (let '(_, _) := ?x in _) _ _ =>
      first [ match goal with H : x = (_, _) |- _ => rewrite H end
            | destruct x as [? ?] eqn:? ]
  | |- wp ?m _ _ =>
      first [ apply (wp_pure m); intros [?x|?e] ?Hp
            | progress wp_unfold ]
  end; cbv beta iota zeta delta [heap events].

Ltac wp_run := repeat wp_step.

(** Boolean conditions collected along a path, turned into arithmetic and
    equations. *)
Ltac bool_crush :=
  cbn [truthy instanceof_Uint8Array Buffer_isBuffer strict_eq_str
       negb andb orb] in *;
  unfold js_lt, js_gt, to_number in *;
  repeat match goal with
         | H : negb _ = true |- _ => apply negb_true_iff in H
         | H : negb _ = false |- _ => apply negb_false_iff in H
         | H : _ || _ = true |- _ => apply orb_true_iff in H; destruct H
         | H : _ || _ = false |- _ => apply orb_false_iff in H; destruct H
         | H : _ && _ = true |- _ => apply andb_true_iff in H; destruct H
         | H : _ && _ = false |- _ => apply andb_false_iff in H; destruct H
         | H : (_ <? _) = true |- _ => apply Z.ltb_lt in H
         | H : (_ <? _) = false |- _ => apply Z.ltb_ge in H
         | H : (_ =? _) = true |- _ => apply Z.eqb_eq in H
         | H : (_ =? _) = false |- _ => apply Z.eqb_neq in H
         | H : String.eqb _ _ = true |- _ => apply String.eqb_eq in H
         | H : String.eqb _ _ = false |- _ => apply String.eqb_neq in H
         end;
  try lia; try congruence; try tauto.

(** Start the symbolic execution of a statement about [run m h]. *)
Ltac wp_start :=
  lazymatch goal with
  | |- context [run ?m ?h] => pattern (run m h); apply run_wp
  end.

(** A read of the property just written, recorded before the reference was
    known to be one. *)
Ltac reads :=
  repeat match goal with
         | H : read (write (VRef ?l) ?f ?x ?hh) (VRef ?l) ?f = Some ?y |- _ =>
             rewrite read_write_eq in H by alloc_tac; injection H as <-
         end.

(** * Claims *)

(** C1.  Whenever generateKey of RSASSA-PKCS1-v1_5, RSA-PSS or RSA-OAEP
    succeeds, it delivers a pair object whose private and public keys carry
    exactly the keyUsages array the caller supplied; the usages the variant
    means to fix are written to a [usages] property of the pair object
    itself (the pair has no [type], so it always gets the private-role
    usages), not to the keys.  So the public key's usages are {verify}
    (resp. {encrypt, wrapKey}) only if the caller asked for that. *)
Theorem generateKey_keys_carry_caller_usages E (v : Variant) alg ext ku h p st :
  st = run (generateKey E v alg ext ku deliver) h ->
  In (Deliver None p) (events st) ->
  exists priv pub,
    read (heap st) p "privateKey" = Some priv /\
    read (heap st) p "publicKey" = Some pub /\
    read (heap st) priv "type" = Some (VStr "private") /\
    read (heap st) pub "type" = Some (VStr "public") /\
    read (heap st) priv "usages" = Some (VArray ku) /\
    read (heap st) pub "usages" = Some (VArray ku) /\
    read (heap st) p "usages" = Some (VArray (private_usages v)).
Proof.
  intros ->. wp_start.
  destruct v; wp_run.
  all: cbn [app].
  all: try (intros [H|[]]; discriminate H).
  all: try (intros [H|[H|[]]]; discriminate H).
  all: intros [H|[H|[]]]; [discriminate H|]; injection H as <-.
  all: try discriminate.
  all: eexists _, _.
  all: repeat split; read_tac.
Qed.

(** The caller asks for [sign, verify]: both returned keys carry exactly
    that, and [verify] alone is nowhere but on the pair. *)
Lemma generateKey_keys_carry_caller_usages_demo :
  In (Deliver None (VRef 4%nat)) (events Demo.generated) /\
  exists priv pub,
    read (heap Demo.generated) (VRef 4%nat) "privateKey" = Some priv /\
    read (heap Demo.generated) (VRef 4%nat) "publicKey" = Some pub /\
    read (heap Demo.generated) priv "type" = Some (VStr "private") /\
    read (heap Demo.generated) pub "type" = Some (VStr "public") /\
    read (heap Demo.generated) priv "usages" = Some (VArray ["sign"; "verify"]%string) /\
    read (heap Demo.generated) pub "usages" = Some (VArray ["sign"; "verify"]%string) /\
    read (heap Demo.generated) (VRef 4%nat) "usages" = Some (VArray ["sign"]%string).
Proof.
  split.
  - vm_compute. right. left. reflexivity.
  - apply (generateKey_keys_carry_caller_usages Demo.env PKCS1
             (VRef 0%nat) true ["sign"; "verify"]%string
             (Demo.alg_at "RSASSA-PKCS1-v1_5" (VNum 2048) [x01; x00; x01] "SHA-256")).
    + reflexivity.
    + vm_compute. right. left. reflexivity.
Defined.

(** ** Key generation: what the validation lets through *)

Lemma hex_03_iff bs : Buffer_toString_hex bs = "03"%string <-> bs = [x03].
Proof.
  split; [|intros ->; reflexivity].
  intros H. destruct bs as [|b [|b' bs]]; cbn in H; try discriminate H.
  injection H as H1 H2.
  destruct b; vm_compute in H1, H2; try discriminate; reflexivity.
Qed.

Lemma hex_010001_iff bs :
  Buffer_toString_hex bs = "010001"%string <-> bs = [x01; x00; x01].
Proof.
  split; [|intros ->; reflexivity].
  intros H. destruct bs as [|b1 [|b2 [|b3 [|b4 bs]]]]; cbn in H; try discriminate H.
  injection H as H1 H2 H3 H4 H5 H6.
  destruct b1; vm_compute in H1, H2; try discriminate.
  destruct b2; vm_compute in H3, H4; try discriminate.
  destruct b3; vm_compute in H5, H6; try discriminate.
  reflexivity.
Qed.

(** Parameters in range with an accepted exponent reach the engine: the
    request carries the modulus length as given and the exponent selector. *)
Lemma generateKey_reaches_engine E v h alg n bs ext ku :
  keygen_descriptor E v h alg (VNum n) bs ->
  256 <= n <= 16384 ->
  Buffer_toString_hex bs = "03"%string \/ Buffer_toString_hex bs = "010001"%string ->
  exists rest,
    events (run (generateKey E v alg ext ku deliver) h) =
    Call (GenerateRsa (VNum n) (exponent_selector bs)) :: rest.
Proof.
  intros (Hid & Hhash & Hml & Hpe & hv & hn & Hh & Hn & Hin) Hrange Hhex.
  destruct (read_VStr_ref _ _ _ _ Hn) as (hl & -> & Hsome).
  pose proof (existsb_strict_eq_str _ _ Hin) as Hex.
  wp_start.
  destruct v; cbn [ALGORITHM_NAME] in *; wp_run.
  all: cbn [app]; unfold exponent_selector.
  all: try (eexists; reflexivity).
  all: exfalso; bool_crush.
Qed.

Lemma generateKey_rejects_exponent E v h alg n bs ext ku :
  keygen_descriptor E v h alg (VNum n) bs ->
  256 <= n <= 16384 ->
  ~ (Buffer_toString_hex bs = "03"%string \/ Buffer_toString_hex bs = "010001"%string) ->
  events (run (generateKey E v alg ext ku deliver) h) =
  [Deliver (Some (type_error "RsaKeyGenParams: Wrong publicExponent value")) VNull].
Proof.
  intros (Hid & Hhash & Hml & Hpe & hv & hn & Hh & Hn & Hin) Hrange Hhex.
  destruct (read_VStr_ref _ _ _ _ Hn) as (hl & -> & Hsome).
  pose proof (existsb_strict_eq_str _ _ Hin) as Hex.
  wp_start.
  destruct v; cbn [ALGORITHM_NAME] in *; wp_run.
  all: cbn [app].
  all: try reflexivity.
  all: exfalso; bool_crush.
Qed.

(** C5.  With parameters that are otherwise valid, generateKey of each
    class hands the request to the engine exactly when the hex encoding of
    the publicExponent bytes is "03" or "010001", that is when the bytes are
    [03] or [01 00 01]; for any other exponent the only event is the
    delivery of the TypeError "Wrong publicExponent value", so the engine is
    never called. *)
Theorem generateKey_exponent_03_or_010001 E v h alg n bs ext ku :
  keygen_descriptor E v h alg (VNum n) bs ->
  256 <= n <= 16384 ->
  ((Buffer_toString_hex bs = "03"%string \/ Buffer_toString_hex bs = "010001"%string) ->
   exists rest,
     events (run (generateKey E v alg ext ku deliver) h) =
     Call (GenerateRsa (VNum n) (exponent_selector bs)) :: rest) /\
  (~ (Buffer_toString_hex bs = "03"%string \/ Buffer_toString_hex bs = "010001"%string) ->
   events (run (generateKey E v alg ext ku deliver) h) =
   [Deliver (Some (type_error "RsaKeyGenParams: Wrong publicExponent value")) VNull]) /\
  (Buffer_toString_hex bs = "03"%string <-> bs = [x03]) /\
  (Buffer_toString_hex bs = "010001"%string <-> bs = [x01; x00; x01]).
Proof.
  intros Hd Hr. repeat split.
  - intros Hhex. eapply generateKey_reaches_engine; eassumption.
  - intros Hhex. eapply generateKey_rejects_exponent; eassumption.
  - apply hex_03_iff.
  - apply hex_03_iff.
  - apply hex_010001_iff.
  - apply hex_010001_iff.
Qed.

(** The descriptor of the demonstration store is a valid one. *)
Ltac demo_descriptor :=
  repeat split; try reflexivity;
  eexists _, _; repeat split; try reflexivity; vm_compute; tauto.

(** The exponent 65539 (bytes 01 00 03) is refused before the engine. *)
Lemma generateKey_exponent_65539_refused :
  events (run (generateKey Demo.env PSS (VRef 0%nat) true ["sign"]%string deliver)
              (Demo.alg_at "RSA-PSS" (VNum 2048) [x01; x00; x03] "SHA-256")) =
  [Deliver (Some (type_error "RsaKeyGenParams: Wrong publicExponent value")) VNull].
Proof.
  refine (proj1 (proj2 (generateKey_exponent_03_or_010001 Demo.env PSS
            (Demo.alg_at "RSA-PSS" (VNum 2048) [x01; x00; x03] "SHA-256")
            (VRef 0%nat) 2048 [x01; x00; x03] true ["sign"]%string _ _)) _).
  - demo_descriptor.
  - lia.
  - vm_compute. intros [H|H]; discriminate H.
Defined.

(** C4.  With parameters that are otherwise valid, generateKey of each
    class delivers a TypeError without calling the engine when modulusLength
    is missing (or 0), below 256 or above 16384; for every modulusLength from
    256 to 16384 it calls the engine with that length.  The last part holds
    whether or not the length is a multiple of 8: checkRsaGenParams names
    the multiple-of-8 rule in its message but never tests it. *)
Theorem generateKey_modulusLength_bounds E v h alg ml bs ext ku :
  keygen_descriptor E v h alg ml bs ->
  Buffer_toString_hex bs = "03"%string \/ Buffer_toString_hex bs = "010001"%string ->
  (ml = VUndefined \/ ml = VNum 0 ->
   events (run (generateKey E v alg ext ku deliver) h) =
   [Deliver (Some (type_error "RsaKeyGenParams: modulusLength: Missing required property")) VNull]) /\
  (forall n, ml = VNum n -> n <> 0 -> n < 256 \/ 16384 < n ->
   events (run (generateKey E v alg ext ku deliver) h) =
   [Deliver (Some (type_error "RsaKeyGenParams: The modulus length must be a multiple of 8 bits and >= 256 and <= 16384")) VNull]) /\
  (forall n, ml = VNum n -> 256 <= n <= 16384 ->
   exists rest,
     events (run (generateKey E v alg ext ku deliver) h) =
     Call (GenerateRsa (VNum n) (exponent_selector bs)) :: rest).
Proof.
  intros Hd Hhex. split; [|split].
  - intros Hml.
    destruct Hd as (Hid & Hhash & Hr & _).
    wp_start.
    destruct Hml as [-> | ->]; destruct v; cbn [ALGORITHM_NAME] in *; wp_run;
      cbn [app]; try reflexivity; exfalso; bool_crush.
  - intros n -> Hn0 Hout.
    destruct Hd as (Hid & Hhash & Hr & _).
    wp_start.
    destruct v; cbn [ALGORITHM_NAME] in *; wp_run;
      cbn [app]; try reflexivity; exfalso; bool_crush.
  - intros n -> Hrange. eapply generateKey_reaches_engine; eassumption.
Qed.

(** A modulus length of 1025 bits, not a multiple of 8, reaches the engine. *)
Lemma generateKey_modulusLength_1025_reaches_engine :
  exists rest,
    events (run (generateKey Demo.env PKCS1 (VRef 0%nat) true ["sign"]%string deliver)
                (Demo.alg_at "RSASSA-PKCS1-v1_5" (VNum 1025) [x01; x00; x01] "SHA-256")) =
    Call (GenerateRsa (VNum 1025) 1) :: rest.
Proof.
  refine (proj2 (proj2 (generateKey_modulusLength_bounds Demo.env PKCS1
            (Demo.alg_at "RSASSA-PKCS1-v1_5" (VNum 1025) [x01; x00; x01] "SHA-256")
            (VRef 0%nat) (VNum 1025) [x01; x00; x01] true ["sign"]%string _ _)) 1025 _ _).
  - demo_descriptor.
  - right. reflexivity.
  - reflexivity.
  - lia.
Defined.

(** ** RSA-PSS: the salt length *)

Ltac not_a_call :=
  cbn [app In];
  try (intros [H|[]]; discriminate H);
  try (intros [H|[H|[]]]; discriminate H).

Lemma Call_inj r r' : Call r = Call r' -> r = r'.
Proof. intros H. apply (f_equal request_of) in H. injection H as H. exact H. Qed.

Lemma Qred_integer q c : (q == inject_Z c)%Q -> Qred q = inject_Z c.
Proof.
  intros H. rewrite (Qred_complete _ _ H). apply Qcanon.Qred_identity.
  cbn. apply Z.gcd_1_r.
Qed.

Lemma Qred_den_1 q : Qden (Qred q) = 1%positive -> (q == inject_Z (Qnum (Qred q)))%Q.
Proof.
  intros H. rewrite <- (Qred_correct q) at 1.
  destruct (Qred q) as [a b]. cbn in *. subst b. reflexivity.
Qed.

Lemma truthy_Q_to_number q :
  ~ (q == 0)%Q -> truthy (number_value (Q_to_number q)) = true.
Proof.
  intros Hq. unfold Q_to_number.
  destruct (Z.pos (Qden (Qred q)) =? 1) eqn:Hd; cbn [number_value truthy].
  - apply negb_true_iff, Z.eqb_neq. intros H0. apply Hq.
    apply Z.eqb_eq in Hd. injection Hd as Hd.
    rewrite (Qred_den_1 q Hd), H0. reflexivity.
  - apply negb_true_iff, not_true_is_false. intros H0. apply Hq.
    apply Qeq_bool_eq in H0. rewrite <- (Qred_correct q). exact H0.
Qed.

(** A finite number that is not a non-zero multiple of 8 is zero or leaves
    a remainder. *)
Lemma js_rem8_fraction E q :
  (forall m, m <> 0 -> ~ (q == inject_Z (8 * m))%Q) ->
  truthy (VFrac q) = false \/ truthy (js_rem8 E (VFrac q)) = true.
Proof.
  intros Hbad. cbn [truthy].
  destruct (Qeq_bool q 0) eqn:H0; [left; reflexivity | right].
  apply Qeq_bool_neq in H0.
  unfold js_rem8, to_number.
  remember (Q_to_number q) as N eqn:HN. unfold Q_to_number in HN.
  destruct (Z.pos (Qden (Qred q)) =? 1) eqn:Hd; subst N.
  - cbn [truthy]. apply negb_true_iff, Z.eqb_neq. intros Hr.
    apply Z.eqb_eq in Hd. injection Hd as Hd.
    pose proof (Qred_den_1 q Hd) as Hq.
    set (z := Qnum (Qred q)) in *.
    pose proof (Z.quot_rem' z 8) as Hz. rewrite Hr, Z.add_0_r in Hz.
    apply (Hbad (Z.quot z 8)).
    + intros Hm. rewrite Hm in Hz. apply H0. rewrite Hq, Hz. reflexivity.
    + rewrite Hq. rewrite Hz at 1. reflexivity.
  - apply truthy_Q_to_number. unfold Q_rem8. intros Hz.
    apply Z.eqb_neq in Hd. apply Hd.
    set (c := 8 * Z.quot (Qnum (Qred q)) (8 * Z.pos (Qden (Qred q)))) in *.
    assert (Hq : (Qred q == inject_Z c)%Q).
    { rewrite <- (Qplus_0_r (inject_Z c)), <- Hz. ring. }
    apply Qred_integer in Hq. rewrite Qcanon.Qred_involutive in Hq.
    rewrite Hq. reflexivity.
Qed.

(** What the check of checkRsaAlgorithmParams refuses. *)
Lemma bad_salt_refused E sl :
  bad_salt sl -> truthy sl = false \/ truthy (js_rem8 E sl) = true.
Proof.
  intros [-> | [-> | [-> | [(n & -> & Hn) | (q & -> & Hq)]]]];
    try (left; reflexivity).
  - cbn [truthy js_rem8 to_number]. unfold js_rem8, to_number.
    destruct Hn as [-> | Hn]; [left; reflexivity | right].
    cbn [truthy]. apply negb_true_iff, Z.eqb_neq. exact Hn.
  - apply js_rem8_fraction, Hq.
Qed.

Lemma RsaPSS_sign_refuses E h alg key data sl :
  read h alg "saltLength" = Some sl ->
  truthy sl = false \/ truthy (js_rem8 E sl) = true ->
  exists e,
    events (run (RsaPSS_sign E alg key data deliver) h) = [Deliver (Some e) VNull] /\
    (base_checkAlgorithmIdentifier E ALG_NAME_RSA_PSS h alg = None -> e = salt_error sl).
Proof.
  intros Hsl Hbad. wp_start. wp_run.
  all: cbn [app].
  all: try (eexists; split; [reflexivity | intros; try congruence;
                               unfold salt_error]).
  all: repeat match goal with
              | H : negb _ = true |- _ => apply negb_true_iff in H
              | H : negb _ = false |- _ => apply negb_false_iff in H
              end.
  all: try (match goal with
            | H : truthy ?x = _ |- context [truthy ?x] => rewrite H
            end; reflexivity).
  all: exfalso; destruct Hbad; congruence.
Qed.

Lemma RsaPSS_verify_refuses E h alg key signature data sl :
  read h alg "saltLength" = Some sl ->
  truthy sl = false \/ truthy (js_rem8 E sl) = true ->
  exists e,
    events (run (RsaPSS_verify E alg key signature data deliver) h) = [Deliver (Some e) VNull] /\
    (base_checkAlgorithmIdentifier E ALG_NAME_RSA_PSS h alg = None -> e = salt_error sl).
Proof.
  intros Hsl Hbad. wp_start. wp_run.
  all: cbn [app].
  all: try (eexists; split; [reflexivity | intros; try congruence;
                               unfold salt_error]).
  all: repeat match goal with
              | H : negb _ = true |- _ => apply negb_true_iff in H
              | H : negb _ = false |- _ => apply negb_false_iff in H
              end.
  all: try (match goal with
            | H : truthy ?x = _ |- context [truthy ?x] => rewrite H
            end; reflexivity).
  all: exfalso; destruct Hbad; congruence.
Qed.

Lemma RsaPSS_sign_salt_in_bytes E h alg key data n r :
  read h alg "saltLength" = Some (VNum n) ->
  In (Call r) (events (run (RsaPSS_sign E alg key data deliver) h)) ->
  n <> 0 /\ Z.rem n 8 = 0 /\
  exists k md, r = RsaPssSign k md (VNum (Z.quot n 8)) data.
Proof.
  intros Hsl. wp_start. wp_run.
  all: not_a_call.
  intros [H|[H|[]]]; [|discriminate H]. injection H as <-.
  cbn [js_rem8 js_div8 to_number truthy] in *. bool_crush.
  match goal with H : Z.rem _ 8 = 0 |- _ => rewrite H; cbn [Z.eqb] end.
  repeat split; try assumption; try reflexivity. eexists _, _. reflexivity.
Qed.

Lemma RsaPSS_verify_salt_in_bytes E h alg key signature data n r :
  read h alg "saltLength" = Some (VNum n) ->
  In (Call r) (events (run (RsaPSS_verify E alg key signature data deliver) h)) ->
  n <> 0 /\ Z.rem n 8 = 0 /\
  exists k md, r = RsaPssVerify k md (VNum (Z.quot n 8)) data signature.
Proof.
  intros Hsl. wp_start. wp_run.
  all: not_a_call.
  intros [H|[H|[]]]; [|discriminate H]. injection H as <-.
  cbn [js_rem8 js_div8 to_number truthy] in *. bool_crush.
  match goal with H : Z.rem _ 8 = 0 |- _ => rewrite H; cbn [Z.eqb] end.
  repeat split; try assumption; try reflexivity. eexists _, _. reflexivity.
Qed.

(** ** Verification results *)

Lemma RsaPKCS1_verify_forwards E h alg key signature data r :
  In (Call r) (events (run (RsaPKCS1_verify E alg key signature data deliver) h)) ->
  exists k md err p d,
    r = Verify k md data signature /\
    engine E r = (err, p) /\
    events (run (RsaPKCS1_verify E alg key signature data deliver) h) =
    [Call r; Deliver err d] /\
    (forall b, p = PBool b -> d = VBool b).
Proof.
  wp_start. wp_run.
  all: not_a_call.
  intros [H|[H|[]]]; [|discriminate H]. injection H as <-.
  eexists _, _, _, _, _. split; [reflexivity|]. split; [eassumption|].
  split; [reflexivity|]. intros b ->. reflexivity.
Qed.

Lemma RsaPSS_verify_forwards E h alg key signature data r :
  In (Call r) (events (run (RsaPSS_verify E alg key signature data deliver) h)) ->
  exists k md sl err p d,
    r = RsaPssVerify k md sl data signature /\
    engine E r = (err, p) /\
    events (run (RsaPSS_verify E alg key signature data deliver) h) =
    [Call r; Deliver err d] /\
    (forall b, p = PBool b -> d = VBool b).
Proof.
  wp_start. wp_run.
  all: not_a_call.
  intros [H|[H|[]]]; [|discriminate H]. injection H as <-.
  eexists _, _, _, _, _, _. split; [reflexivity|]. split; [eassumption|].
  split; [reflexivity|]. intros b ->. reflexivity.
Qed.

Lemma RsaPKCS1_verify_wrong_role E h alg key signature data t :
  read h key "type" = Some t -> strict_eq_str t "public" = false ->
  exists e,
    events (run (RsaPKCS1_verify E alg key signature data deliver) h) =
    [Deliver (Some e) VNull].
Proof.
  intros Ht Hne. wp_start. wp_run.
  all: cbn [app]; try (eexists; reflexivity).
  all: congruence.
Qed.

Lemma RsaPSS_verify_wrong_role E h alg key signature data t :
  read h key "type" = Some t -> strict_eq_str t "public" = false ->
  exists e,
    events (run (RsaPSS_verify E alg key signature data deliver) h) =
    [Deliver (Some e) VNull].
Proof.
  intros Ht Hne. wp_start. wp_run.
  all: cbn [app]; try (eexists; reflexivity).
  all: congruence.
Qed.

(** ** Export and the extractable flag *)

Lemma Rsa_exportKey_request E h key format k t :
  read h key "native" = Some (VKey k) ->
  read h key "type" = Some (VStr t) ->
  match export_request E format k t with
  | Some r => exists rest,
      events (run (Rsa_exportKey E format key deliver) h) = Call r :: rest
  | None => exists e,
      events (run (Rsa_exportKey E format key deliver) h) = [Deliver (Some e) VNull]
  end.
Proof.
  intros Hn Ht. unfold export_request. wp_start. wp_run.
  all: cbn [strict_eq_str] in *.
  all: repeat match goal with
              | H : String.eqb _ _ = _ |- _ => rewrite H
              | H : strict_eq_str _ _ = _ |- _ => cbn [strict_eq_str] in H
              end.
  all: cbn [app]; try (eexists; reflexivity).
  all: try (destruct (String.eqb t "public"); eexists; reflexivity).
Qed.

Lemma exportKey_request E v h key format k t :
  read h key "native" = Some (VKey k) ->
  read h key "type" = Some (VStr t) ->
  match export_request E format k t with
  | Some r => exists rest,
      events (run (exportKey E v format key deliver) h) = Call r :: rest
  | None => exists e,
      events (run (exportKey E v format key deliver) h) = [Deliver (Some e) VNull]
  end.
Proof.
  intros Hn Ht. unfold export_request. wp_start. destruct v; wp_run.
  all: cbn [strict_eq_str] in *.
  all: try congruence.
  all: try (exfalso;
            match goal with
            | H : (?f =? "jwk")%string = true,
              H' : (toLocaleLowerCase _ ?f =? "jwk")%string = false |- _ =>
                apply String.eqb_eq in H; rewrite H in H';
                vm_compute in H'; discriminate H'
            end).
  all: repeat match goal with
              | H : String.eqb _ _ = _ |- _ => rewrite H
              end.
  all: cbn [app]; try (eexists; reflexivity).
  all: try (destruct (String.eqb _ "public"); eexists; reflexivity).
Qed.

(** *** Computations that do not depend on a property *)

Lemma agree_but_refl g (h : store) : agree_but g h h.
Proof.
  split; [reflexivity|]. intros l o o' H1 H2 f _. congruence.
Qed.

Lemma agree_but_lookup g (h h' : store) (l : loc) :
  agree_but g h h' ->
  (exists o o', h !! l = Some o /\ h' !! l = Some o' /\
                forall f, f <> g -> o !! f = o' !! f) \/
  (h !! l = None /\ h' !! l = None).
Proof.
  intros [Hlen Hag].
  destruct (h !! l) as [o|] eqn:Ho.
  - destruct (h' !! l) as [o'|] eqn:Ho'.
    + left. exists o, o'. repeat split. intros f Hf. exact (Hag l o o' Ho Ho' f Hf).
    + exfalso. apply lookup_lt_Some in Ho. apply lookup_ge_None in Ho'. lia.
  - right. split; [reflexivity|].
    apply lookup_ge_None. apply lookup_ge_None in Ho. lia.
Qed.

Lemma agree_but_write g key x (h : store) : agree_but g h (write key g x h).
Proof.
  destruct key; try apply agree_but_refl. cbn.
  destruct (h !! l) as [o|] eqn:Ho; [|apply agree_but_refl].
  split; [symmetry; apply length_insert|].
  intros l0 o0 o' H0 H' f Hf.
  destruct (decide (l0 = l)) as [->|Hne].
  - rewrite list_lookup_insert_eq in H' by (eapply lookup_lt_Some; eassumption).
    injection H' as <-.
    rewrite lookup_insert_ne by (intros Heq; apply Hf; symmetry; exact Heq).
    pose proof (eq_trans (eq_sym Ho) H0) as Heq. injection Heq as ->. reflexivity.
  - rewrite list_lookup_insert_ne in H' by congruence.
    pose proof (eq_trans (eq_sym H0) H') as Heq. injection Heq as ->. reflexivity.
Qed.

Ltac same := split; [reflexivity | split; [reflexivity | cbn; assumption]].

Lemma unaware_ret g {A} (a : A) : unaware g (ret a).
Proof. intros h h' evs H. same. Qed.

Lemma unaware_throw g {A} e : unaware g (@throw A e).
Proof. intros h h' evs H. same. Qed.

Lemma unaware_lift g {A} (o : outcome A) : unaware g (lift o).
Proof. intros h h' evs H. same. Qed.

Lemma unaware_log g e : unaware g (log e).
Proof. intros h h' evs H. same. Qed.

Lemma unaware_bind g {A B} (m : M A) (k : A -> M B) :
  unaware g m -> (forall a, unaware g (k a)) -> unaware g (bind m k).
Proof.
  intros Hm Hk h h' evs H. unfold bind.
  destruct (Hm h h' evs H) as (H1 & H2 & H3).
  destruct (m (mkState h evs)) as [r [h1 e1]].
  destruct (m (mkState h' evs)) as [r' [h1' e1']].
  cbn in *. subst r' e1'.
  destruct r as [a|e]; [apply Hk; exact H3 | same].
Qed.

Lemma unaware_try_catch g {A} (m : M A) handler :
  unaware g m -> (forall e, unaware g (handler e)) -> unaware g (try_catch m handler).
Proof.
  intros Hm Hk h h' evs H. unfold try_catch.
  destruct (Hm h h' evs H) as (H1 & H2 & H3).
  destruct (m (mkState h evs)) as [r [h1 e1]].
  destruct (m (mkState h' evs)) as [r' [h1' e1']].
  cbn in *. subst r' e1'.
  destruct r as [a|e]; [same | apply Hk; exact H3].
Qed.

Lemma unaware_get_field g v f : f <> g -> unaware g (get_field v f).
Proof.
  intros Hf h h' evs H.
  destruct v; try (same).
  unfold get_field, bind, get_heap. cbn.
  destruct (agree_but_lookup g h h' l H) as [(o & o' & -> & -> & Ho) | [-> ->]];
    cbn; [rewrite (Ho f Hf)|]; same.
Qed.

Lemma unaware_set_field g v f x : unaware g (set_field v f x).
Proof.
  intros h h' evs H.
  destruct v; try (same).
  unfold set_field, bind, get_heap. cbn.
  destruct (agree_but_lookup g h h' l H) as [(o & o' & Hl & Hl' & Ho) | [-> ->]];
    [rewrite Hl, Hl' | same].
  cbn. repeat split.
  - rewrite !length_insert. apply H.
  - intros l0 o0 o0' H0 H0' f0 Hf0.
    destruct (decide (l0 = l)) as [->|Hne].
    + rewrite list_lookup_insert_eq in H0 by (eapply lookup_lt_Some; eassumption).
      rewrite list_lookup_insert_eq in H0' by (eapply lookup_lt_Some; eassumption).
      injection H0 as <-. injection H0' as <-.
      destruct (decide (f0 = f)) as [->|Hnf].
      * rewrite !lookup_insert_eq. reflexivity.
      * rewrite !lookup_insert_ne by (intros Heq; apply Hnf; symmetry; exact Heq).
        apply Ho, Hf0.
    + rewrite list_lookup_insert_ne in H0 by congruence.
      rewrite list_lookup_insert_ne in H0' by congruence.
      exact (proj2 H l0 o0 o0' H0 H0' f0 Hf0).
Qed.

Lemma unaware_payload_value g p : unaware g (payload_value p).
Proof.
  intros h h' evs H.
  destruct p; try (same).
  unfold payload_value, bind, get_heap, put_heap, ret. cbn.
  destruct H as [Hlen Hag]. rewrite Hlen. repeat split.
  - rewrite !length_app, Hlen. reflexivity.
  - intros l o0 o0' H0 H0' f Hf.
    destruct (decide (l < List.length h)%nat) as [Hlt|Hge].
    + rewrite lookup_app_l in H0 by exact Hlt.
      rewrite lookup_app_l in H0' by lia.
      exact (Hag l o0 o0' H0 H0' f Hf).
    + rewrite lookup_app_r in H0 by lia.
      rewrite lookup_app_r in H0' by lia.
      rewrite Hlen in H0. congruence.
Qed.

(** Decompose a computation into the operations above. *)
Ltac unaware_tac :=
  repeat first
    [ apply unaware_ret
    | apply unaware_throw
    | apply unaware_log
    | apply unaware_lift
    | apply unaware_payload_value
    | apply unaware_set_field
    | apply unaware_get_field; discriminate
    | apply unaware_bind; [|intros ?]
    | apply unaware_try_catch; [|intros ?]
    | match goal with
      | |- unaware _ (if ?b then _ else _) => destruct b
      | |- unaware _ (match ?x with _ => _ end) => destruct x
      end
    | progress cbv beta zeta delta
        [deliver delegate checkKey checkPublicKey checkPrivateKey encode_field
         as_Key exec_digits Rsa_exportKey RsaPKCS1_exportKey RsaPSS_exportKey
         RsaOAEP_exportKey exportKey] ].

Lemma Rsa_exportKey_unaware E format key :
  unaware "extractable" (Rsa_exportKey E format key deliver).
Proof. unaware_tac. Qed.

Lemma exportKey_unaware E v format key :
  unaware "extractable" (exportKey E v format key deliver).
Proof. destruct v; unaware_tac. Qed.

Lemma unaware_events g (m : M unit) key x h :
  unaware g m -> events (run m (write key g x h)) = events (run m h).
Proof.
  intros Hm. unfold run.
  destruct (Hm h (write key g x h) [] (agree_but_write g key x h)) as (_ & H & _).
  symmetry. exact H.
Qed.

(** C2 (as amended).  exportKey never consults the extractable flag: neither
    the base export nor the export of a class depends on what any object
    holds as [extractable].  Run on two stores that differ at most in
    extractable flags, an export returns the same way, sends the same
    requests to the engine and invokes the callback with the same arguments;
    in particular, setting the flag of the key to any value changes none of
    the events.  For a key object that carries a native key handle and a
    string as its type, whatever its extractable flag, the export contacts
    the engine with the request that the format and the key's role
    determine; it fails before the engine is contacted, delivering an error
    and nothing else, only for an unknown format, for spki on a key that is
    not public and for pkcs8 on a key that is not private. *)
Theorem exportKey_does_not_consult_extractable E v format key :
  unaware "extractable" (Rsa_exportKey E format key deliver) /\
  unaware "extractable" (exportKey E v format key deliver) /\
  (forall h x,
     events (run (Rsa_exportKey E format key deliver) (write key "extractable" x h)) =
     events (run (Rsa_exportKey E format key deliver) h) /\
     events (run (exportKey E v format key deliver) (write key "extractable" x h)) =
     events (run (exportKey E v format key deliver) h)) /\
  (forall h k t b,
     read h key "extractable" = Some (VBool b) ->
     read h key "native" = Some (VKey k) ->
     read h key "type" = Some (VStr t) ->
     match export_request E format k t with
     | Some r =>
         (exists rest, events (run (Rsa_exportKey E format key deliver) h) = Call r :: rest) /\
         (exists rest, events (run (exportKey E v format key deliver) h) = Call r :: rest)
     | None =>
         (exists e, events (run (Rsa_exportKey E format key deliver) h) =
                    [Deliver (Some e) VNull]) /\
         (exists e, events (run (exportKey E v format key deliver) h) =
                    [Deliver (Some e) VNull])
     end).
Proof.
  split; [apply Rsa_exportKey_unaware|].
  split; [apply exportKey_unaware|].
  split.
  - intros h x. split; apply unaware_events.
    + apply Rsa_exportKey_unaware.
    + apply exportKey_unaware.
  - intros h k t b _ Hn Ht.
    pose proof (Rsa_exportKey_request E h key format k t Hn Ht) as H1.
    pose proof (exportKey_request E v h key format k t Hn Ht) as H2.
    destruct (export_request E format k t); split; assumption.
Qed.

(** A private key that is not extractable is exported as pkcs8 and as jwk:
    the engine is contacted and the export succeeds. *)
Lemma exportKey_nonextractable_key_is_exported :
  read (Demo.store_with_keys "RSASSA-PKCS1-v1_5" "SHA-256" false) (VRef 3%nat)
       "extractable" = Some (VBool false) /\
  events (run (Rsa_exportKey Demo.env "pkcs8" (VRef 3%nat) deliver)
              (Demo.store_with_keys "RSASSA-PKCS1-v1_5" "SHA-256" false)) =
  [Call (ExportPkcs8 1%nat); Deliver None (VBuffer [x30; x82])] /\
  events (run (Rsa_exportKey Demo.env "jwk" (VRef 3%nat) deliver)
              (Demo.store_with_keys "RSASSA-PKCS1-v1_5" "SHA-256" false)) =
  [Call (ExportJwk 1%nat PRIVATE); Deliver None (VRef 5%nat)].
Proof. repeat split; vm_compute; reflexivity. Qed.

(** The amended statement at that key: pkcs8 reaches the engine. *)
Lemma exportKey_does_not_consult_extractable_demo :
  (exists rest,
     events (run (Rsa_exportKey Demo.env "pkcs8" (VRef 3%nat) deliver)
                 (Demo.store_with_keys "RSASSA-PKCS1-v1_5" "SHA-256" false)) =
     Call (ExportPkcs8 1%nat) :: rest) /\
  (exists rest,
     events (run (exportKey Demo.env PKCS1 "pkcs8" (VRef 3%nat) deliver)
                 (Demo.store_with_keys "RSASSA-PKCS1-v1_5" "SHA-256" false)) =
     Call (ExportPkcs8 1%nat) :: rest).
Proof.
  exact (proj2 (proj2 (proj2
           (exportKey_does_not_consult_extractable Demo.env PKCS1 "pkcs8" (VRef 3%nat))))
           (Demo.store_with_keys "RSASSA-PKCS1-v1_5" "SHA-256" false)
           1%nat "private" false eq_refl eq_refl eq_refl).
Defined.

(** ** The JWK algorithm tag *)

(** Every JWK object that the export of a class delivers carries the tag of
    the class, built from the digits that end the name of the key's hash. *)
Lemma exportKey_jwk_object_tagged E v h key l st :
  st = run (exportKey E v "jwk" key deliver) h ->
  In (Deliver None (VRef l)) (events st) ->
  exists a hh nm digits,
    read (heap st) key "algorithm" = Some a /\
    read (heap st) a "hash" = Some hh /\
    read (heap st) hh "name" = Some nm /\
    trailing_digits (to_string E nm) = Some digits /\
    read (heap st) (VRef l) "alg" = Some (VStr (jwk_alg v digits)).
Proof.
  intros ->. wp_start.
  destruct v; wp_run.
  all: cbn [app In].
  all: try (intros [H|[]]; discriminate H).
  all: try (intros [H|[H|[]]]; discriminate H).
  all: intros [H|[H|[]]]; [discriminate H|]; injection H as H.
  all: match goal with
       | H : payload_result ?p _ = VRef _ |- _ =>
           destruct p; try discriminate H; cbn [payload_result payload_store] in *;
           injection H as <-
       end.
  all: reads.
  all: eexists _, _, _, _.
  all: (split; [read_tac|]).
  all: (split; [read_tac|]).
  all: (split; [read_tac|]).
  all: (split; [eassumption|]).
  all: cbn [jwk_alg].
  all: try match goal with
           | Hb : negb (_ =? "1")%string = true |- _ =>
               apply negb_true_iff in Hb; rewrite Hb
           | Hb : negb (_ =? "1")%string = false |- _ =>
               apply negb_false_iff in Hb; rewrite Hb
           end.
  all: read_tac.
Qed.

(** ** Import of a JWK *)





(** ** Completion: one callback per call, nothing thrown *)

Lemma completes_once_wp (m : M unit) (h : store) :
  wp m (mkState h []) (fun r st =>
    (exists u, r = Ok u) /\
    (List.length (List.filter is_deliver (events st)) = 1%nat \/
     exists e, In (Uncaught e) (events st))) ->
  completes_once m h.
Proof.
  unfold wp, completes_once, throws, run.
  destruct (m (mkState h [])) as [r st]. cbn [fst snd].
  intros [[u ->] H]. split; [reflexivity | exact H].
Qed.

Ltac completes_once_tac :=
  apply completes_once_wp; wp_run;
  (split; [eexists; reflexivity|]);
  cbn [app List.filter is_deliver List.length In];
  first [ left; reflexivity | right; eexists; eauto 6 ].

Lemma generateKey_completes_once E v alg ext ku h :
  completes_once (generateKey E v alg ext ku deliver) h.
Proof. destruct v; completes_once_tac. Qed.

Lemma importKey_completes_once E v fmt keyData algorithm ext ku h :
  completes_once (importKey E v fmt keyData algorithm ext ku deliver) h.
Proof. completes_once_tac. Qed.

Lemma exportKey_completes_once E v fmt key h :
  completes_once (exportKey E v fmt key deliver) h.
Proof. destruct v; completes_once_tac. Qed.

Lemma RsaPKCS1_sign_completes_once E alg key data h :
  completes_once (RsaPKCS1_sign E alg key data deliver) h.
Proof. completes_once_tac. Qed.

Lemma RsaPKCS1_verify_completes_once E alg key signature data h :
  completes_once (RsaPKCS1_verify E alg key signature data deliver) h.
Proof. completes_once_tac. Qed.

Lemma RsaPSS_sign_completes_once E alg key data h :
  completes_once (RsaPSS_sign E alg key data deliver) h.
Proof. completes_once_tac. Qed.

Lemma RsaPSS_verify_completes_once E alg key signature data h :
  completes_once (RsaPSS_verify E alg key signature data deliver) h.
Proof. completes_once_tac. Qed.

Lemma RsaOAEP_encrypt_completes_once E alg key data h :
  completes_once (RsaOAEP_encrypt E alg key data deliver) h.
Proof. completes_once_tac. Qed.

Lemma RsaOAEP_decrypt_completes_once E alg key data h :
  completes_once (RsaOAEP_decrypt E alg key data deliver) h.
Proof. completes_once_tac. Qed.

Lemma RsaOAEP_wrapKey_completes_once E key wrappingKey algorithm h :
  completes_once (RsaOAEP_wrapKey E key wrappingKey algorithm deliver) h.
Proof. completes_once_tac. Qed.

Lemma RsaOAEP_unwrapKey_completes_once E wrapped key a1 a2 ext ku h :
  completes_once (RsaOAEP_unwrapKey E wrapped key a1 a2 ext ku deliver) h.
Proof. completes_once_tac. Qed.

(** ** Import of a binary key: the failure path of the engine callback *)

(** C3.  In importKey for spki and pkcs8, the handler of the engine callback
    calls the caller's callback with the engine's [err] instead of the
    exception it caught.  So when the engine succeeds and the processing of
    its result then throws (the algorithm argument is undefined or null, or
    the native modulusLength accessor throws), the caller's callback is
    invoked with a null error and a null result: the failure reaches the
    caller without an error value. *)
Theorem importKey_binary_failure_delivered_without_error
    E v h fmt keyData algorithm ext ku k :
  toLocaleLowerCase E fmt = "spki"%string \/ toLocaleLowerCase E fmt = "pkcs8"%string ->
  Buffer_isBuffer keyData = true ->
  engine E (import_request E fmt keyData) = (None, PKey k) ->
  algorithm = VUndefined \/ algorithm = VNull \/
    (exists e, key_modulusLength E k = Thrown e) ->
  events (run (importKey E v fmt keyData algorithm ext ku deliver) h) =
  [Call (import_request E fmt keyData); Deliver None VNull].
Proof.
  intros Hlow Hbuf Heng Hfail. unfold import_request in *.
  wp_start.
  destruct Hfail as [-> | [-> | [e He]]]; destruct Hlow as [Hlow | Hlow]; wp_run.
  all: cbn [app]; try reflexivity.
  all: try congruence.
  all: try (rewrite Hbuf in *; discriminate).
Qed.

(** An spki import with the algorithm argument left undefined: the engine
    imports the key, and the caller receives (null, null). *)
Lemma importKey_binary_failure_delivered_without_error_demo :
  events (run (importKey Demo.env PKCS1 "spki" (VBuffer [x30; x82]) VUndefined true
                 ["verify"]%string deliver)
              (Demo.store_with_keys "RSASSA-PKCS1-v1_5" "SHA-256" true)) =
  [Call (import_request Demo.env "spki" (VBuffer [x30; x82])); Deliver None VNull].
Proof.
  apply (importKey_binary_failure_delivered_without_error Demo.env PKCS1
           (Demo.store_with_keys "RSASSA-PKCS1-v1_5" "SHA-256" true) "spki"
           (VBuffer [x30; x82]) VUndefined true ["verify"]%string 2%nat).
  - left. reflexivity.
  - reflexivity.
  - reflexivity.
  - left. reflexivity.
Defined.

(** ** The format string in the export of a class *)

(** The base export and the import lower-case the format before they look
    at it: any spelling of a known format behaves as the lower-case one. *)
Lemma Rsa_exportKey_case_insensitive E fmt key cb :
  known_format (toLocaleLowerCase E fmt) ->
  Rsa_exportKey E fmt key cb = Rsa_exportKey E (toLocaleLowerCase E fmt) key cb.
Proof.
  intros [H|[H|H]]; unfold Rsa_exportKey; rewrite H.
  - change (toLocaleLowerCase E "jwk") with "jwk"%string.
    change ("jwk" =? "jwk")%string with true. cbv iota. reflexivity.
  - change (toLocaleLowerCase E "spki") with "spki"%string.
    change ("spki" =? "jwk")%string with false.
    change ("spki" =? "spki")%string with true. cbv iota. reflexivity.
  - change (toLocaleLowerCase E "pkcs8") with "pkcs8"%string.
    change ("pkcs8" =? "jwk")%string with false.
    change ("pkcs8" =? "spki")%string with false.
    change ("pkcs8" =? "pkcs8")%string with true. cbv iota. reflexivity.
Qed.

Lemma Rsa_importKey_case_insensitive E name fmt keyData algorithm ext ku cb st :
  known_format (toLocaleLowerCase E fmt) ->
  Rsa_importKey E name fmt keyData algorithm ext ku cb st =
  Rsa_importKey E name (toLocaleLowerCase E fmt) keyData algorithm ext ku cb st.
Proof.
  intros [H|[H|H]]; unfold Rsa_importKey; rewrite H.
  - change (toLocaleLowerCase E "jwk") with "jwk"%string.
    change ("jwk" =? "jwk")%string with true. cbv iota. reflexivity.
  - change (toLocaleLowerCase E "spki") with "spki"%string.
    change ("spki" =? "jwk")%string with false.
    change ("spki" =? "pkcs8")%string with false.
    change ("spki" =? "spki")%string with true. cbv beta iota zeta delta [orb negb].
    unfold try_catch at 1 3.
    destruct (Buffer_isBuffer keyData); [|reflexivity].
    cbv beta iota zeta delta [orb negb].
    unfold delegate, bind, log, payload_value. cbn [fst snd].
    destruct (engine E (ImportSpki keyData)) as [[e|] p]; reflexivity.
  - change (toLocaleLowerCase E "pkcs8") with "pkcs8"%string.
    change ("pkcs8" =? "jwk")%string with false.
    change ("pkcs8" =? "spki")%string with false.
    change ("pkcs8" =? "pkcs8")%string with true. cbv beta iota zeta delta [orb negb].
    unfold try_catch at 1 3.
    destruct (Buffer_isBuffer keyData); [|reflexivity].
    cbv beta iota zeta delta [orb negb].
    unfold delegate, bind, log, payload_value. cbn [fst snd].
    destruct (engine E (ImportPkcs8 keyData)) as [[e|] p]; reflexivity.
Qed.

(** C7.  The export of a class compares the format with "jwk" as given,
    while the base export it calls lower-cases it.  For a format that
    lower-cases to "jwk" without being "jwk" (such as "JWK"), a successful
    export therefore delivers the JWK object as the base export built it:
    its alg, ext and key_ops properties are whatever the engine's object
    held (normally nothing), not the tag and operations that the same call
    with "jwk" adds. *)
Theorem exportKey_format_compared_verbatim E v h key fmt l st :
  st = run (exportKey E v fmt key deliver) h ->
  toLocaleLowerCase E fmt = "jwk"%string ->
  fmt <> "jwk"%string ->
  In (Deliver None (VRef l)) (events st) ->
  exists k ty err o,
    In (Call (ExportJwk k ty)) (events st) /\
    engine E (ExportJwk k ty) = (err, PObject o) /\
    read (heap st) (VRef l) "alg" = Some (default VUndefined (o !! "alg")) /\
    read (heap st) (VRef l) "ext" = Some (default VUndefined (o !! "ext")) /\
    read (heap st) (VRef l) "key_ops" = Some (default VUndefined (o !! "key_ops")).
Proof.
  intros -> Hlow Hne. wp_start.
  destruct v; wp_run.
  all: try match goal with
           | Hb : (?f =? "jwk")%string = true, Hn : ?f <> "jwk"%string |- _ =>
               apply String.eqb_eq in Hb; contradiction
           end.
  all: cbn [app In].
  all: try (intros [H|[]]; discriminate H).
  all: try (intros [H|[H|[]]]; discriminate H).
  all: intros [H|[H|[]]]; [discriminate H|]; injection H as H.
  all: match goal with
       | H : payload_result ?p _ = VRef _ |- _ =>
           destruct p; try discriminate H; cbn [payload_result payload_store] in *;
           injection H as <-
       end.
  all: eexists _, _, _, _.
  all: (split; [left; reflexivity|]).
  all: (split; [eassumption|]).
  all: repeat split; read_tac.
Qed.

(** With the toy engine, whose JWK carries no alg: the export with "JWK"
    delivers an object without alg, the export with "jwk" one tagged
    RS256. *)
Lemma exportKey_JWK_lacks_alg :
  (exists k ty err o,
     In (Call (ExportJwk k ty))
        (events (run (exportKey Demo.env PKCS1 "JWK" (VRef 2%nat) deliver)
                     (Demo.store_with_keys "RSASSA-PKCS1-v1_5" "SHA-256" true))) /\
     engine Demo.env (ExportJwk k ty) = (err, PObject o) /\
     read (heap (run (exportKey Demo.env PKCS1 "JWK" (VRef 2%nat) deliver)
                     (Demo.store_with_keys "RSASSA-PKCS1-v1_5" "SHA-256" true)))
          (VRef 5%nat) "alg" = Some (default VUndefined (o !! "alg")) /\
     read (heap (run (exportKey Demo.env PKCS1 "JWK" (VRef 2%nat) deliver)
                     (Demo.store_with_keys "RSASSA-PKCS1-v1_5" "SHA-256" true)))
          (VRef 5%nat) "ext" = Some (default VUndefined (o !! "ext")) /\
     read (heap (run (exportKey Demo.env PKCS1 "JWK" (VRef 2%nat) deliver)
                     (Demo.store_with_keys "RSASSA-PKCS1-v1_5" "SHA-256" true)))
          (VRef 5%nat) "key_ops" = Some (default VUndefined (o !! "key_ops"))) /\
  read (heap (run (exportKey Demo.env PKCS1 "JWK" (VRef 2%nat) deliver)
                  (Demo.store_with_keys "RSASSA-PKCS1-v1_5" "SHA-256" true)))
       (VRef 5%nat) "alg" = Some VUndefined /\
  read (heap (run (exportKey Demo.env PKCS1 "jwk" (VRef 2%nat) deliver)
                  (Demo.store_with_keys "RSASSA-PKCS1-v1_5" "SHA-256" true)))
       (VRef 5%nat) "alg" = Some (VStr "RS256").
Proof.
  split; [|split].
  - apply (exportKey_format_compared_verbatim Demo.env PKCS1
             (Demo.store_with_keys "RSASSA-PKCS1-v1_5" "SHA-256" true)
             (VRef 2%nat) "JWK" 5%nat _ eq_refl).
    + reflexivity.
    + discriminate.
    + vm_compute. right. left. reflexivity.
  - vm_compute. reflexivity.
  - vm_compute. reflexivity.
Defined.

(** * Further properties *)

(** ** Support: completion, framing and facts along a path *)

Lemma completes_wp (m : M unit) (h : store) (P : state -> Prop) :
  wp m (mkState h []) (fun r st => (exists u, r = Ok u) /\ P st) ->
  throws m h = false /\ P (run m h).
Proof.
  unfold wp, throws, run.
  destruct (m (mkState h [])) as [r st]. cbn [fst snd].
  intros [[u ->] H]. split; [reflexivity | exact H].
Qed.

Lemma le_length_write v f x (h : store) n :
  (n <= List.length h)%nat -> (n <= List.length (write v f x h))%nat.
Proof. rewrite length_write. exact id. Qed.

Lemma le_length_app (h h' : store) n :
  (n <= List.length h)%nat -> (n <= List.length (h ++ h'))%nat.
Proof. rewrite length_app. lia. Qed.

Lemma le_length_payload_store p (h : store) n :
  (n <= List.length h)%nat -> (n <= List.length (payload_store p h))%nat.
Proof. destruct p; try exact id. apply le_length_app. Qed.

Ltac le_length :=
  repeat first [ apply le_length_write | apply le_length_app
               | apply le_length_payload_store ];
  reflexivity.

(** A write to an object allocated after [h0] does not disturb what could
    be read in [h0]. *)
Lemma read_write_above (h0 h1 : store) v g y w f x :
  read h0 w f = Some x ->
  (forall l, v = VRef l -> (List.length h0 <= l)%nat) ->
  read h1 w f = Some x -> read (write v g y h1) w f = Some x.
Proof.
  intros H0 Hv H1. destruct v; try exact H1.
  destruct w; try exact H1.
  rewrite read_write_other; [exact H1|].
  intros ->. specialize (Hv l0 eq_refl).
  apply allocated_read, lookup_lt_is_Some in H0. lia.
Qed.

Lemma read_write_payload (h0 h1 h2 : store) p g y w f x :
  read h0 w f = Some x ->
  (List.length h0 <= List.length h1)%nat ->
  read h2 w f = Some x -> read (write (payload_result p h1) g y h2) w f = Some x.
Proof.
  intros H0 Hl H2. eapply read_write_above; [exact H0 | | exact H2].
  intros l Hp. destruct p; try discriminate Hp. injection Hp as <-. exact Hl.
Qed.

Lemma read_write_new (h0 h1 h2 : store) g y w f x :
  read h0 w f = Some x ->
  (List.length h0 <= List.length h1)%nat ->
  read h2 w f = Some x -> read (write (VRef (List.length h1)) g y h2) w f = Some x.
Proof.
  intros H0 Hl H2. eapply read_write_above; [exact H0 | | exact H2].
  intros l [= <-]. exact Hl.
Qed.

(** What could be read before the call reads the same after it. *)
Ltac frame_tac :=
  lazymatch goal with
  | Hr : read ?h0 ?w ?f = Some ?x |- read ?h0 ?w ?f = Some ?x => exact Hr
  | |- read (write _ ?g _ _) _ ?f = Some _ =>
      first [ apply read_write_Some; [assumption | frame_tac]
            | eapply read_write_payload; [eassumption | le_length | frame_tac]
            | eapply read_write_new; [eassumption | le_length | frame_tac] ]
  | |- read (_ ++ _) _ _ = Some _ => apply read_app; frame_tac
  | |- read (payload_store _ _) _ _ = Some _ => apply read_payload_store; frame_tac
  end.

(** The events are engine calls followed by one delivery. *)
Ltac shape_tac :=
  cbn [app]; unfold calls_then_delivers;
  lazymatch goal with
  | |- exists _ _ _, [Deliver _ _] = _ /\ _ => eexists [], _, _
  | |- exists _ _ _, [Call _; Deliver _ _] = _ /\ _ => eexists [_], _, _
  | |- exists _ _ _, [Call _; Call _; Deliver _ _] = _ /\ _ => eexists [_; _], _, _
  end;
  (split; [reflexivity | cbn [List.length]; lia]).

(** Start a statement of the form [throws m h = false /\ P (run m h)]. *)
Ltac completes_tac :=
  lazymatch goal with
  | |- throws ?m ?h = false /\ ?P =>
      let Q := eval pattern (run m h) in P in
      lazymatch Q with
      | ?F _ => apply (completes_wp m h F)
      end
  end;
  wp_run;
  (split; [eexists; reflexivity|]).

Lemma toUpperCase_HASH_ALGS E u : In u HASH_ALGS -> toUpperCase E u = u.
Proof.
  unfold HASH_ALGS. cbn [In]. intros H.
  repeat (destruct H as [<-|H]; [reflexivity|]). destruct H.
Qed.

(** A name found in HASH_ALGS is its own upper case. *)
Ltac upper_fixed :=
  repeat match goal with
         | H : In ?u HASH_ALGS |- context [toUpperCase ?E ?u] =>
             rewrite (toUpperCase_HASH_ALGS E u H)
         | H : In ?u HASH_ALGS, H' : context [toUpperCase ?E ?u] |- _ =>
             rewrite (toUpperCase_HASH_ALGS E u H) in H'
         end.

Lemma strict_eq_str_true v s : strict_eq_str v s = true -> v = VStr s.
Proof.
  destruct v; cbn; try discriminate. intros H. apply String.eqb_eq in H. congruence.
Qed.

Lemma existsb_strict_eq_str_In v (l : list string) :
  existsb (strict_eq_str v) l = true -> exists s, v = VStr s /\ In s l.
Proof.
  intros H. apply existsb_exists in H as (s & Hin & Heq).
  apply strict_eq_str_true in Heq. eauto.
Qed.

Lemma existsb_strict_eq_str_not_In s (l : list string) :
  ~ In s l -> existsb (strict_eq_str (VStr s)) l = false.
Proof.
  intros H. apply not_true_is_false. intros Hex.
  apply existsb_strict_eq_str_In in Hex as (s' & [= <-] & Hin). auto.
Qed.

Lemma materialised_payload p (h : store) :
  materialised (payload_store p h) p (payload_result p h).
Proof.
  destruct p; try reflexivity. cbn. eexists. split; [reflexivity|].
  apply list_lookup_middle. reflexivity.
Qed.

Lemma materialised_later p p' (h : store) d :
  materialised h p d -> materialised (payload_store p' h) p d.
Proof.
  destruct p; try exact id. intros (l & -> & Hl).
  exists l. split; [reflexivity|].
  destruct p'; try exact Hl. cbn. apply lookup_app_l_Some. exact Hl.
Qed.

Lemma materialised_app p (h h' : store) d :
  materialised h p d -> materialised (h ++ h') p d.
Proof.
  destruct p; try exact id. intros (l & -> & Hl).
  exists l. split; [reflexivity|]. apply lookup_app_l_Some. exact Hl.
Qed.

(** Bring the facts collected along a path into terms of the initial
    store. *)
Ltac tidy :=
  repeat first
    [ progress subst
    | match goal with
      | H : @eq value _ _ |- _ => discriminate H
      | H : read (write _ _ _ _) _ _ = _ |- _ =>
          rewrite read_write_ne in H by discriminate
      | H : strict_eq_str _ _ = true |- _ => apply strict_eq_str_true in H
      | H : VStr _ = VStr _ |- _ => injection H as H
      | H : read _ ?x "name" = Some (VStr _) |- _ =>
          is_var x;
          let l := fresh "hl" in
          let Hs := fresh "Hsome" in
          destruct (read_VStr_ref _ _ _ _ H) as (l & -> & Hs)
      | H : read (write (VRef ?l) ?f ?x ?hh) (VRef ?l) ?f = Some ?y |- _ =>
          rewrite read_write_eq in H by alloc_tac; injection H as H
      | H : negb (existsb (strict_eq_str _) HASH_ALGS) = false |- _ =>
          apply negb_false_iff, existsb_strict_eq_str_In in H as (? & ? & ?)
      end ];
  upper_fixed.

(** A path that reached the engine once: the request is the recorded one. *)
Ltac the_call r :=
  not_a_call;
  let H := fresh "H" in
  intros [H|[H|[]]]; [|discriminate H]; apply Call_inj in H; subst r;
  tidy.

Ltac forwards_tac :=
  unfold forwards; eexists _, _, _;
  split; [eassumption|]; split; [reflexivity | apply materialised_payload].

Ltac rsa_key_tac :=
  unfold rsa_key, hash_named;
  split; [eassumption|]; split; [eassumption|];
  eexists _, _; split; [eassumption|]; split; eassumption.

(** The label handed to the engine, by what the parameter object holds. *)
Ltac label_tac :=
  split;
  [ let Ht := fresh "Ht" in
    intros Ht; try rewrite Ht in *; cbn [truthy negb Buffer_isBuffer] in *;
    first [reflexivity | discriminate | congruence]
  | ];
  split;
  [ intros ?bs [-> | ->]; cbn [truthy negb Buffer_isBuffer] in *;
    first [ reflexivity | discriminate
          | match goal with
            | Hp : new_Buffer _ _ _ = _ |- _ =>
                cbv beta iota delta [new_Buffer ret] in Hp; congruence
            end ]
  | ].

(** Reading a property of null or undefined throws a TypeError; a condition
    settled by a hypothesis is not split. *)
Ltac wp_step_null :=
  lazymatch goal with
  | |- wp (if ?b then _ else _) _ _ =>
      first [ match goal with H : b = _ |- _ => rewrite H end; cbv beta iota
            | wp_step ]
  | |- wp (get_field VNull _) _ _ =>
      cbv beta iota delta [get_field]; apply wp_throw
  | |- wp (get_field VUndefined _) _ _ =>
      cbv beta iota delta [get_field]; apply wp_throw
  | |- _ => wp_step
  end.

(** ** Completion and the store *)

(** X1.  generateKey of each class, called with a callback that does not
    throw, returns normally whatever its arguments are; it contacts the
    engine at most once and then invokes the callback exactly once, every
    failure reaching the caller through that callback.  Of what the caller
    could read in the store before the call, only properties called [name]
    (the hash name, which is upper-cased in place, and the name of the
    algorithm argument, which the inherited check of the identifier
    examines) can read differently afterwards. *)
Theorem generateKey_completes_and_preserves E v alg ext ku h :
  throws (generateKey E v alg ext ku deliver) h = false /\
  calls_then_delivers 1 (events (run (generateKey E v alg ext ku deliver) h)) /\
  preserved_but "name" h (heap (run (generateKey E v alg ext ku deliver) h)).
Proof.
  destruct v; completes_tac.
  all: (split; [shape_tac | intros ?w ?f ?x ?Hne ?Hr; frame_tac]).
Qed.

(** X2.  importKey of each class, called with a callback that does not
    throw, returns normally whatever its arguments are: it contacts the
    engine at most once and then invokes the callback exactly once. *)
Theorem importKey_completes E v fmt keyData algorithm ext ku h :
  throws (importKey E v fmt keyData algorithm ext ku deliver) h = false /\
  calls_then_delivers 1
    (events (run (importKey E v fmt keyData algorithm ext ku deliver) h)).
Proof.
  completes_tac.
  all: shape_tac.
Qed.

(** X3.  exportKey of each class, called with a callback that does not
    throw, returns normally whatever its arguments are; it contacts the
    engine at most once and then invokes the callback exactly once.  It
    changes no object that existed before the call: everything the caller
    could read in the store reads the same afterwards (the JWK it fills in
    is the engine's fresh object). *)
Theorem exportKey_completes_and_preserves E v fmt key h :
  throws (exportKey E v fmt key deliver) h = false /\
  calls_then_delivers 1 (events (run (exportKey E v fmt key deliver) h)) /\
  preserved h (heap (run (exportKey E v fmt key deliver) h)).
Proof.
  destruct v; completes_tac.
  all: (split; [shape_tac | intros ?w ?f ?x ?Hr; frame_tac]).
Qed.

(** X4.  sign and verify of RSASSA-PKCS1-v1_5 and of RSA-PSS, called with a
    callback that does not throw, return normally whatever their arguments
    are; each contacts the engine at most once and then invokes the callback
    exactly once.  Only properties called [name] can read differently
    afterwards: the hash name of the key's algorithm, which these operations
    upper-case in place, and the name of the algorithm argument, which the
    inherited check of the identifier examines. *)
Theorem sign_verify_complete_and_preserve E alg key signature data h :
  (throws (RsaPKCS1_sign E alg key data deliver) h = false /\
   calls_then_delivers 1 (events (run (RsaPKCS1_sign E alg key data deliver) h)) /\
   preserved_but "name" h (heap (run (RsaPKCS1_sign E alg key data deliver) h))) /\
  (throws (RsaPKCS1_verify E alg key signature data deliver) h = false /\
   calls_then_delivers 1
     (events (run (RsaPKCS1_verify E alg key signature data deliver) h)) /\
   preserved_but "name" h
     (heap (run (RsaPKCS1_verify E alg key signature data deliver) h))) /\
  (throws (RsaPSS_sign E alg key data deliver) h = false /\
   calls_then_delivers 1 (events (run (RsaPSS_sign E alg key data deliver) h)) /\
   preserved_but "name" h (heap (run (RsaPSS_sign E alg key data deliver) h))) /\
  (throws (RsaPSS_verify E alg key signature data deliver) h = false /\
   calls_then_delivers 1
     (events (run (RsaPSS_verify E alg key signature data deliver) h)) /\
   preserved_but "name" h
     (heap (run (RsaPSS_verify E alg key signature data deliver) h))).
Proof.
  split; [|split; [|split]]; completes_tac.
  all: (split; [shape_tac | intros ?w ?f ?x ?Hne ?Hr; frame_tac]).
Qed.

Lemma RsaOAEP_wrapKey_completes E key wrappingKey algorithm h :
  throws (RsaOAEP_wrapKey E key wrappingKey algorithm deliver) h = false /\
  (calls_then_delivers 2
     (events (run (RsaOAEP_wrapKey E key wrappingKey algorithm deliver) h)) \/
   exists ak e,
     events (run (RsaOAEP_wrapKey E key wrappingKey algorithm deliver) h) =
     [Call (AesExport ak); Uncaught e] /\
     forall k, read h wrappingKey "native" <> Some (VKey k)) /\
  preserved_but "name" h
    (heap (run (RsaOAEP_wrapKey E key wrappingKey algorithm deliver) h)).
Proof.
  completes_tac.
  all: (split; [first [left; shape_tac | right] | intros ?w ?f ?x ?Hne ?Hr; frame_tac]).
  eexists _, _. split; [reflexivity|]. intros k' Hk'.
  repeat match goal with
         | H : read (write _ _ _ _) _ _ = _ |- _ =>
             rewrite read_write_ne in H by discriminate
         end.
  match goal with
  | Hn : read h wrappingKey "native" = Some ?x, Hk0 : forall k, ?x <> VKey k |- _ =>
      rewrite Hn in Hk'; injection Hk' as ->; exact (Hk0 _ eq_refl)
  end.
Qed.

(** X5.  encrypt, decrypt, unwrapKey and wrapKey of RSA-OAEP, called with a
    callback that does not throw, return normally whatever their arguments
    are.  encrypt and decrypt contact the engine at most once, unwrapKey at
    most twice, and then invoke the callback exactly once.  wrapKey does the
    same with at most two requests, with one exception: when the wrapping
    key's [native] property is not a native key, the method call on it fails
    inside the callback of the AES export, outside every try block, and the
    caller's callback is never invoked.  Only properties called [name] can
    read differently afterwards. *)
Theorem oaep_operations_complete_and_preserve E alg key secret data h :
  (throws (RsaOAEP_encrypt E alg key data deliver) h = false /\
   calls_then_delivers 1 (events (run (RsaOAEP_encrypt E alg key data deliver) h)) /\
   preserved_but "name" h (heap (run (RsaOAEP_encrypt E alg key data deliver) h))) /\
  (throws (RsaOAEP_decrypt E alg key data deliver) h = false /\
   calls_then_delivers 1 (events (run (RsaOAEP_decrypt E alg key data deliver) h)) /\
   preserved_but "name" h (heap (run (RsaOAEP_decrypt E alg key data deliver) h))) /\
  (forall target ext ku,
   throws (RsaOAEP_unwrapKey E data key alg target ext ku deliver) h = false /\
   calls_then_delivers 2
     (events (run (RsaOAEP_unwrapKey E data key alg target ext ku deliver) h)) /\
   preserved_but "name" h
     (heap (run (RsaOAEP_unwrapKey E data key alg target ext ku deliver) h))) /\
  (throws (RsaOAEP_wrapKey E secret key alg deliver) h = false /\
   (calls_then_delivers 2 (events (run (RsaOAEP_wrapKey E secret key alg deliver) h)) \/
    exists ak e,
      events (run (RsaOAEP_wrapKey E secret key alg deliver) h) =
      [Call (AesExport ak); Uncaught e] /\
      forall k, read h key "native" <> Some (VKey k)) /\
   preserved_but "name" h (heap (run (RsaOAEP_wrapKey E secret key alg deliver) h))).
Proof.
  split; [|split; [|split; [intros target ext ku|apply RsaOAEP_wrapKey_completes]]];
    completes_tac.
  all: (split; [shape_tac | intros ?w ?f ?x ?Hne ?Hr; frame_tac]).
Qed.

(** ** Validation before the engine *)



(** X7.  generateKey of each class, given an accepted identifier and a
    modulusLength in range, refuses a publicExponent that is missing or is
    not a Uint8Array (a plain array, a string) with the TypeError
    "publicExponent: Missing or not a Uint8Array".  The refusal comes before
    the hash is looked at: the engine is not contacted, and everything the
    caller could read in the store reads the same afterwards, the hash name
    included, except possibly the [name] of the algorithm argument itself
    (the property that the inherited check of the identifier examines). *)
Theorem generateKey_publicExponent_must_be_Uint8Array E v h alg ext ku n pe st :
  st = run (generateKey E v alg ext ku deliver) h ->
  base_checkAlgorithmIdentifier E (ALGORITHM_NAME v) h alg = None ->
  read h alg "modulusLength" = Some (VNum n) -> 256 <= n <= 16384 ->
  read h alg "publicExponent" = Some pe ->
  truthy pe = false \/ instanceof_Uint8Array pe = false ->
  events st =
    [Deliver (Some (type_error
       "RsaKeyGenParams: publicExponent: Missing or not a Uint8Array")) VNull] /\
  preserved_except alg "name" h (heap st).
Proof.
  intros -> Hid Hml Hrange Hpe Hbad.
  wp_start.
  destruct v; cbn [ALGORITHM_NAME] in *; wp_run.
  all: cbn [app].
  all: try (split; [reflexivity | intros ?w ?f ?x _ ?Hr; assumption]).
  all: exfalso; destruct Hbad as [Hbad|Hbad]; try rewrite Hbad in *; try rewrite andb_false_r in *; bool_crush.
Qed.

(** A plain array as publicExponent is refused. *)
Lemma generateKey_publicExponent_must_be_Uint8Array_demo :
  events Demo.refused_exponent =
    [Deliver (Some (type_error
       "RsaKeyGenParams: publicExponent: Missing or not a Uint8Array")) VNull] /\
  preserved_except (VRef 0%nat) "name" Demo.array_exponent_store
    (heap Demo.refused_exponent).
Proof.
  apply (generateKey_publicExponent_must_be_Uint8Array Demo.env OAEP
           Demo.array_exponent_store (VRef 0%nat) true ["encrypt"]%string 2048
           (VArray ["1"; "0"; "1"]%string) Demo.refused_exponent eq_refl).
  - reflexivity.
  - reflexivity.
  - lia.
  - reflexivity.
  - right. reflexivity.
Defined.

(** X8.  Whenever generateKey of a class reaches the engine, the hash of
    its algorithm argument was named by a string whose upper-case form is
    one of SHA-1, SHA-224, SHA-256, SHA-384 and SHA-512, in any letter case,
    and the caller's hash object now holds the upper-case form: the name is
    normalised in place. *)
Theorem generateKey_hash_name_normalised E v h alg ext ku r st :
  st = run (generateKey E v alg ext ku deliver) h ->
  In (Call r) (events st) ->
  exists hv hn,
    hash_named h alg hv hn /\ In (toUpperCase E hn) HASH_ALGS /\
    read (heap st) hv "name" = Some (VStr (toUpperCase E hn)).
Proof.
  intros ->. wp_start. destruct v; wp_run.
  all: not_a_call.
  all: intros _; tidy.
  all: eexists _, _.
  all: (split; [split; eassumption|]).
  all: (split; [eassumption|]).
  all: read_tac.
Qed.

(** A key pair over "sha-256": the descriptor ends up naming "SHA-256". *)
Lemma generateKey_hash_name_normalised_demo :
  exists hv hn,
    hash_named (Demo.alg_at "RSASSA-PKCS1-v1_5" (VNum 2048) [x01; x00; x01] "sha-256")
      (VRef 0%nat) hv hn /\
    In (toUpperCase Demo.env hn) HASH_ALGS /\
    read (heap Demo.generated_lower) hv "name" = Some (VStr (toUpperCase Demo.env hn)).
Proof.
  apply (generateKey_hash_name_normalised Demo.env PKCS1
           (Demo.alg_at "RSASSA-PKCS1-v1_5" (VNum 2048) [x01; x00; x01] "sha-256")
           (VRef 0%nat) true ["sign"]%string (GenerateRsa (VNum 2048) 1)
           Demo.generated_lower eq_refl).
  vm_compute. left. reflexivity.
Defined.

(** X9.  generateKey of each class, with parameters that pass the other
    checks, refuses a hash whose upper-cased name is not one of the five
    supported ones: the only event is the delivery of the Error "Unknow hash
    algorithm in use", so the engine is not contacted.  The name has been
    upper-cased in the caller's hash object all the same, since the write
    comes before the test. *)
Theorem generateKey_unknown_hash_refused E v h alg ext ku n bs hv hn st :
  st = run (generateKey E v alg ext ku deliver) h ->
  base_checkAlgorithmIdentifier E (ALGORITHM_NAME v) h alg = None ->
  base_checkAlgorithmHashedParams E (ALGORITHM_NAME v) h alg = None ->
  read h alg "modulusLength" = Some (VNum n) -> 256 <= n <= 16384 ->
  read h alg "publicExponent" = Some (VUint8Array bs) ->
  hash_named h alg hv hn -> ~ In (toUpperCase E hn) HASH_ALGS ->
  events st =
    [Deliver (Some (plain_error "AlgorithmHashedParams: Unknow hash algorithm in use"))
       VNull] /\
  read (heap st) hv "name" = Some (VStr (toUpperCase E hn)).
Proof.
  intros -> Hid Hhash Hml Hrange Hpe [Hh Hn] Hnot.
  destruct (read_VStr_ref _ _ _ _ Hn) as (hl & -> & Hsome).
  pose proof (existsb_strict_eq_str_not_In _ _ Hnot) as Hex.
  wp_start.
  destruct v; cbn [ALGORITHM_NAME] in *; wp_run.
  all: cbn [app].
  all: try (split; [reflexivity | read_tac]).
  all: exfalso; bool_crush.
Qed.

(** A key pair over "md5" is refused, and the descriptor names "MD5". *)
Lemma generateKey_unknown_hash_refused_demo :
  events Demo.refused_md5 =
    [Deliver (Some (plain_error "AlgorithmHashedParams: Unknow hash algorithm in use"))
       VNull] /\
  read (heap Demo.refused_md5) (VRef 1%nat) "name" = Some (VStr (toUpperCase Demo.env "md5")).
Proof.
  apply (generateKey_unknown_hash_refused Demo.env PSS
           (Demo.alg_at "RSA-PSS" (VNum 2048) [x01; x00; x01] "md5")
           (VRef 0%nat) true ["sign"]%string 2048 [x01; x00; x01] (VRef 1%nat) "md5"
           Demo.refused_md5 eq_refl).
  - reflexivity.
  - reflexivity.
  - reflexivity.
  - lia.
  - reflexivity.
  - split; reflexivity.
  - vm_compute. intuition discriminate.
Defined.

(** ** Key generation and import *)

(** X10.  When the engine fails a key generation, generateKey of each class
    hands the caller a new Error whose message is "Rsa: Can not generate new
    key", a line break and the message of the engine's error, together with
    a null result. *)
Theorem generateKey_engine_failure_is_wrapped E v h alg ext ku r e p :
  In (Call r) (events (run (generateKey E v alg ext ku deliver) h)) ->
  engine E r = (Some e, p) ->
  events (run (generateKey E v alg ext ku deliver) h) =
  [Call r;
   Deliver (Some (plain_error ("Rsa: Can not generate new key" +:+ newline +:+
                               err_message e))) VNull].
Proof.
  wp_start. destruct v; wp_run.
  all: not_a_call.
  all: (intros [H|[H|[]]]; [|discriminate H]); apply Call_inj in H; subst r.
  all: intros He; rewrite He in *.
  all: match goal with H : (_, _) = (_, _) |- _ => injection H as H1 H2 end.
  all: try discriminate.
  all: congruence.
Qed.

(** With the failing engine. *)
Lemma generateKey_engine_failure_is_wrapped_demo :
  events (run (generateKey Demo.failing_env PKCS1 (VRef 0%nat) true ["sign"]%string
                 deliver)
              (Demo.alg_at "RSASSA-PKCS1-v1_5" (VNum 2048) [x01; x00; x01] "SHA-256")) =
  [Call (GenerateRsa (VNum 2048) 1);
   Deliver (Some (plain_error ("Rsa: Can not generate new key" +:+ newline +:+
                               "engine failure"))) VNull].
Proof.
  apply (generateKey_engine_failure_is_wrapped Demo.failing_env PKCS1
           (Demo.alg_at "RSASSA-PKCS1-v1_5" (VNum 2048) [x01; x00; x01] "SHA-256")
           (VRef 0%nat) true ["sign"]%string (GenerateRsa (VNum 2048) 1)
           (plain_error "engine failure") PUndefined).
  - vm_compute. left. reflexivity.
  - reflexivity.
Defined.

(** X11.  importKey refuses, before anything else happens, a format that
    does not lower-case to jwk, spki or pkcs8, with an Error that quotes the
    format as given, and for spki and pkcs8 key data that is not a Buffer (a
    Uint8Array is not one), with the Error "keyData is not a Buffer".  In
    both cases the engine is not contacted and the store is unchanged. *)
Theorem importKey_rejects_before_engine E v h fmt keyData algorithm ext ku :
  (toLocaleLowerCase E fmt <> "jwk"%string ->
   toLocaleLowerCase E fmt <> "spki"%string ->
   toLocaleLowerCase E fmt <> "pkcs8"%string ->
   run (importKey E v fmt keyData algorithm ext ku deliver) h =
   mkState h [Deliver (Some (plain_error ("ImportKey: Wrong format value '" +:+
                                          fmt +:+ "'"))) VNull]) /\
  (toLocaleLowerCase E fmt = "spki"%string \/ toLocaleLowerCase E fmt = "pkcs8"%string ->
   Buffer_isBuffer keyData = false ->
   run (importKey E v fmt keyData algorithm ext ku deliver) h =
   mkState h [Deliver (Some (plain_error "ImportKey: keyData is not a Buffer")) VNull]).
Proof.
  split.
  - intros H1 H2 H3. wp_start. wp_run.
    all: try reflexivity.
    all: exfalso; bool_crush.
  - intros Hlow Hbuf. wp_start. destruct Hlow as [Hlow|Hlow]; wp_run.
    all: try reflexivity.
    all: rewrite Hbuf in *; discriminate.
Qed.

(** The format "pem" is not known. *)
Lemma importKey_rejects_before_engine_demo :
  run (importKey Demo.env PKCS1 "pem" (VBuffer [x30; x82]) (VRef 0%nat) true
         ["verify"]%string deliver) Demo.lower_store =
  mkState Demo.lower_store
    [Deliver (Some (plain_error "ImportKey: Wrong format value 'pem'")) VNull].
Proof.
  apply (proj1 (importKey_rejects_before_engine Demo.env PKCS1 Demo.lower_store "pem"
                  (VBuffer [x30; x82]) (VRef 0%nat) true ["verify"]%string)).
  - vm_compute. discriminate.
  - vm_compute. discriminate.
  - vm_compute. discriminate.
Defined.

(** X12.  When the engine fails an import, the caller receives a null
    result and, for the JWK format, a new Error whose message is "ImportKey:
    Can not import key from JWK", a line break and the message of the
    engine's error; for spki and pkcs8 it receives the engine's error object
    itself, since the handler of that callback passes [err] on and the
    Error built with the format name is dropped. *)
Theorem importKey_engine_failure E v h fmt keyData algorithm ext ku r e p :
  In (Call r) (events (run (importKey E v fmt keyData algorithm ext ku deliver) h)) ->
  engine E r = (Some e, p) ->
  events (run (importKey E v fmt keyData algorithm ext ku deliver) h) =
  [Call r;
   Deliver (Some (if String.eqb (toLocaleLowerCase E fmt) "jwk"
                  then plain_error ("ImportKey: Can not import key from JWK" +:+
                                    newline +:+ err_message e)
                  else e)) VNull].
Proof.
  wp_start. wp_run.
  all: not_a_call.
  all: (intros [H|[H|[]]]; [|discriminate H]); apply Call_inj in H; subst r.
  all: intros He; rewrite He in *.
  all: match goal with H : (_, _) = (_, _) |- _ => injection H as H1 H2 end.
  all: try discriminate.
  all: repeat match goal with
              | H : String.eqb _ _ = _ |- _ => rewrite H
              end.
  all: congruence.
Qed.

(** An spki import with the failing engine delivers the engine's error. *)
Lemma importKey_engine_failure_demo :
  events (run (importKey Demo.failing_env PKCS1 "spki" (VBuffer [x30; x82]) (VRef 0%nat)
                 true ["verify"]%string deliver) Demo.lower_store) =
  [Call (ImportSpki (VBuffer [x30; x82]));
   Deliver (Some (plain_error "engine failure")) VNull].
Proof.
  apply (importKey_engine_failure Demo.failing_env PKCS1 Demo.lower_store "spki"
           (VBuffer [x30; x82]) (VRef 0%nat) true ["verify"]%string
           (ImportSpki (VBuffer [x30; x82])) (plain_error "engine failure") PUndefined).
  - vm_compute. left. reflexivity.
  - reflexivity.
Defined.

(** X13.  importKey for spki and pkcs8 performs no check on the algorithm
    argument.  With a Buffer as key data and an algorithm object, when the
    engine imports the key and the native accessors answer, the caller
    receives a key object over the engine's key, with the caller's
    extractable flag and usages, of type "public" for spki and "private" for
    pkcs8 whatever the key material is; the algorithm object the key refers
    to, which is the caller's, now holds as modulusLength eight times what
    the native key reports and as publicExponent the native exponent bytes.
    Nothing else the caller could read in the store has changed.  (The key
    object is the one the CryptoKey constructor builds, as modelled.) *)
Theorem importKey_binary_success E v h fmt keyData a k ml bs ext ku st :
  st = run (importKey E v fmt keyData (VRef a) ext ku deliver) h ->
  toLocaleLowerCase E fmt = "spki"%string \/ toLocaleLowerCase E fmt = "pkcs8"%string ->
  Buffer_isBuffer keyData = true ->
  is_Some (h !! a) ->
  engine E (import_request E fmt keyData) = (None, PKey k) ->
  key_modulusLength E k = Ok ml ->
  key_publicExponent E k = Ok bs ->
  exists l,
    events st = [Call (import_request E fmt keyData); Deliver None (VRef l)] /\
    read (heap st) (VRef l) "native" = Some (VKey k) /\
    read (heap st) (VRef l) "type" =
      Some (VStr (if String.eqb (toLocaleLowerCase E fmt) "spki"
                  then "public" else "private")) /\
    read (heap st) (VRef l) "extractable" = Some (VBool ext) /\
    read (heap st) (VRef l) "usages" = Some (VArray ku) /\
    read (heap st) (VRef l) "algorithm" = Some (VRef a) /\
    read (heap st) (VRef a) "modulusLength" = Some (VNum (ml * 8)) /\
    read (heap st) (VRef a) "publicExponent" = Some (VUint8Array bs) /\
    (forall w f x, f <> "modulusLength"%string -> f <> "publicExponent"%string ->
       read h w f = Some x -> read (heap st) w f = Some x).
Proof.
  intros -> Hlow Hbuf Ha Heng Hml Hpe. unfold import_request in *.
  wp_start.
  destruct Hlow as [Hlow | Hlow]; wp_run.
  all: cbn [app].
  all: try congruence.
  all: try (rewrite Hbuf in *; discriminate).
  all: assert (Hra : exists y, read h (VRef a) "modulusLength" = Some y)
    by (cbn; destruct Ha as [? ->]; eexists; reflexivity).
  all: assert (Hrb : exists y, read h (VRef a) "publicExponent" = Some y)
    by (cbn; destruct Ha as [? ->]; eexists; reflexivity).
  all: destruct Hra as [? Hra]; destruct Hrb as [? Hrb].
  all: rewrite Hml in *; rewrite Hpe in *.
  all: repeat match goal with H : Ok _ = Ok _ |- _ => injection H as <- end.
  all: eexists; (split; [reflexivity|]).
  all: do 7 (split; [read_tac|]).
  all: intros ?w ?f ?x ?Hne ?Hne ?Hr; frame_tac.
Qed.

(** An import with format "SPKI": a public key of 2048 bits. *)
Lemma importKey_binary_success_demo :
  exists l,
    events Demo.imported_spki =
      [Call (import_request Demo.env "SPKI" (VBuffer [x30; x82])); Deliver None (VRef l)] /\
    read (heap Demo.imported_spki) (VRef l) "native" = Some (VKey 2%nat) /\
    read (heap Demo.imported_spki) (VRef l) "type" =
      Some (VStr (if String.eqb (toLocaleLowerCase Demo.env "SPKI") "spki"
                  then "public" else "private")) /\
    read (heap Demo.imported_spki) (VRef l) "extractable" = Some (VBool true) /\
    read (heap Demo.imported_spki) (VRef l) "usages" = Some (VArray ["verify"]%string) /\
    read (heap Demo.imported_spki) (VRef l) "algorithm" = Some (VRef 0%nat) /\
    read (heap Demo.imported_spki) (VRef 0%nat) "modulusLength" = Some (VNum (256 * 8)) /\
    read (heap Demo.imported_spki) (VRef 0%nat) "publicExponent" =
      Some (VUint8Array [x01; x00; x01]) /\
    (forall w f x, f <> "modulusLength"%string -> f <> "publicExponent"%string ->
       read Demo.lower_store w f = Some x -> read (heap Demo.imported_spki) w f = Some x).
Proof.
  apply (importKey_binary_success Demo.env PKCS1 Demo.lower_store "SPKI"
           (VBuffer [x30; x82]) 0%nat 2%nat 256 [x01; x00; x01] true ["verify"]%string
           Demo.imported_spki eq_refl).
  - left. reflexivity.
  - reflexivity.
  - eexists. reflexivity.
  - reflexivity.
  - reflexivity.
  - reflexivity.
Defined.

(** X14.  When a JWK import reaches the engine and the engine answers with
    a key, the caller receives a key object over it, with the caller's
    extractable flag and usages, whose type is "private" when the JWK's [d]
    was truthy on entry and "public" otherwise.  The algorithm object the
    key refers to, which is the caller's, now holds as modulusLength eight
    times the number of bytes of the decoded [n] and as publicExponent the
    bytes of the decoded [e]. *)
Theorem importKey_jwk_success E v h fmt jl a ext ku r k st :
  st = run (importKey E v fmt (VRef jl) (VRef a) ext ku deliver) h ->
  toLocaleLowerCase E fmt = "jwk"%string ->
  In (Call r) (events st) ->
  engine E r = (None, PKey k) ->
  exists l d0 nb eb,
    events st = [Call r; Deliver None (VRef l)] /\
    read h (VRef jl) "d" = Some d0 /\
    (exists xn, read h (VRef jl) "n" = Some xn /\ Base64Url_decode E xn = Ok nb) /\
    (exists xe, read h (VRef jl) "e" = Some xe /\ Base64Url_decode E xe = Ok eb) /\
    read (heap st) (VRef jl) "n" = Some (VBuffer nb) /\
    read (heap st) (VRef jl) "e" = Some (VBuffer eb) /\
    read (heap st) (VRef l) "native" = Some (VKey k) /\
    read (heap st) (VRef l) "type" =
      Some (VStr (if truthy d0 then "private" else "public")) /\
    read (heap st) (VRef l) "extractable" = Some (VBool ext) /\
    read (heap st) (VRef l) "usages" = Some (VArray ku) /\
    read (heap st) (VRef l) "algorithm" = Some (VRef a) /\
    read (heap st) (VRef a) "modulusLength" =
      Some (VNum (Z.of_nat (List.length nb) * 8)) /\
    read (heap st) (VRef a) "publicExponent" = Some (VUint8Array eb).
Proof.
  intros -> Hlow. wp_start. wp_run.
  all: not_a_call.
  all: (intros [H|[H|[]]]; [|discriminate H]); apply Call_inj in H; subst r.
  all: intros He.
  all: match goal with
       | Hq : engine _ _ = (_, ?p') |- _ =>
           is_var p';
           let Heq := fresh "Heq" in
           pose proof (eq_trans (eq_sym Hq) He) as Heq; inversion Heq
       end.
  all: try discriminate.
  all: subst.
  all: match goal with
       | Hp : new_Uint8Array _ _ _ = _ |- _ =>
           cbv beta iota delta [new_Uint8Array ret] in Hp; injection Hp as Hp
       end.
  all: tidy.
  all: assert (Ha : is_Some (h !! a)) by (eapply allocated_read; eassumption).
  all: assert (Hra : exists y, read h (VRef a) "modulusLength" = Some y)
    by (cbn; destruct Ha as [? ->]; eexists; reflexivity).
  all: assert (Hrb : exists y, read h (VRef a) "publicExponent" = Some y)
    by (cbn; destruct Ha as [? ->]; eexists; reflexivity).
  all: destruct Hra as [? Hra]; destruct Hrb as [? Hrb].
  all: eexists _, _, _, _.
  all: (split; [reflexivity|]).
  all: (split; [eassumption|]).
  all: do 2 (split; [eexists; split; eassumption|]).
  all: do 3 (split; [read_tac|]).
  all: (split; [match goal with Ht : truthy _ = _ |- _ => rewrite Ht end; read_tac|]).
  all: do 3 (split; [read_tac|]).
  all: split; read_tac.
Qed.

(** The public JWK of the demonstration store. *)
Lemma importKey_jwk_success_demo :
  exists l d0 nb eb,
    events Demo.imported_jwk =
      [Call (ImportJwk (VRef 4%nat) (Some Demo.jwk_decoded) PUBLIC);
       Deliver None (VRef l)] /\
    read Demo.lower_store (VRef 4%nat) "d" = Some d0 /\
    (exists xn, read Demo.lower_store (VRef 4%nat) "n" = Some xn /\
                Base64Url_decode Demo.env xn = Ok nb) /\
    (exists xe, read Demo.lower_store (VRef 4%nat) "e" = Some xe /\
                Base64Url_decode Demo.env xe = Ok eb) /\
    read (heap Demo.imported_jwk) (VRef 4%nat) "n" = Some (VBuffer nb) /\
    read (heap Demo.imported_jwk) (VRef 4%nat) "e" = Some (VBuffer eb) /\
    read (heap Demo.imported_jwk) (VRef l) "native" = Some (VKey 2%nat) /\
    read (heap Demo.imported_jwk) (VRef l) "type" =
      Some (VStr (if truthy d0 then "private" else "public")) /\
    read (heap Demo.imported_jwk) (VRef l) "extractable" = Some (VBool true) /\
    read (heap Demo.imported_jwk) (VRef l) "usages" = Some (VArray ["verify"]%string) /\
    read (heap Demo.imported_jwk) (VRef l) "algorithm" = Some (VRef 0%nat) /\
    read (heap Demo.imported_jwk) (VRef 0%nat) "modulusLength" =
      Some (VNum (Z.of_nat (List.length nb) * 8)) /\
    read (heap Demo.imported_jwk) (VRef 0%nat) "publicExponent" = Some (VUint8Array eb).
Proof.
  apply (importKey_jwk_success Demo.env PKCS1 Demo.lower_store "jwk" 4%nat 0%nat true
           ["verify"]%string (ImportJwk (VRef 4%nat) (Some Demo.jwk_decoded) PUBLIC)
           2%nat Demo.imported_jwk eq_refl eq_refl).
  - vm_compute. left. reflexivity.
  - reflexivity.
Defined.

(** ** Export *)

(** X15.  The base class looks at the format only through its lower-case
    form: for any spelling of jwk, spki or pkcs8, Rsa.exportKey and
    Rsa.importKey behave exactly as they do for the lower-case spelling. *)
Theorem base_import_export_ignore_format_case E fmt :
  known_format (toLocaleLowerCase E fmt) ->
  (forall key cb,
     Rsa_exportKey E fmt key cb = Rsa_exportKey E (toLocaleLowerCase E fmt) key cb) /\
  (forall name keyData algorithm ext ku cb st,
     Rsa_importKey E name fmt keyData algorithm ext ku cb st =
     Rsa_importKey E name (toLocaleLowerCase E fmt) keyData algorithm ext ku cb st).
Proof.
  intros H. split; intros.
  - apply Rsa_exportKey_case_insensitive, H.
  - apply Rsa_importKey_case_insensitive, H.
Qed.

(** The spelling "SpKi". *)
Lemma base_import_export_ignore_format_case_demo :
  (forall key cb,
     Rsa_exportKey Demo.env "SpKi" key cb =
     Rsa_exportKey Demo.env (toLocaleLowerCase Demo.env "SpKi") key cb) /\
  (forall name keyData algorithm ext ku cb st,
     Rsa_importKey Demo.env name "SpKi" keyData algorithm ext ku cb st =
     Rsa_importKey Demo.env name (toLocaleLowerCase Demo.env "SpKi") keyData algorithm ext ku cb st).
Proof.
  apply (base_import_export_ignore_format_case Demo.env "SpKi").
  right. left. reflexivity.
Defined.

(** X16.  Whenever the base export delivers a JWK, that JWK is the object
    the engine produced, converted in place: its [e] and [n], and for a key
    whose type is "private" also [d], [p], [q], [dp], [dq] and [qi], hold
    the base64url strings of what the engine put there, and every other
    property is as the engine left it.  The engine is asked for the public
    part exactly when the key's type is "public"; the error argument of the
    engine's callback plays no part. *)
Theorem Rsa_exportKey_jwk_encodes_in_place E h fmt key l st :
  st = run (Rsa_exportKey E fmt key deliver) h ->
  toLocaleLowerCase E fmt = "jwk"%string ->
  In (Deliver None (VRef l)) (events st) ->
  exists k t err o,
    read h key "native" = Some (VKey k) /\
    read h key "type" = Some t /\
    events st = [Call (ExportJwk k (if strict_eq_str t "public" then PUBLIC else PRIVATE));
                 Deliver None (VRef l)] /\
    engine E (ExportJwk k (if strict_eq_str t "public" then PUBLIC else PRIVATE)) =
      (err, PObject o) /\
    encoded_from E o (heap st) (VRef l) "e" /\
    encoded_from E o (heap st) (VRef l) "n" /\
    (strict_eq_str t "private" = true ->
     Forall (encoded_from E o (heap st) (VRef l))
            ["d"; "p"; "q"; "dp"; "dq"; "qi"]%string) /\
    (forall f, ~ In f ["e"; "n"; "d"; "p"; "q"; "dp"; "dq"; "qi"]%string ->
     read (heap st) (VRef l) f = Some (default VUndefined (o !! f))).
Proof.
  intros -> Hlow. wp_start. wp_run.
  all: cbn [app In].
  all: try (intros [H|[]]; discriminate H).
  all: try (intros [H|[H|[]]]; discriminate H).
  all: intros [H|[H|[]]]; [discriminate H|]; injection H as H.
  all: match goal with
       | H : payload_result ?p _ = VRef _ |- _ =>
           destruct p; try discriminate H; cbn [payload_result payload_store] in *;
           injection H as <-
       end.
  all: subst.
  all: repeat match goal with
              | H : read (write _ _ _ _) _ _ = _ |- _ =>
                  rewrite read_write_ne in H by discriminate
              | H : read (_ ++ [_]) (VRef (List.length _)) _ = Some _ |- _ =>
                  rewrite read_app_new in H; injection H as <-
              end.
  all: eexists _, _, _, _.
  all: do 2 (split; [eassumption|]).
  all: (split; [reflexivity|]).
  all: (split; [eassumption|]).
  all: do 2 (split; [eexists; split; [eassumption | read_tac]|]).
  all: (split;
        [ intros Hp;
          first [ congruence
                | repeat (apply List.Forall_cons;
                          [eexists; split; [eassumption | read_tac]|]);
                  apply List.Forall_nil ]
        | ]).
  all: intros f Hf.
  all: repeat (apply read_write_ne'; [intros ->; apply Hf; cbn; tauto|]).
  all: apply read_app_new.
Qed.

(** The private key of the demonstration store, exported with "JWK". *)
Lemma Rsa_exportKey_jwk_encodes_in_place_demo :
  exists k t err o,
    read Demo.lower_store (VRef 3%nat) "native" = Some (VKey k) /\
    read Demo.lower_store (VRef 3%nat) "type" = Some t /\
    events Demo.exported_base_jwk =
      [Call (ExportJwk k (if strict_eq_str t "public" then PUBLIC else PRIVATE));
       Deliver None (VRef 5%nat)] /\
    engine Demo.env (ExportJwk k (if strict_eq_str t "public" then PUBLIC else PRIVATE)) =
      (err, PObject o) /\
    encoded_from Demo.env o (heap Demo.exported_base_jwk) (VRef 5%nat) "e" /\
    encoded_from Demo.env o (heap Demo.exported_base_jwk) (VRef 5%nat) "n" /\
    (strict_eq_str t "private" = true ->
     Forall (encoded_from Demo.env o (heap Demo.exported_base_jwk) (VRef 5%nat))
            ["d"; "p"; "q"; "dp"; "dq"; "qi"]%string) /\
    (forall f, ~ In f ["e"; "n"; "d"; "p"; "q"; "dp"; "dq"; "qi"]%string ->
     read (heap Demo.exported_base_jwk) (VRef 5%nat) f =
       Some (default VUndefined (o !! f))).
Proof.
  apply (Rsa_exportKey_jwk_encodes_in_place Demo.env Demo.lower_store "JWK" (VRef 3%nat)
           5%nat Demo.exported_base_jwk eq_refl eq_refl).
  vm_compute. right. left. reflexivity.
Defined.

(** X17.  Whenever exportKey("jwk", key) of a class delivers a JWK, its
    [ext] property is true, whatever the key's extractable flag, and its
    [key_ops] are those of the class for the key's role: verify for a public
    and sign for any other key of the signature classes; encrypt and wrapKey,
    respectively decrypt and unwrapKey, for RSA-OAEP. *)
Theorem exportKey_jwk_ext_and_key_ops E v h key l st :
  st = run (exportKey E v "jwk" key deliver) h ->
  In (Deliver None (VRef l)) (events st) ->
  read (heap st) (VRef l) "ext" = Some (VBool true) /\
  exists t,
    read h key "type" = Some t /\
    read (heap st) (VRef l) "key_ops" = Some (VArray (key_ops v t)).
Proof.
  intros ->. wp_start.
  destruct v; wp_run.
  all: cbn [app In].
  all: try (intros [H|[]]; discriminate H).
  all: try (intros [H|[H|[]]]; discriminate H).
  all: intros [H|[H|[]]]; [discriminate H|]; injection H as H.
  all: match goal with
       | H : payload_result ?p _ = VRef _ |- _ =>
           destruct p; try discriminate H; cbn [payload_result payload_store] in *;
           injection H as <-
       end.
  all: (split; [read_tac|]).
  all: eexists; (split; [eassumption|]).
  all: unfold key_ops; cbn [public_ops private_usages].
  all: match goal with Hb : strict_eq_str _ "public" = _ |- _ => rewrite Hb end.
  all: read_tac.
Qed.

(** The private RSA-OAEP key. *)
Lemma exportKey_jwk_ext_and_key_ops_demo :
  read (heap Demo.exported_jwk) (VRef 7%nat) "ext" = Some (VBool true) /\
  exists t,
    read Demo.oaep_store (VRef 3%nat) "type" = Some t /\
    read (heap Demo.exported_jwk) (VRef 7%nat) "key_ops" = Some (VArray (key_ops OAEP t)).
Proof.
  apply (exportKey_jwk_ext_and_key_ops Demo.env OAEP Demo.oaep_store (VRef 3%nat) 7%nat
           Demo.exported_jwk eq_refl).
  vm_compute. right. left. reflexivity.
Defined.

(** X18.  When the engine fails an export, completing with an error and no
    result, the caller of exportKey of a class receives for spki and pkcs8
    the engine's error itself; for jwk the engine's error is not looked at,
    and what the caller receives is the TypeError raised by reading a
    property of the missing result. *)
Theorem exportKey_engine_failure E v h fmt key k t r e p :
  read h key "native" = Some (VKey k) ->
  read h key "type" = Some (VStr t) ->
  export_request E fmt k t = Some r ->
  engine E r = (Some e, p) ->
  p = PNull \/ p = PUndefined ->
  exists e',
    events (run (exportKey E v fmt key deliver) h) =
      [Call r; Deliver (Some e') VNull] /\
    if String.eqb (toLocaleLowerCase E fmt) "jwk"
    then err_kind e' = TypeError
    else e' = e.
Proof.
  intros Hn Ht Hreq He Hp. unfold export_request in Hreq.
  destruct (String.eqb (toLocaleLowerCase E fmt) "jwk") eqn:Hj;
    [|destruct (String.eqb (toLocaleLowerCase E fmt) "spki") eqn:Hs;
      [|destruct (String.eqb (toLocaleLowerCase E fmt) "pkcs8") eqn:Hq;
        [|discriminate Hreq]]].
  all: try (destruct (String.eqb t "public") eqn:Hpub; [|discriminate Hreq]).
  all: try (destruct (String.eqb t "private") eqn:Hpriv; [|discriminate Hreq]).
  all: injection Hreq as <-.
  all: try change (String.eqb t "public") with (strict_eq_str (VStr t) "public") in He.
  all: wp_start.
  all: destruct Hp as [-> | ->]; destruct v; repeat wp_step_null.
  all: cbn [app strict_eq_str] in *.
  all: try congruence.
  all: try (eexists; split; reflexivity).
Qed.

(** A JWK export with the failing engine. *)
Lemma exportKey_engine_failure_demo :
  exists e',
    events (run (exportKey Demo.failing_env PSS "jwk" (VRef 3%nat) deliver)
                Demo.lower_store) =
      [Call (ExportJwk 1%nat PRIVATE); Deliver (Some e') VNull] /\
    if String.eqb (toLocaleLowerCase Demo.env "jwk") "jwk"
    then err_kind e' = TypeError
    else e' = plain_error "engine failure".
Proof.
  apply (exportKey_engine_failure Demo.failing_env PSS Demo.lower_store "jwk"
           (VRef 3%nat) 1%nat "private" (ExportJwk 1%nat PRIVATE)
           (plain_error "engine failure") PUndefined).
  - reflexivity.
  - reflexivity.
  - reflexivity.
  - reflexivity.
  - right. reflexivity.
Defined.

(** ** What the cryptographic operations ask of the engine *)

(** X19.  Whenever sign or verify of RSASSA-PKCS1-v1_5 or RSA-PSS reaches
    the engine, the key has the role the operation needs (private to sign,
    public to verify), and the request carries the key's native handle, the
    caller's data (and signature) unchanged and, as digest, the hash name of
    the key's own algorithm, not of the algorithm argument, upper-cased and
    with its first dash removed; that name is one of the five supported
    ones.  The engine's completion, error or result, is handed to the
    caller's callback unchanged. *)
Theorem signature_requests_carry_key_digest E h alg key signature data :
  (forall r, In (Call r) (events (run (RsaPKCS1_sign E alg key data deliver) h)) ->
   exists k hn,
     rsa_key h key "private" k hn /\ In (toUpperCase E hn) HASH_ALGS /\
     r = Sign k (digest_name E hn) data /\
     forwards E (run (RsaPKCS1_sign E alg key data deliver) h) r) /\
  (forall r, In (Call r) (events (run (RsaPKCS1_verify E alg key signature data deliver) h)) ->
   exists k hn,
     rsa_key h key "public" k hn /\ In (toUpperCase E hn) HASH_ALGS /\
     r = Verify k (digest_name E hn) data signature /\
     forwards E (run (RsaPKCS1_verify E alg key signature data deliver) h) r) /\
  (forall r, In (Call r) (events (run (RsaPSS_sign E alg key data deliver) h)) ->
   exists k hn sl,
     rsa_key h key "private" k hn /\ In (toUpperCase E hn) HASH_ALGS /\
     r = RsaPssSign k (digest_name E hn) sl data /\
     forwards E (run (RsaPSS_sign E alg key data deliver) h) r) /\
  (forall r, In (Call r) (events (run (RsaPSS_verify E alg key signature data deliver) h)) ->
   exists k hn sl,
     rsa_key h key "public" k hn /\ In (toUpperCase E hn) HASH_ALGS /\
     r = RsaPssVerify k (digest_name E hn) sl data signature /\
     forwards E (run (RsaPSS_verify E alg key signature data deliver) h) r).
Proof.
  split; [|split; [|split]]; intros r; wp_start; wp_run.
  all: the_call r.
  all: try eexists _, _, _; try eexists _, _.
  all: (split; [rsa_key_tac|]).
  all: (split; [eassumption|]).
  all: (split; [reflexivity | forwards_tac]).
Qed.

(** A signature under a key over "sha-256": the digest is "SHA256". *)
Lemma signature_requests_carry_key_digest_demo :
  exists k hn,
    rsa_key Demo.lower_store (VRef 3%nat) "private" k hn /\
    In (toUpperCase Demo.env hn) HASH_ALGS /\
    Sign 1%nat "SHA256" (VBuffer [x05]) = Sign k (digest_name Demo.env hn) (VBuffer [x05]) /\
    forwards Demo.env
      (run (RsaPKCS1_sign Demo.env (VRef 0%nat) (VRef 3%nat) (VBuffer [x05]) deliver)
           Demo.lower_store)
      (Sign 1%nat "SHA256" (VBuffer [x05])).
Proof.
  apply (proj1 (signature_requests_carry_key_digest Demo.env Demo.lower_store
                  (VRef 0%nat) (VRef 3%nat) (VBuffer [x01]) (VBuffer [x05]))).
  vm_compute. left. reflexivity.
Defined.

(** X20.  Whenever RSA-OAEP encrypt or decrypt reaches the engine, the key
    is public (to encrypt) or private (to decrypt) and the request carries
    the key's native handle, the digest of the key's own hash, the caller's
    data, the direction, and a label that is null when the parameter object
    has no (truthy) label and, for a label that is a Uint8Array or a Buffer,
    a Buffer with the label's bytes.  The engine's completion is handed to
    the caller unchanged. *)
Theorem oaep_requests_carry_key_digest_and_label E h alg key data :
  (forall r, In (Call r) (events (run (RsaOAEP_encrypt E alg key data deliver) h)) ->
   exists k hn l label,
     rsa_key h key "public" k hn /\ In (toUpperCase E hn) HASH_ALGS /\
     read h alg "label" = Some l /\
     r = RsaOaepEncDec k (digest_name E hn) data label false /\
     (truthy l = false -> label = VNull) /\
     (forall bs, l = VUint8Array bs \/ l = VBuffer bs -> label = VBuffer bs) /\
     forwards E (run (RsaOAEP_encrypt E alg key data deliver) h) r) /\
  (forall r, In (Call r) (events (run (RsaOAEP_decrypt E alg key data deliver) h)) ->
   exists k hn l label,
     rsa_key h key "private" k hn /\ In (toUpperCase E hn) HASH_ALGS /\
     read h alg "label" = Some l /\
     r = RsaOaepEncDec k (digest_name E hn) data label true /\
     (truthy l = false -> label = VNull) /\
     (forall bs, l = VUint8Array bs \/ l = VBuffer bs -> label = VBuffer bs) /\
     forwards E (run (RsaOAEP_decrypt E alg key data deliver) h) r).
Proof.
  split; intros r; wp_start; wp_run.
  all: the_call r.
  all: eexists _, _, _, _.
  all: (split; [rsa_key_tac|]).
  all: (split; [eassumption|]).
  all: (split; [eassumption|]).
  all: (split; [reflexivity|]).
  all: label_tac.
  all: forwards_tac.
Qed.

(** An encryption without label. *)
Lemma oaep_requests_carry_key_digest_and_label_demo :
  exists k hn l label,
    rsa_key Demo.oaep_store (VRef 2%nat) "public" k hn /\
    In (toUpperCase Demo.env hn) HASH_ALGS /\
    read Demo.oaep_store (VRef 0%nat) "label" = Some l /\
    RsaOaepEncDec 1%nat "SHA256" (VBuffer [x05; x06]) VNull false =
      RsaOaepEncDec k (digest_name Demo.env hn) (VBuffer [x05; x06]) label false /\
    (truthy l = false -> label = VNull) /\
    (forall bs, l = VUint8Array bs \/ l = VBuffer bs -> label = VBuffer bs) /\
    forwards Demo.env
      (run (RsaOAEP_encrypt Demo.env (VRef 0%nat) (VRef 2%nat) (VBuffer [x05; x06])
              deliver) Demo.oaep_store)
      (RsaOaepEncDec 1%nat "SHA256" (VBuffer [x05; x06]) VNull false).
Proof.
  apply (proj1 (oaep_requests_carry_key_digest_and_label Demo.env Demo.oaep_store
                  (VRef 0%nat) (VRef 2%nat) (VBuffer [x05; x06]))).
  vm_compute. left. reflexivity.
Defined.

(** X21.  Whenever RSA-OAEP wrapKey reaches the engine, the key to wrap is
    a secret key and the wrapping key a public one, and the first request
    is the export of the AES key.  If that fails, the caller receives its
    error and RSA is never used.  Otherwise what was exported is encrypted
    under the wrapping key's native key, with the digest named by the hash
    of the algorithm argument (here not the key's own) and with a null
    label: a label in the algorithm argument is ignored.  The completion of
    that second request is handed to the caller unchanged. *)
Theorem wrapKey_exports_then_encrypts E h key wrappingKey algorithm r st :
  st = run (RsaOAEP_wrapKey E key wrappingKey algorithm deliver) h ->
  In (Call r) (events st) ->
  exists ak hv hn err p,
    read h key "type" = Some (VStr "secret") /\
    read h key "native" = Some (VAesKey ak) /\
    read h wrappingKey "type" = Some (VStr "public") /\
    hash_named h algorithm hv hn /\ In (toUpperCase E hn) HASH_ALGS /\
    engine E (AesExport ak) = (err, p) /\
    match err with
    | Some e => events st = [Call (AesExport ak); Deliver (Some e) VNull]
    | None =>
        forall k, read h wrappingKey "native" = Some (VKey k) ->
        exists raw,
          materialised (heap st) p raw /\
          exists err' p' d,
            engine E (RsaOaepEncDec k (digest_name E hn) raw VNull false) = (err', p') /\
            events st = [Call (AesExport ak);
                         Call (RsaOaepEncDec k (digest_name E hn) raw VNull false);
                         Deliver err' d] /\
            materialised (heap st) p' d
    end.
Proof.
  intros ->. wp_start. wp_run.
  all: not_a_call.
  all: intros _; tidy.
  all: eexists _, _, _, _, _.
  all: do 3 (split; [eassumption|]).
  all: (split; [split; eassumption|]).
  all: do 2 (split; [eassumption|]).
  all: cbv beta iota; try reflexivity.
  all: intros k' Hk'.
  all: match goal with
       | Hn : read ?h ?w "native" = Some _, Hk : read ?h ?w "native" = Some (VKey _) |- _ =>
           rewrite Hn in Hk; injection Hk as Hk
       end.
  all: try (exfalso; match goal with Hk0 : forall k, _ <> VKey k |- _ => eapply Hk0; eassumption end).
  all: subst.
  all: eexists; (split; [apply materialised_later, materialised_payload|]).
  all: eexists _, _, _; (split; [eassumption|]).
  all: (split; [reflexivity | apply materialised_payload]).
Qed.

(** Wrapping the AES key of the demonstration store. *)
Lemma wrapKey_exports_then_encrypts_demo :
  exists ak hv hn err p,
    read Demo.oaep_store (VRef 5%nat) "type" = Some (VStr "secret") /\
    read Demo.oaep_store (VRef 5%nat) "native" = Some (VAesKey ak) /\
    read Demo.oaep_store (VRef 2%nat) "type" = Some (VStr "public") /\
    hash_named Demo.oaep_store (VRef 0%nat) hv hn /\ In (toUpperCase Demo.env hn) HASH_ALGS /\
    engine Demo.env (AesExport ak) = (err, p) /\
    match err with
    | Some e => events Demo.wrapped = [Call (AesExport ak); Deliver (Some e) VNull]
    | None =>
        forall k, read Demo.oaep_store (VRef 2%nat) "native" = Some (VKey k) ->
        exists raw,
          materialised (heap Demo.wrapped) p raw /\
          exists err' p' d,
            engine Demo.env (RsaOaepEncDec k (digest_name Demo.env hn) raw VNull false) =
              (err', p') /\
            events Demo.wrapped =
              [Call (AesExport ak);
               Call (RsaOaepEncDec k (digest_name Demo.env hn) raw VNull false);
               Deliver err' d] /\
            materialised (heap Demo.wrapped) p' d
    end.
Proof.
  apply (wrapKey_exports_then_encrypts Demo.env Demo.oaep_store (VRef 5%nat)
           (VRef 2%nat) (VRef 0%nat) (AesExport 7%nat) Demo.wrapped eq_refl).
  vm_compute. left. reflexivity.
Defined.

(** X22.  Whenever RSA-OAEP unwrapKey reaches the engine, the unwrapping key
    is private and the target algorithm is named AES-CBC or AES-GCM; the
    first request decrypts the wrapped key with the digest named by the hash
    of the unwrap algorithm and with a label that is the empty Buffer when
    none is given (where encrypt passes null).  A failure of that request,
    or of the AES import that follows, reaches the caller as the engine's
    error.  When both succeed the caller receives a key object of type
    "secret" over the imported AES key, with the target algorithm and the
    caller's extractable flag and usages. *)
Theorem unwrapKey_decrypts_then_imports E h wrapped key alg target ext ku r st :
  st = run (RsaOAEP_unwrapKey E wrapped key alg target ext ku deliver) h ->
  In (Call r) (events st) ->
  exists k hv hn tn l label err p,
    read h key "type" = Some (VStr "private") /\
    read h key "native" = Some (VKey k) /\
    hash_named h alg hv hn /\ In (toUpperCase E hn) HASH_ALGS /\
    read (heap st) target "name" = Some (VStr tn) /\
    (tn = ALG_NAME_AES_CBC \/ tn = ALG_NAME_AES_GCM) /\
    read h alg "label" = Some l /\
    (truthy l = false -> label = VBuffer []) /\
    (forall bs, l = VUint8Array bs \/ l = VBuffer bs -> label = VBuffer bs) /\
    engine E (RsaOaepEncDec k (digest_name E hn) wrapped label true) = (err, p) /\
    match err with
    | Some e =>
        events st = [Call (RsaOaepEncDec k (digest_name E hn) wrapped label true);
                     Deliver (Some e) VNull]
    | None =>
        exists raw err2 p2,
          materialised (heap st) p raw /\
          engine E (AesImport raw) = (err2, p2) /\
          match err2 with
          | Some e =>
              events st = [Call (RsaOaepEncDec k (digest_name E hn) wrapped label true);
                           Call (AesImport raw); Deliver (Some e) VNull]
          | None =>
              exists l' nk,
                events st = [Call (RsaOaepEncDec k (digest_name E hn) wrapped label true);
                             Call (AesImport raw); Deliver None (VRef l')] /\
                materialised (heap st) p2 nk /\
                read (heap st) (VRef l') "native" = Some nk /\
                read (heap st) (VRef l') "algorithm" = Some target /\
                read (heap st) (VRef l') "type" = Some (VStr "secret") /\
                read (heap st) (VRef l') "extractable" = Some (VBool ext) /\
                read (heap st) (VRef l') "usages" = Some (VArray ku)
          end
    end.
Proof.
  intros ->. wp_start. wp_run.
  all: not_a_call.
  all: intros _; tidy.
  all: match goal with
       | Heqc : engine _ (RsaOaepEncDec _ _ _ ?lab _) = _ |- _ =>
           eexists _, _, _, _, _, lab, _, _
       end.
  all: do 2 (split; [eassumption|]).
  all: (split; [split; eassumption|]).
  all: (split; [eassumption|]).
  all: (split; [read_tac|]).
  all: (split; [first [left; reflexivity | right; reflexivity]|]).
  all: (split; [eassumption|]).
  all: label_tac.
  all: (split; [eassumption|]).
  all: cbv beta iota; try reflexivity.
  all: eexists _, _, _.
  all: (split; [first [ apply materialised_later, materialised_payload
                      | apply materialised_app, materialised_later, materialised_payload ]|]).
  all: (split; [eassumption|]).
  all: cbv beta iota; try reflexivity.
  all: eexists _, _.
  all: (split; [reflexivity|]).
  all: (split; [apply materialised_app, materialised_payload|]).
  all: repeat split; read_tac.
Qed.

(** Unwrapping into an AES-CBC key. *)
Lemma unwrapKey_decrypts_then_imports_demo :
  exists k hv hn tn l label err p,
    read Demo.oaep_store (VRef 3%nat) "type" = Some (VStr "private") /\
    read Demo.oaep_store (VRef 3%nat) "native" = Some (VKey k) /\
    hash_named Demo.oaep_store (VRef 0%nat) hv hn /\ In (toUpperCase Demo.env hn) HASH_ALGS /\
    read (heap Demo.unwrapped) (VRef 6%nat) "name" = Some (VStr tn) /\
    (tn = ALG_NAME_AES_CBC \/ tn = ALG_NAME_AES_GCM) /\
    read Demo.oaep_store (VRef 0%nat) "label" = Some l /\
    (truthy l = false -> label = VBuffer []) /\
    (forall bs, l = VUint8Array bs \/ l = VBuffer bs -> label = VBuffer bs) /\
    engine Demo.env (RsaOaepEncDec k (digest_name Demo.env hn) (VBuffer [x2b; x2a]) label true) =
      (err, p) /\
    match err with
    | Some e =>
        events Demo.unwrapped =
          [Call (RsaOaepEncDec k (digest_name Demo.env hn) (VBuffer [x2b; x2a]) label true);
           Deliver (Some e) VNull]
    | None =>
        exists raw err2 p2,
          materialised (heap Demo.unwrapped) p raw /\
          engine Demo.env (AesImport raw) = (err2, p2) /\
          match err2 with
          | Some e =>
              events Demo.unwrapped =
                [Call (RsaOaepEncDec k (digest_name Demo.env hn) (VBuffer [x2b; x2a]) label true);
                 Call (AesImport raw); Deliver (Some e) VNull]
          | None =>
              exists l' nk,
                events Demo.unwrapped =
                  [Call (RsaOaepEncDec k (digest_name Demo.env hn) (VBuffer [x2b; x2a]) label true);
                   Call (AesImport raw); Deliver None (VRef l')] /\
                materialised (heap Demo.unwrapped) p2 nk /\
                read (heap Demo.unwrapped) (VRef l') "native" = Some nk /\
                read (heap Demo.unwrapped) (VRef l') "algorithm" = Some (VRef 6%nat) /\
                read (heap Demo.unwrapped) (VRef l') "type" = Some (VStr "secret") /\
                read (heap Demo.unwrapped) (VRef l') "extractable" = Some (VBool false) /\
                read (heap Demo.unwrapped) (VRef l') "usages" =
                  Some (VArray ["encrypt"]%string)
          end
    end.
Proof.
  apply (unwrapKey_decrypts_then_imports Demo.env Demo.oaep_store (VBuffer [x2b; x2a])
           (VRef 3%nat) (VRef 0%nat) (VRef 6%nat) false ["encrypt"]%string
           (AesImport (VBuffer [x2a; x2b])) Demo.unwrapped eq_refl).
  vm_compute. right. left. reflexivity.
Defined.

(** * What a usable key guarantees: signatures, the salt length, the JWK tag *)

(** ** Support: the path on which every check passes *)

(** A path that contradicts what is known of the key. *)
Ltac impossible :=
  exfalso;
  first
    [ eapply unwritable_allocated; eassumption
    | match goal with
      | H : negb (existsb (strict_eq_str (VStr ?u)) HASH_ALGS) = true,
        Hin : In ?u HASH_ALGS |- _ =>
          rewrite (existsb_strict_eq_str u _ Hin) in H; discriminate H
      | H : forall s, VStr ?u <> VStr s |- _ => exact (H u eq_refl)
      | H : read (write (VRef ?l) ?f _ _) (VRef ?l) ?f = None |- _ =>
          rewrite read_write_eq in H by alloc_tac; discriminate H
      end ].

Lemma RsaPKCS1_sign_accepts E h alg key data k hn :
  base_checkAlgorithmIdentifier E ALG_NAME_RSA_PKCS1 h alg = None ->
  usable_key E h key "private" k hn ->
  forwards E (run (RsaPKCS1_sign E alg key data deliver) h)
    (Sign k (digest_name E hn) data).
Proof.
  intros Hid (Hty & Hn & a & hv & Ha & Hc & Hh & Hnm & Hin).
  wp_start. repeat wp_step_null.
  all: cbn [negb] in *; try discriminate.
  all: tidy.
  all: try impossible.
  all: cbn [app]; change (remove_first_dash (toUpperCase E hn)) with (digest_name E hn).
  all: forwards_tac.
Qed.

Lemma RsaPKCS1_verify_accepts E h alg key signature data k hn :
  base_checkAlgorithmIdentifier E ALG_NAME_RSA_PKCS1 h alg = None ->
  usable_key E h key "public" k hn ->
  forwards E (run (RsaPKCS1_verify E alg key signature data deliver) h)
    (Verify k (digest_name E hn) data signature).
Proof.
  intros Hid (Hty & Hn & a & hv & Ha & Hc & Hh & Hnm & Hin).
  wp_start. repeat wp_step_null.
  all: cbn [negb] in *; try discriminate.
  all: tidy.
  all: try impossible.
  all: cbn [app]; change (remove_first_dash (toUpperCase E hn)) with (digest_name E hn).
  all: forwards_tac.
Qed.

(** RSA-PSS: a saltLength that is truthy and leaves no truthy remainder
    passes checkRsaAlgorithmParams, and the engine receives it divided
    by 8. *)
Lemma RsaPSS_sign_accepts E h alg key data sl k hn :
  base_checkAlgorithmIdentifier E ALG_NAME_RSA_PSS h alg = None ->
  read h alg "saltLength" = Some sl ->
  truthy sl = true -> truthy (js_rem8 E sl) = false ->
  usable_key E h key "private" k hn ->
  forwards E (run (RsaPSS_sign E alg key data deliver) h)
    (RsaPssSign k (digest_name E hn) (js_div8 E sl) data).
Proof.
  intros Hid Hsl Ht Hr (Hty & Hn & a & hv & Ha & Hc & Hh & Hnm & Hin).
  wp_start. repeat wp_step_null.
  all: rewrite ?Ht, ?Hr in *; cbn [negb] in *; try discriminate.
  all: tidy.
  all: try impossible.
  all: cbn [app]; change (remove_first_dash (toUpperCase E hn)) with (digest_name E hn).
  all: forwards_tac.
Qed.

Lemma RsaPSS_verify_accepts E h alg key signature data sl k hn :
  base_checkAlgorithmIdentifier E ALG_NAME_RSA_PSS h alg = None ->
  read h alg "saltLength" = Some sl ->
  truthy sl = true -> truthy (js_rem8 E sl) = false ->
  usable_key E h key "public" k hn ->
  forwards E (run (RsaPSS_verify E alg key signature data deliver) h)
    (RsaPssVerify k (digest_name E hn) (js_div8 E sl) data signature).
Proof.
  intros Hid Hsl Ht Hr (Hty & Hn & a & hv & Ha & Hc & Hh & Hnm & Hin).
  wp_start. repeat wp_step_null.
  all: rewrite ?Ht, ?Hr in *; cbn [negb] in *; try discriminate.
  all: tidy.
  all: try impossible.
  all: cbn [app]; change (remove_first_dash (toUpperCase E hn)) with (digest_name E hn).
  all: forwards_tac.
Qed.

(** A non-zero multiple of 8 passes and is divided exactly. *)
Lemma salt_multiple_of_8 E n :
  n <> 0 -> Z.rem n 8 = 0 ->
  truthy (VNum n) = true /\ truthy (js_rem8 E (VNum n)) = false /\
  js_div8 E (VNum n) = VNum (Z.quot n 8).
Proof.
  intros Hn Hr. unfold js_rem8, js_div8, to_number. rewrite Hr. cbn.
  split; [|split; reflexivity]. apply negb_true_iff, Z.eqb_neq, Hn.
Qed.

(** An infinity passes too: its remainder is NaN, which is falsy. *)
Lemma salt_infinite E negative :
  truthy (VInfinity negative) = true /\
  truthy (js_rem8 E (VInfinity negative)) = false /\
  js_div8 E (VInfinity negative) = VInfinity negative.
Proof. repeat split. Qed.

(** The usable keys of the concrete stores. *)
Lemma usable_demo_keys name hash ext :
  In (toUpperCase Demo.env hash) HASH_ALGS ->
  usable_key Demo.env (Demo.store_with_keys name hash ext) (VRef 2%nat) "public" 1%nat hash /\
  usable_key Demo.env (Demo.store_with_keys name hash ext) (VRef 3%nat) "private" 1%nat hash.
Proof.
  intros Hin.
  split; (split; [reflexivity|]; split; [reflexivity|];
          exists (VRef 0%nat), (VRef 1%nat); repeat split; try reflexivity; exact Hin).
Qed.

Lemma forwards_verify_result E st r valid :
  forwards E st r -> engine E r = native_verify_result valid ->
  events st = [Call r; Deliver None (VBool valid)].
Proof.
  intros (err & p & d & He & Hev & Hm) Hres.
  rewrite Hres in He. injection He as <- <-. cbn in Hm. subst d. exact Hev.
Qed.

Lemma verify_rejected_identifier E h alg key signature data :
  (forall e, base_checkAlgorithmIdentifier E ALG_NAME_RSA_PKCS1 h alg = Some e ->
     events (run (RsaPKCS1_verify E alg key signature data deliver) h) =
     [Deliver (Some e) VNull]) /\
  (forall e, base_checkAlgorithmIdentifier E ALG_NAME_RSA_PSS h alg = Some e ->
     events (run (RsaPSS_verify E alg key signature data deliver) h) =
     [Deliver (Some e) VNull]).
Proof.
  split; intros e He; wp_start; wp_run; reflexivity.
Qed.

(** ** RSA-PSS: the salt length *)

(** C6.  RSA-PSS sign and verify read saltLength from the parameter object.
    (1) When it is absent or is a number that is not a non-zero multiple
    of 8 (zero, an integer that 8 does not divide such as 15, a number that
    is not an integer, NaN), the only event is the delivery of an error: the
    engine is never called; when the algorithm identifier itself is
    accepted, that error is the TypeError of checkRsaAlgorithmParams.
    (2) When it is a non-zero multiple of 8, the identifier is accepted and
    the key is usable in the role of the operation, the engine is called
    once, with the key's native handle, the digest of the key's hash, the
    caller's data and the salt length divided by 8, and its completion is
    handed to the caller.  (3) An infinite saltLength is not refused: its
    remainder by 8 is NaN, which the check takes for zero, and the engine
    is called with an infinite salt length.  (4) Whenever the engine is
    called on an integer saltLength, that saltLength is a non-zero multiple
    of 8 and the engine receives it divided by 8. *)
Theorem RsaPSS_saltLength_checked_and_converted E h alg key signature data sl :
  read h alg "saltLength" = Some sl ->
  (bad_salt sl ->
   exists e1 e2,
     events (run (RsaPSS_sign E alg key data deliver) h) = [Deliver (Some e1) VNull] /\
     events (run (RsaPSS_verify E alg key signature data deliver) h) = [Deliver (Some e2) VNull] /\
     (base_checkAlgorithmIdentifier E ALG_NAME_RSA_PSS h alg = None ->
      e1 = salt_error sl /\ e2 = salt_error sl)) /\
  (forall n k hn, sl = VNum n -> n <> 0 -> Z.rem n 8 = 0 ->
   base_checkAlgorithmIdentifier E ALG_NAME_RSA_PSS h alg = None ->
   (usable_key E h key "private" k hn ->
    forwards E (run (RsaPSS_sign E alg key data deliver) h)
      (RsaPssSign k (digest_name E hn) (VNum (Z.quot n 8)) data)) /\
   (usable_key E h key "public" k hn ->
    forwards E (run (RsaPSS_verify E alg key signature data deliver) h)
      (RsaPssVerify k (digest_name E hn) (VNum (Z.quot n 8)) data signature))) /\
  (forall negative k hn, sl = VInfinity negative ->
   base_checkAlgorithmIdentifier E ALG_NAME_RSA_PSS h alg = None ->
   (usable_key E h key "private" k hn ->
    forwards E (run (RsaPSS_sign E alg key data deliver) h)
      (RsaPssSign k (digest_name E hn) (VInfinity negative) data)) /\
   (usable_key E h key "public" k hn ->
    forwards E (run (RsaPSS_verify E alg key signature data deliver) h)
      (RsaPssVerify k (digest_name E hn) (VInfinity negative) data signature))) /\
  (forall n r, sl = VNum n ->
   In (Call r) (events (run (RsaPSS_sign E alg key data deliver) h)) ->
   n <> 0 /\ Z.rem n 8 = 0 /\
   exists k md, r = RsaPssSign k md (VNum (Z.quot n 8)) data) /\
  (forall n r, sl = VNum n ->
   In (Call r) (events (run (RsaPSS_verify E alg key signature data deliver) h)) ->
   n <> 0 /\ Z.rem n 8 = 0 /\
   exists k md, r = RsaPssVerify k md (VNum (Z.quot n 8)) data signature).
Proof.
  intros Hsl. split; [|split; [|split; [|split]]].
  - intros Hbad. apply (bad_salt_refused E) in Hbad.
    destruct (RsaPSS_sign_refuses E h alg key data sl Hsl Hbad) as (e1 & H1 & H1').
    destruct (RsaPSS_verify_refuses E h alg key signature data sl Hsl Hbad)
      as (e2 & H2 & H2').
    exists e1, e2. auto.
  - intros n k hn -> Hn Hr Hid.
    destruct (salt_multiple_of_8 E n Hn Hr) as (Ht & Hrem & <-).
    split; intros Hkey.
    + apply RsaPSS_sign_accepts; assumption.
    + apply RsaPSS_verify_accepts; assumption.
  - intros negative k hn -> Hid.
    destruct (salt_infinite E negative) as (Ht & Hrem & Hdiv).
    split; intros Hkey.
    + exact (RsaPSS_sign_accepts E h alg key data (VInfinity negative) k hn
               Hid Hsl Ht Hrem Hkey).
    + exact (RsaPSS_verify_accepts E h alg key signature data (VInfinity negative)
               k hn Hid Hsl Ht Hrem Hkey).
  - intros n r ->. apply RsaPSS_sign_salt_in_bytes, Hsl.
  - intros n r ->. apply RsaPSS_verify_salt_in_bytes, Hsl.
Qed.

(** A salt length of 15 bits is refused by sign and by verify; an infinite
    one reaches the engine. *)
Lemma RsaPSS_saltLength_infinite_reaches_engine :
  (exists e1 e2,
     events (run (RsaPSS_sign Demo.env (VRef 0%nat) (VRef 3%nat) (VBuffer [x05]) deliver)
                 (Demo.pss_store (VNum 15))) = [Deliver (Some e1) VNull] /\
     events (run (RsaPSS_verify Demo.env (VRef 0%nat) (VRef 3%nat) (VBuffer [x01])
                    (VBuffer [x05]) deliver)
                 (Demo.pss_store (VNum 15))) = [Deliver (Some e2) VNull] /\
     (base_checkAlgorithmIdentifier Demo.env ALG_NAME_RSA_PSS
        (Demo.pss_store (VNum 15)) (VRef 0%nat) = None ->
      e1 = salt_error (VNum 15) /\ e2 = salt_error (VNum 15))) /\
  forwards Demo.env
    (run (RsaPSS_sign Demo.env (VRef 0%nat) (VRef 3%nat) (VBuffer [x05]) deliver)
         (Demo.pss_store (VInfinity false)))
    (RsaPssSign 1%nat "SHA256" (VInfinity false) (VBuffer [x05])).
Proof.
  split.
  - apply (proj1 (RsaPSS_saltLength_checked_and_converted Demo.env
                    (Demo.pss_store (VNum 15)) (VRef 0%nat) (VRef 3%nat)
                    (VBuffer [x01]) (VBuffer [x05]) (VNum 15) eq_refl)).
    right. right. right. left. exists 15. split; [reflexivity|].
    right. vm_compute. discriminate.
  - apply (proj1 (proj1 (proj2 (proj2
             (RsaPSS_saltLength_checked_and_converted Demo.env
                (Demo.pss_store (VInfinity false)) (VRef 0%nat) (VRef 3%nat)
                (VBuffer [x01]) (VBuffer [x05]) (VInfinity false) eq_refl)))
             false 1%nat "SHA-256"%string eq_refl eq_refl)).
    split; [reflexivity|]. split; [reflexivity|].
    exists (VRef 0%nat), (VRef 1%nat). repeat split; try reflexivity.
    vm_compute. tauto.
Defined.

(** ** Verification results *)

(** C9.  RSASSA-PKCS1-v1_5 and RSA-PSS verify hand the caller's callback to
    the engine unchanged.  With an accepted algorithm identifier (for
    RSA-PSS also a saltLength that is a non-zero multiple of 8) and a usable
    public key, the engine is called once, with the key's native handle, the
    digest of the key's hash, the data and the signature, and whatever it
    completes with is what the caller receives; so when the engine reports
    the signature as invalid, which it does by completing with
    (null, false), the caller receives exactly that: no error and the
    result [false].  The same holds in whatever way the engine was reached.
    A key of the wrong role and a rejected algorithm identifier, by
    contrast, make the only event the delivery of an error. *)
Theorem verify_invalid_signature_is_false E h alg key signature data :
  (forall k hn,
     base_checkAlgorithmIdentifier E ALG_NAME_RSA_PKCS1 h alg = None ->
     usable_key E h key "public" k hn ->
     forwards E (run (RsaPKCS1_verify E alg key signature data deliver) h)
       (Verify k (digest_name E hn) data signature) /\
     (engine E (Verify k (digest_name E hn) data signature) =
        native_verify_result false ->
      events (run (RsaPKCS1_verify E alg key signature data deliver) h) =
      [Call (Verify k (digest_name E hn) data signature);
       Deliver None (VBool false)])) /\
  (forall k hn n,
     base_checkAlgorithmIdentifier E ALG_NAME_RSA_PSS h alg = None ->
     read h alg "saltLength" = Some (VNum n) -> n <> 0 -> Z.rem n 8 = 0 ->
     usable_key E h key "public" k hn ->
     forwards E (run (RsaPSS_verify E alg key signature data deliver) h)
       (RsaPssVerify k (digest_name E hn) (VNum (Z.quot n 8)) data signature) /\
     (engine E (RsaPssVerify k (digest_name E hn) (VNum (Z.quot n 8)) data signature) =
        native_verify_result false ->
      events (run (RsaPSS_verify E alg key signature data deliver) h) =
      [Call (RsaPssVerify k (digest_name E hn) (VNum (Z.quot n 8)) data signature);
       Deliver None (VBool false)])) /\
  (forall r,
     In (Call r) (events (run (RsaPKCS1_verify E alg key signature data deliver) h)) ->
     engine E r = native_verify_result false ->
     events (run (RsaPKCS1_verify E alg key signature data deliver) h) =
     [Call r; Deliver None (VBool false)]) /\
  (forall r,
     In (Call r) (events (run (RsaPSS_verify E alg key signature data deliver) h)) ->
     engine E r = native_verify_result false ->
     events (run (RsaPSS_verify E alg key signature data deliver) h) =
     [Call r; Deliver None (VBool false)]) /\
  (forall t,
     read h key "type" = Some t -> strict_eq_str t "public" = false ->
     (exists e, events (run (RsaPKCS1_verify E alg key signature data deliver) h) =
                [Deliver (Some e) VNull]) /\
     (exists e, events (run (RsaPSS_verify E alg key signature data deliver) h) =
                [Deliver (Some e) VNull])) /\
  (forall e,
     base_checkAlgorithmIdentifier E ALG_NAME_RSA_PKCS1 h alg = Some e ->
     events (run (RsaPKCS1_verify E alg key signature data deliver) h) =
     [Deliver (Some e) VNull]) /\
  (forall e,
     base_checkAlgorithmIdentifier E ALG_NAME_RSA_PSS h alg = Some e ->
     events (run (RsaPSS_verify E alg key signature data deliver) h) =
     [Deliver (Some e) VNull]).
Proof.
  split; [|split; [|split; [|split; [|split; [|split]]]]].
  - intros k hn Hid Hkey.
    pose proof (RsaPKCS1_verify_accepts E h alg key signature data k hn Hid Hkey) as Hf.
    split; [exact Hf | apply forwards_verify_result, Hf].
  - intros k hn n Hid Hsl Hn Hr Hkey.
    destruct (salt_multiple_of_8 E n Hn Hr) as (Ht & Hrem & Hdiv).
    pose proof (RsaPSS_verify_accepts E h alg key signature data (VNum n) k hn
                  Hid Hsl Ht Hrem Hkey) as Hf.
    rewrite Hdiv in Hf.
    split; [exact Hf | apply forwards_verify_result, Hf].
  - intros r Hin Hres.
    destruct (RsaPKCS1_verify_forwards E h alg key signature data r Hin)
      as (k & md & err & p & d & -> & He & Hev & Hd).
    rewrite Hres in He. injection He as <- <-.
    rewrite Hev, (Hd false eq_refl). reflexivity.
  - intros r Hin Hres.
    destruct (RsaPSS_verify_forwards E h alg key signature data r Hin)
      as (k & md & sl & err & p & d & -> & He & Hev & Hd).
    rewrite Hres in He. injection He as <- <-.
    rewrite Hev, (Hd false eq_refl). reflexivity.
  - intros t Ht Hne. split.
    + eapply RsaPKCS1_verify_wrong_role; eassumption.
    + eapply RsaPSS_verify_wrong_role; eassumption.
  - apply verify_rejected_identifier.
  - apply verify_rejected_identifier.
Qed.

(** The toy engine rejects the signature [02]: verify resolves with false,
    under RSASSA-PKCS1-v1_5 and under RSA-PSS with a salt of 32 bits. *)
Lemma verify_invalid_signature_is_false_demo :
  events (run (RsaPKCS1_verify Demo.env (VRef 0%nat) (VRef 2%nat) (VBuffer [x02])
                 (VBuffer [x05]) deliver)
              (Demo.store_with_keys "RSASSA-PKCS1-v1_5" "SHA-256" true)) =
  [Call (Verify 1%nat "SHA256" (VBuffer [x05]) (VBuffer [x02]));
   Deliver None (VBool false)] /\
  events (run (RsaPSS_verify Demo.env (VRef 0%nat) (VRef 2%nat) (VBuffer [x02])
                 (VBuffer [x05]) deliver)
              (Demo.pss_store (VNum 32))) =
  [Call (RsaPssVerify 1%nat "SHA256" (VNum 4) (VBuffer [x05]) (VBuffer [x02]));
   Deliver None (VBool false)].
Proof.
  assert (Hin : In (toUpperCase Demo.env "SHA-256") HASH_ALGS)
    by (vm_compute; tauto).
  split.
  - apply (proj2 (proj1 (verify_invalid_signature_is_false Demo.env
                  (Demo.store_with_keys "RSASSA-PKCS1-v1_5" "SHA-256" true)
                  (VRef 0%nat) (VRef 2%nat) (VBuffer [x02]) (VBuffer [x05]))
                  1%nat "SHA-256"%string eq_refl
                  (proj1 (usable_demo_keys "RSASSA-PKCS1-v1_5" "SHA-256" true Hin)))).
    reflexivity.
  - assert (Hkey : usable_key Demo.env (Demo.pss_store (VNum 32)) (VRef 2%nat)
                     "public" 1%nat "SHA-256").
    { split; [reflexivity|]. split; [reflexivity|].
      exists (VRef 0%nat), (VRef 1%nat). repeat split; try reflexivity.
      exact Hin. }
    apply (proj2 (proj1 (proj2 (verify_invalid_signature_is_false Demo.env
                  (Demo.pss_store (VNum 32))
                  (VRef 0%nat) (VRef 2%nat) (VBuffer [x02]) (VBuffer [x05])))
                  1%nat "SHA-256"%string 32 eq_refl eq_refl ltac:(lia) eq_refl Hkey)).
    reflexivity.
Defined.

(** ** The JWK algorithm tag *)

(** With a key whose hash name ends in digits and an engine that hands over
    an encodable JWK object, the export of a class succeeds and tags the
    object. *)
Lemma exportKey_jwk_succeeds E v h key k role a hh nm digits err o :
  read h key "native" = Some (VKey k) ->
  read h key "type" = Some (VStr role) ->
  read h key "algorithm" = Some a ->
  read h a "hash" = Some hh ->
  read h hh "name" = Some nm ->
  trailing_digits (to_string E nm) = Some digits ->
  engine E (ExportJwk k (export_type role)) = (err, PObject o) ->
  encodable E o role ->
  events (run (exportKey E v "jwk" key deliver) h) =
    [Call (ExportJwk k (export_type role)); Deliver None (VRef (List.length h))] /\
  read (heap (run (exportKey E v "jwk" key deliver) h)) (VRef (List.length h)) "alg" =
    Some (VStr (jwk_alg v digits)).
Proof.
  intros Hn Hty Ha Hh Hnm Hd He Henc.
  unfold export_type in *.
  change (String.eqb role "public") with (strict_eq_str (VStr role) "public") in *.
  assert (Hpub : forall f, f = "e"%string \/ f = "n"%string ->
            exists s, Base64Url_encode E (default VUndefined (o !! f)) = Ok s).
  { intros f Hf. apply Henc. unfold jwk_fields.
    destruct (String.eqb role "private"); destruct Hf as [-> | ->]; cbn; auto. }
  destruct (Hpub "e"%string) as [se Hse]; [tauto|].
  destruct (Hpub "n"%string) as [sn Hsn]; [tauto|].
  wp_start. destruct v; repeat wp_step_null.
  all: try congruence.
  all: try (match goal with
       | Hl : Base64Url_encode _ (match _ !! ?f with _ => _ end) = Thrown _ |- _ =>
           exfalso; destruct (Henc f) as [? Hs];
           [ unfold jwk_fields; cbn [strict_eq_str] in *;
             repeat match goal with H : String.eqb _ _ = _ |- _ => rewrite H end;
             try destruct (String.eqb role "private"); cbn; auto 10
           | pose proof (eq_trans (eq_sym Hs) Hl) as Hx; discriminate Hx ]
       end).
  all: cbn [app jwk_alg].
  all: replace d with digits in * by congruence.
  all: try match goal with
           | Hb : negb (_ =? "1")%string = true |- _ =>
               apply negb_true_iff in Hb; rewrite Hb
           | Hb : negb (_ =? "1")%string = false |- _ =>
               apply negb_false_iff in Hb; rewrite Hb
           end.
  all: (split; [reflexivity | read_tac]).
Qed.

(** What a successful export can deliver. *)
Lemma exportKey_jwk_success_cases E v h key d :
  In (Deliver None d) (events (run (exportKey E v "jwk" key deliver) h)) ->
  (exists l, d = VRef l) \/
  (exists k t err p,
     engine E (ExportJwk k t) = (err, p) /\ d = payload_result p [] /\
     forall o, p <> PObject o).
Proof.
  wp_start.
  destruct v; wp_run.
  all: cbn [app In].
  all: try (intros [H|[]]; discriminate H).
  all: try (intros [H|[H|[]]]; discriminate H).
  all: intros [H|[H|[]]]; [discriminate H|]; injection H as H.
  all: match goal with
       | H : payload_result ?p _ = _ |- _ =>
           destruct p; cbn [payload_result] in H; subst d;
           first [ left; eexists; reflexivity
                 | right; eexists _, _, _, _;
                   split; [eassumption | split; [reflexivity | discriminate]] ]
       end.
Qed.

(** The toy engine's JWK objects can be encoded. *)
Lemma encodable_demo :
  encodable Demo.env Demo.jwk_public "public" /\
  encodable Demo.env Demo.jwk_private "private".
Proof.
  split; intros f Hf; cbn in Hf;
    repeat (destruct Hf as [<-|Hf]; [eexists; vm_compute; reflexivity|]);
    destruct Hf.
Qed.

(** C8.  exportKey("jwk", key) of a class succeeds, for a key with a native
    handle, a role and an algorithm whose hash name ends in digits (the
    match of /(\d+)$/), whenever the engine hands over a JWK object whose
    properties the codec encodes: the engine is asked once and the callback
    receives that object, with no error.  The [alg] property of the
    delivered object is then the class's tag built from those digits: "RS"
    or "PS" followed by the digits, and for RSA-OAEP "RSA-OAEP-" followed by
    the digits unless the digits are "1", in which case it is "RSA-OAEP"
    alone.  Conversely, every JWK object that a successful export delivers
    carries that tag, the hash name being read on the store the caller
    observes at completion (the export does not modify the key); and a
    successful export delivers something other than an object only if the
    engine completed exportJwk with one of its own values in place of the
    JWK. *)
Theorem exportKey_jwk_alg_tag E v h key :
  (forall k role a hh nm digits err o,
     read h key "native" = Some (VKey k) ->
     read h key "type" = Some (VStr role) ->
     read h key "algorithm" = Some a ->
     read h a "hash" = Some hh ->
     read h hh "name" = Some nm ->
     trailing_digits (to_string E nm) = Some digits ->
     engine E (ExportJwk k (export_type role)) = (err, PObject o) ->
     encodable E o role ->
     events (run (exportKey E v "jwk" key deliver) h) =
       [Call (ExportJwk k (export_type role)); Deliver None (VRef (List.length h))] /\
     read (heap (run (exportKey E v "jwk" key deliver) h)) (VRef (List.length h)) "alg" =
       Some (VStr (jwk_alg v digits))) /\
  (forall l,
     In (Deliver None (VRef l)) (events (run (exportKey E v "jwk" key deliver) h)) ->
     exists a hh nm digits,
       read (heap (run (exportKey E v "jwk" key deliver) h)) key "algorithm" = Some a /\
       read (heap (run (exportKey E v "jwk" key deliver) h)) a "hash" = Some hh /\
       read (heap (run (exportKey E v "jwk" key deliver) h)) hh "name" = Some nm /\
       trailing_digits (to_string E nm) = Some digits /\
       read (heap (run (exportKey E v "jwk" key deliver) h)) (VRef l) "alg" =
         Some (VStr (jwk_alg v digits))) /\
  (forall d,
     In (Deliver None d) (events (run (exportKey E v "jwk" key deliver) h)) ->
     (exists l, d = VRef l) \/
     (exists k t err p,
        engine E (ExportJwk k t) = (err, p) /\ d = payload_result p [] /\
        forall o, p <> PObject o)).
Proof.
  split; [|split].
  - intros k role a hh nm digits err o. apply exportKey_jwk_succeeds.
  - intros l Hin. eapply exportKey_jwk_object_tagged; [reflexivity | exact Hin].
  - intros d. apply exportKey_jwk_success_cases.
Qed.

(** The tags of four keys: RS256 for a public RSASSA-PKCS1-v1_5 key over
    SHA-256, PS384 for a private RSA-PSS key over SHA-384, RSA-OAEP for a
    key over SHA-1 and RSA-OAEP-512 for a key over SHA-512. *)
Lemma exportKey_jwk_alg_tag_demo :
  (events (run (exportKey Demo.env PKCS1 "jwk" (VRef 2%nat) deliver)
               (Demo.store_with_keys "RSASSA-PKCS1-v1_5" "SHA-256" true)) =
     [Call (ExportJwk 1%nat PUBLIC); Deliver None (VRef 5%nat)] /\
   read (heap (run (exportKey Demo.env PKCS1 "jwk" (VRef 2%nat) deliver)
                   (Demo.store_with_keys "RSASSA-PKCS1-v1_5" "SHA-256" true)))
        (VRef 5%nat) "alg" = Some (VStr "RS256")) /\
  (events (run (exportKey Demo.env PSS "jwk" (VRef 3%nat) deliver)
               (Demo.store_with_keys "RSA-PSS" "SHA-384" true)) =
     [Call (ExportJwk 1%nat PRIVATE); Deliver None (VRef 5%nat)] /\
   read (heap (run (exportKey Demo.env PSS "jwk" (VRef 3%nat) deliver)
                   (Demo.store_with_keys "RSA-PSS" "SHA-384" true)))
        (VRef 5%nat) "alg" = Some (VStr "PS384")) /\
  (events (run (exportKey Demo.env OAEP "jwk" (VRef 2%nat) deliver)
               (Demo.store_with_keys "RSA-OAEP" "SHA-1" true)) =
     [Call (ExportJwk 1%nat PUBLIC); Deliver None (VRef 5%nat)] /\
   read (heap (run (exportKey Demo.env OAEP "jwk" (VRef 2%nat) deliver)
                   (Demo.store_with_keys "RSA-OAEP" "SHA-1" true)))
        (VRef 5%nat) "alg" = Some (VStr "RSA-OAEP")) /\
  (events (run (exportKey Demo.env OAEP "jwk" (VRef 3%nat) deliver)
               (Demo.store_with_keys "RSA-OAEP" "SHA-512" true)) =
     [Call (ExportJwk 1%nat PRIVATE); Deliver None (VRef 5%nat)] /\
   read (heap (run (exportKey Demo.env OAEP "jwk" (VRef 3%nat) deliver)
                   (Demo.store_with_keys "RSA-OAEP" "SHA-512" true)))
        (VRef 5%nat) "alg" = Some (VStr "RSA-OAEP-512")).
Proof.
  split; [|split; [|split]].
  - exact (proj1 (exportKey_jwk_alg_tag Demo.env PKCS1
             (Demo.store_with_keys "RSASSA-PKCS1-v1_5" "SHA-256" true) (VRef 2%nat))
             1%nat "public"%string (VRef 0%nat) (VRef 1%nat) (VStr "SHA-256") "256"%string
             None Demo.jwk_public eq_refl eq_refl eq_refl eq_refl eq_refl eq_refl eq_refl
             (proj1 encodable_demo)).
  - exact (proj1 (exportKey_jwk_alg_tag Demo.env PSS
             (Demo.store_with_keys "RSA-PSS" "SHA-384" true) (VRef 3%nat))
             1%nat "private"%string (VRef 0%nat) (VRef 1%nat) (VStr "SHA-384") "384"%string
             None Demo.jwk_private eq_refl eq_refl eq_refl eq_refl eq_refl eq_refl eq_refl
             (proj2 encodable_demo)).
  - exact (proj1 (exportKey_jwk_alg_tag Demo.env OAEP
             (Demo.store_with_keys "RSA-OAEP" "SHA-1" true) (VRef 2%nat))
             1%nat "public"%string (VRef 0%nat) (VRef 1%nat) (VStr "SHA-1") "1"%string
             None Demo.jwk_public eq_refl eq_refl eq_refl eq_refl eq_refl eq_refl eq_refl
             (proj1 encodable_demo)).
  - exact (proj1 (exportKey_jwk_alg_tag Demo.env OAEP
             (Demo.store_with_keys "RSA-OAEP" "SHA-512" true) (VRef 3%nat))
             1%nat "private"%string (VRef 0%nat) (VRef 1%nat) (VStr "SHA-512") "512"%string
             None Demo.jwk_private eq_refl eq_refl eq_refl eq_refl eq_refl eq_refl eq_refl
             (proj2 encodable_demo)).
Defined.
